(** * MT5 automated execution framework: a shallow embedding

    Source: [src/MT5_Automated_Execution_Framework.py].

    Numbers.  The program computes with IEEE binary64 values (Python
    [float], numpy [float64]).  Finite values are modelled by exact
    rationals ([Q]); the three special values the program can produce
    (the two infinities and NaN) are kept, with the IEEE rules for
    comparison and arithmetic on them.  In the loop the rounding error
    of finite arithmetic and the sign of zero are not modelled.  Where a
    result depends on the binary64 value itself, the rounding of line 53,
    module [Binary64] writes the risk calculation out with every
    operation rounded to 53 significant bits.

    Imports.  Line 6 of the source reads [from datetime import datetime,
    pytz].  The module [datetime] of the standard library defines no name
    [pytz], so the statement raises ImportError before line 21 is reached.
    [script] is the code from line 20 on, as it runs once the names
    [datetime] and [pytz] are bound; [program] is the file as the
    interpreter runs it, with the import of line 6 before [script].

    Effects.  Calls into the MetaTrader5 terminal, console output, sleeps
    and appends to the audit file are recorded as a trace of events; the
    answers of the terminal are read from an environment.  An uncaught
    Python exception ends a computation. *)

From Stdlib Require Import QArith Qround Qabs Qminmax Qpower ZArith List String Bool Lia Lqa.
From Stdlib Require Import DecimalString.
Import ListNotations.
Local Open Scope Q_scope.

(** ** Floating-point values *)

Module Float.

Inductive float : Type :=
| Fin (q : Q)
| PInf
| NInf
| NaN.

Definition Qltb (x y : Q) : bool := negb (Qle_bool y x).

Definition of_Z (z : Z) : float := Fin (inject_Z z).

(** [a < b]; every comparison with NaN is false. *)
Definition ltb (a b : float) : bool :=
  match a, b with
  | NaN, _ | _, NaN => false
  | Fin x, Fin y => Qltb x y
  | _, NInf => false
  | NInf, _ => true
  | PInf, _ => false
  | Fin _, PInf => true
  end.

(** [a <= b]. *)
Definition leb (a b : float) : bool :=
  match a, b with
  | NaN, _ | _, NaN => false
  | Fin x, Fin y => Qle_bool x y
  | NInf, _ => true
  | _, PInf => true
  | PInf, _ => false
  | Fin _, NInf => false
  end.

Definition gtb (a b : float) : bool := ltb b a.
Definition geb (a b : float) : bool := leb b a.

Definition is_nan (a : float) : bool :=
  match a with NaN => true | _ => false end.

Definition abs (a : float) : float :=
  match a with
  | Fin q => Fin (Qabs q)
  | PInf | NInf => PInf
  | NaN => NaN
  end.

(** Sign of a value that is not NaN; zero counts as [Eq]. *)
Definition sign (a : float) : comparison :=
  match a with
  | Fin q => Qcompare q 0
  | PInf => Gt
  | NInf => Lt
  | NaN => Eq
  end.

Definition inf_of_sign (c : comparison) : float :=
  match c with Gt => PInf | Lt => NInf | Eq => NaN end.

Definition sign_mul (c d : comparison) : comparison :=
  match c, d with
  | Eq, _ | _, Eq => Eq
  | Gt, x => x
  | Lt, x => CompOpp x
  end.

Definition sub (a b : float) : float :=
  match a, b with
  | NaN, _ | _, NaN => NaN
  | Fin x, Fin y => Fin (x - y)
  | PInf, PInf | NInf, NInf => NaN
  | PInf, _ | _, NInf => PInf
  | NInf, _ | _, PInf => NInf
  end.

Definition add (a b : float) : float :=
  match a, b with
  | NaN, _ | _, NaN => NaN
  | Fin x, Fin y => Fin (x + y)
  | PInf, NInf | NInf, PInf => NaN
  | PInf, _ | _, PInf => PInf
  | NInf, _ | _, NInf => NInf
  end.

Definition mul (a b : float) : float :=
  match a, b with
  | NaN, _ | _, NaN => NaN
  | Fin x, Fin y => Fin (x * y)
  | _, _ => inf_of_sign (sign_mul (sign a) (sign b))
  end.

(** IEEE (numpy) division: a zero divisor gives an infinity, or NaN for
    [0 / 0]; no exception. *)
Definition div (a b : float) : float :=
  match a, b with
  | NaN, _ | _, NaN => NaN
  | Fin x, Fin y => if Qeq_bool y 0 then inf_of_sign (Qcompare x 0) else Fin (x / y)
  | Fin _, _ => Fin 0
  | _, Fin y => if Qltb y 0 then inf_of_sign (CompOpp (sign a)) else a
  | _, _ => NaN
  end.

Definition is_zero (a : float) : bool :=
  match a with Fin q => Qeq_bool q 0 | _ => false end.

(** Python's [a / b] on two Python floats: a zero divisor raises
    ZeroDivisionError ([None] here). *)
Definition py_truediv (a b : float) : option float :=
  if is_zero b then None else Some (div a b).

(** [numpy.maximum]: NaN if either argument is NaN. *)
Definition np_maximum (a b : float) : float :=
  if is_nan a || is_nan b then NaN else if ltb a b then b else a.

(** Python's built-in [max(a, b)] and [min(a, b)] on two arguments: the
    first argument is kept unless the second compares strictly beyond
    it. *)
Definition py_max (a b : float) : float := if gtb b a then b else a.
Definition py_min (a b : float) : float := if ltb b a then b else a.

(** Nearest integer, ties to the even one. *)
Definition round_half_even (q : Q) : Z :=
  let f := Qfloor q in
  match Qcompare (q - inject_Z f) (1 # 2) with
  | Lt => f
  | Gt => (f + 1)%Z
  | Eq => if Z.even f then f else (f + 1)%Z
  end.

Definition pow10 (n : nat) : Z := (10 ^ Z.of_nat n)%Z.

(** [round(x, ndigits)] on a finite value. *)
Definition Qround_nd (n : nat) (q : Q) : Q :=
  inject_Z (round_half_even (q * inject_Z (pow10 n))) / inject_Z (pow10 n).

(** Python's [round(x, ndigits)]; NaN and the infinities are returned
    unchanged. *)
Definition round (a : float) (n : nat) : float :=
  match a with
  | Fin q => Fin (Qround_nd n q)
  | _ => a
  end.

(** The format [{x:.2f}]. *)
Definition string_of_Z (z : Z) : string :=
  NilZero.string_of_uint (N.to_uint (Z.to_N z)).

Definition two_digits (z : Z) : string :=
  ((if (z <? 10)%Z then "0" else "") ++ string_of_Z z)%string.

Definition format_2f (a : float) : string :=
  match a with
  | NaN => "nan"
  | PInf => "inf"
  | NInf => "-inf"
  | Fin q =>
      let n := round_half_even (Qabs q * 100) in
      ((if Qltb q 0 then "-" else "")
         ++ string_of_Z (n / 100) ++ "." ++ two_digits (n mod 100))%string
  end.

End Float.

Import Float.
Coercion Fin : Q >-> float.

(** ** Configuration and hyperparameters (lines 9-18) *)

Definition SYMBOL : string := "EURJPY".
Definition MAGIC_NUMBER : Z := 123456.
Definition LOOKBACK : nat := 100.
Definition ENTRY_Z : float := Fin (22 # 10).
Definition EXIT_Z : float := Fin (2 # 10).
Definition STOP_Z : float := Fin 4.
Definition RISK_PER_TRADE : float := Fin (1 # 100).
Definition MAX_TRADE_DURATION_HOURS : Q := 8.

(** Constants of the MetaTrader5 package that the source refers to. *)
Definition POSITION_TYPE_BUY : Z := 0.
Definition ORDER_TYPE_BUY : Z := 0.
Definition ORDER_TYPE_SELL : Z := 1.
Definition TRADE_ACTION_DEAL : Z := 1.
Definition ORDER_FILLING_IOC : Z := 1.
Definition TRADE_RETCODE_DONE : Z := 10009.

(** ** Data *)

(** [active_position] is [None], ["LONG"] or ["SHORT"]. *)
Inductive direction : Type := LONG | SHORT.

Definition direction_str (d : direction) : string :=
match d with LONG => "LONG" | SHORT => "SHORT" end.

Definition direction_eqb (a b : direction) : bool :=
match a, b with
| LONG, LONG | SHORT, SHORT => true
| _, _ => false
end.

(** An open position as [mt5.positions_get] reports it (fields read by the
    source). *)
Record position : Type := mkPosition {
  magic : Z;
  type : Z;
  price_open : float;
  time : Z;
  volume : float
}.

(** One row of [mt5.copy_rates_from_pos]. *)
Record bar : Type := mkBar {
  bar_time : Z;
  open : Q;
  high : Q;
  low : Q;
  close : Q
}.

(** The latest quote of [mt5.symbol_info_tick]. *)
Record tick : Type := mkTick {
  ask : float;
  bid : float
}.

(** The request dictionary passed to [mt5.order_send]; [deviation] is
    absent from closing requests. *)
Record request : Type := mkRequest {
  req_action : Z;
  req_symbol : string;
  req_volume : float;
  req_type : Z;
  req_price : float;
  req_deviation : option Z;
  req_magic : Z;
  req_comment : string;
  req_type_filling : Z
}.

(** One row of the audit file, as [log_trade] builds it.  [Timestamp] is
    the clock reading (seconds since the epoch) that the source formats. *)
Record audit_record : Type := mkAudit {
  Timestamp : Q;
  Action : string;
  Status : string;
  Price : float;
  Lots : float;
  PnL_JPY : float;
  Reason : string
}.

(** The four module-level variables of the main loop.  [None] is Python's
    [None]; times are seconds since the epoch (UTC). *)
Record state : Type := mkState {
  active_position : option direction;
  entry_price : option float;
  trade_entry_time : option Q;
  trade_lots : float
}.

(** ** Effects *)

Inductive mt5_call : Type :=
| Initialize
| Shutdown
| TerminalInfo
| PositionsGet
| SymbolInfo
| SymbolInfoTick
| CopyRatesFromPos (count : nat)
| AccountInfo
| OrderSend (r : request).

Inductive message : Type :=
| MsgInitFailed
| MsgRecovered (d : direction) (price : float)
| MsgRiskTooLow (lot : float)
| MsgLogged (action status : string) (price : float) (reason : string)
| MsgOnline
| MsgConnectionLost
| MsgStopping.

Inductive event : Type :=
| Mt5 (c : mt5_call)
| Print (m : message)
| Sleep (seconds : Z)
| AppendCsv (r : audit_record).

Inductive exn : Type :=
| AttributeError
| IndexError
| TypeError
| ZeroDivisionError.

Inductive result (A : Type) : Type :=
| Ok (a : A)
| Raise (e : exn).
Arguments Ok {A} a.
Arguments Raise {A} e.

(** A computation: the events it performed, and its value or the
    exception that ended it. *)
Definition M (A : Type) : Type := (list event * result A)%type.

Definition ret {A} (a : A) : M A := ([], Ok a).

Definition bind {A B} (m : M A) (f : A -> M B) : M B :=
match m with
| (t, Ok a) => let (t', r) := f a in (t ++ t', r)
| (t, Raise e) => (t, Raise e)
end.

Definition emit (e : event) : M unit := ([e], Ok tt).
Definition raise {A} (e : exn) : M A := ([], Raise e).

(** Reading an attribute of a value that may be [None]. *)
Definition get_attr {A} (o : option A) : M A :=
match o with Some a => ret a | None => raise AttributeError end.

(** Using a variable that may hold [None] as an operand. *)
Definition operand {A} (o : option A) : M A :=
match o with Some a => ret a | None => raise TypeError end.

Declare Scope monad_scope.
Delimit Scope monad_scope with monad.
Notation "x <- m ;; k" := (bind m (fun x => k))
  (at level 61, m at next level, right associativity) : monad_scope.
Notation "m ;;; k" := (bind m (fun _ => k))
  (at level 61, right associativity) : monad_scope.
Local Open Scope monad_scope.

Definition trace {A} (m : M A) : list event := fst m.
Definition outcome {A} (m : M A) : result A := snd m.

(** What a trace did to the outside world. *)
Definition orders_of (t : list event) : list request :=
flat_map (fun e => match e with Mt5 (OrderSend r) => [r] | _ => [] end) t.

Definition audit_of (t : list event) : list audit_record :=
flat_map (fun e => match e with AppendCsv r => [r] | _ => [] end) t.

(** [e] is the call [c]; used for the calls that take no argument. *)
Definition is_call (c : mt5_call) (e : event) : bool :=
match e, c with
| Mt5 Initialize, Initialize | Mt5 Shutdown, Shutdown
| Mt5 TerminalInfo, TerminalInfo | Mt5 PositionsGet, PositionsGet
| Mt5 SymbolInfo, SymbolInfo | Mt5 SymbolInfoTick, SymbolInfoTick
| Mt5 AccountInfo, AccountInfo => true
| _, _ => false
end.

(** ** The terminal and the clock, as seen during one pass of the loop *)

Record cycle_env : Type := mkEnv {
  (** [mt5.terminal_info().connected]; [None] when the call returns [None] *)
  terminal_connected : option bool;
  (** the history [mt5.copy_rates_from_pos] can draw on, oldest bar first;
      [None] when the call returns [None] *)
  rates_history : option (list bar);
  (** [mt5.account_info().equity] *)
  account_equity : option float;
  (** [mt5.symbol_info(SYMBOL).trade_tick_value] *)
  trade_tick_value : option float;
  (** [mt5.symbol_info_tick(SYMBOL)] *)
  symbol_info_tick : option tick;
  (** [mt5.order_send(request).retcode]; [None] when the call returns
      [None] *)
  order_send : request -> option Z;
  (** the clock, one reading per pass, seconds since the epoch (UTC) *)
  now : Q
}.

(** [Series.tail(n)]: the last [n] elements (all of them if fewer). *)
Definition tail {A} (n : nat) (l : list A) : list A :=
skipn (List.length l - n) l.

(** [mt5.copy_rates_from_pos(SYMBOL, TIMEFRAME, 0, count)]: the [count]
    latest bars, fewer if the history is shorter. *)
Definition copy_rates_from_pos (env : cycle_env) (count : nat) : option (list bar) :=
option_map (tail count) (rates_history env).

(** ** 1. State recovery (lines 26-37) *)

Definition no_position : state :=
mkState None None None (Fin 0).

Definition check_existing_position (positions : option (list position)) : M state :=
emit (Mt5 PositionsGet) ;;;
match positions with
| Some ((_ :: _) as positions) =>
    let bot_positions := filter (fun p => (magic p =? MAGIC_NUMBER)%Z) positions in
    match bot_positions with
    | pos :: _ =>
        let direction := if (type pos =? POSITION_TYPE_BUY)%Z then LONG else SHORT in
        emit (Print (MsgRecovered direction (price_open pos))) ;;;
        ret (mkState (Some direction) (Some (price_open pos))
                     (Some (inject_Z (time pos))) (volume pos))
    | [] => ret no_position
    end
| _ => ret no_position
end.

(** ** 2. Risk calculation (lines 40-53)

    The caller passes a Python float [risk_amount] and a numpy float64
    [stop_pips].  [max(stop_pips, 10.0)] is the Python literal exactly when
    [10.0 > stop_pips]; the divisor is then a Python float and a zero
    divisor raises, otherwise the division is numpy's. *)

Definition get_lot_size (env : cycle_env) (risk_amount stop_pips : float) : M float :=
emit (Mt5 SymbolInfo) ;;;
tick_value <- get_attr (trade_tick_value env) ;;
let floored := gtb (Fin 10) stop_pips in
let stop_pips := py_max stop_pips (Fin 10) in
let divisor := mul (mul stop_pips tick_value) (Fin 100) in
lot <- (if floored
        then match py_truediv risk_amount divisor with
             | Some lot => ret lot
             | None => raise ZeroDivisionError
             end
        else ret (div risk_amount divisor)) ;;
if ltb lot (Fin (1 # 100)) then
  emit (Print (MsgRiskTooLow lot)) ;;;
  ret (Fin 0)
else
  ret (round (py_min lot (Fin 10)) 2).

(** ** 3. Auditing (lines 56-69) *)

Definition log_trade (env : cycle_env) (action status : string)
  (price lots pnl : float) (reason : string) : M unit :=
emit (AppendCsv (mkAudit (now env) action status (round price 3) lots
                         (round pnl 2) reason)) ;;;
emit (Print (MsgLogged action status price reason)).

(** The audit file after a trace: [None] while the file does not exist;
    [to_csv] creates it (writing the header row first) and appends. *)
Definition audit_file_after (file : option (list audit_record)) (t : list event)
  : option (list audit_record) :=
match audit_of t with
| [] => file
| rs => Some (match file with Some old => old | None => [] end ++ rs)
end.

(** ** Execution engine (lines 72-108) *)

Definition send_market_order (env : cycle_env) (action : direction) (lot : float)
  (comment : string) : M (option Z) :=
emit (Mt5 SymbolInfoTick) ;;;
tick <- get_attr (symbol_info_tick env) ;;
let order_type := if direction_eqb action LONG then ORDER_TYPE_BUY else ORDER_TYPE_SELL in
let price := if direction_eqb action LONG then ask tick else bid tick in
let request := mkRequest TRADE_ACTION_DEAL SYMBOL lot order_type price (Some 20%Z)
                         MAGIC_NUMBER comment ORDER_FILLING_IOC in
emit (Mt5 (OrderSend request)) ;;;
ret (order_send env request).

Definition close_position (env : cycle_env) (action : direction) (lot : float)
  (comment : string) : M (option Z) :=
emit (Mt5 SymbolInfoTick) ;;;
tick <- get_attr (symbol_info_tick env) ;;
let order_type := if direction_eqb action LONG then ORDER_TYPE_SELL else ORDER_TYPE_BUY in
let price := if direction_eqb action LONG then bid tick else ask tick in
let request := mkRequest TRADE_ACTION_DEAL SYMBOL lot order_type price None
                         MAGIC_NUMBER comment ORDER_FILLING_IOC in
emit (Mt5 (OrderSend request)) ;;;
ret (order_send env request).

(** ** Data fetching (lines 111-126) *)

(** Sum of a series, kept in lowest terms. *)
Definition Qsum (l : list Q) : Q := fold_right (fun x acc => Qred (x + acc)) 0 l.

(** [Series.mean()]: NaN on an empty series. *)
Definition series_mean (l : list Q) : float :=
div (Fin (Qsum l)) (of_Z (Z.of_nat (List.length l))).

(** Sum of squared deviations from the mean, over [n - 1]. *)
Definition sample_variance (l : list Q) : Q :=
let m := Qsum l / inject_Z (Z.of_nat (List.length l)) in
Qsum (map (fun x => (x - m) * (x - m)) l) / inject_Z (Z.of_nat (List.length l - 1)).

(** True range per bar; [close.shift()] is NaN on the first row and
    [numpy.maximum] propagates it. *)
Fixpoint true_range (prev_close : float) (bars : list bar) : list float :=
match bars with
| [] => []
| b :: bs =>
    np_maximum (Fin (high b - low b))
      (np_maximum (abs (sub (Fin (high b)) prev_close))
                  (abs (sub (Fin (low b)) prev_close)))
    :: true_range (Fin (close b)) bs
end.

(** [series.rolling(w).mean().iloc[-1]] on a series that is not empty:
    NaN unless the last [w] rows exist and none of them is NaN. *)
Definition rolling_mean_last (w : nat) (l : list float) : float :=
let window := tail w l in
if (List.length window <? w)%nat || existsb is_nan window then NaN
else div (fold_right add (Fin 0) window) (of_Z (Z.of_nat w)).

Section Engine.

(** The square root of the numerics library. *)
Variable sqrt : Q -> Q.

(** [Series.std()], with pandas' default [ddof=1]: NaN on fewer than two
    values. *)
Definition series_std (l : list Q) : float :=
if (List.length l <=? 1)%nat then NaN else Fin (sqrt (sample_variance l)).

Definition z_score_of (closes : list Q) : float :=
let close_series := tail LOOKBACK closes in
div (sub (Fin (last closes 0)) (series_mean close_series)) (series_std close_series).

Definition get_indicators (env : cycle_env) : M (option (float * float * float * bool)) :=
emit (Mt5 (CopyRatesFromPos 200)) ;;;
match copy_rates_from_pos env 200 with
| None => ret None
| Some [] => raise IndexError
| Some df =>
    let closes := map close df in
    let z_score := z_score_of closes in
    let tr := true_range NaN df in
    let atr := rolling_mean_last 14 tr in
    let ma200 := rolling_mean_last 200 (map Fin closes) in
    let last_close := Fin (last closes 0) in
    let is_trending := gtb (div (abs (sub last_close ma200)) ma200) (Fin (3 # 100)) in
    ret (Some (z_score, last_close, atr, is_trending))
end.

(** ** Main loop (lines 134-187) *)

(** [datetime.weekday()] (Monday is 0) and [datetime.hour] of a UTC
    clock reading; 1 January 1970 was a Thursday. *)
Definition weekday (t : Q) : Z := ((Qfloor t / 86400 + 3) mod 7)%Z.
Definition hour (t : Q) : Z := ((Qfloor t mod 86400) / 3600)%Z.

Definition set_trade_lots (st : state) (lots : float) : state :=
mkState (active_position st) (entry_price st) (trade_entry_time st) lots.

Definition set_active_position (st : state) (a : option direction) : state :=
mkState a (entry_price st) (trade_entry_time st) (trade_lots st).

(** Lines 148-161. *)
Definition entry_branch (env : cycle_env) (st : state)
  (z price atr : float) (is_trending : bool) : M state :=
if gtb (abs z) ENTRY_Z && negb is_trending then
  emit (Mt5 AccountInfo) ;;;
  equity <- get_attr (account_equity env) ;;
  let risk_cash := mul equity RISK_PER_TRADE in
  let stop_pips := mul atr (Fin 200) in
  trade_lots <- get_lot_size env risk_cash stop_pips ;;
  let st := set_trade_lots st trade_lots in
  if geb trade_lots (Fin (1 # 100)) then
    let direction := if gtb z (Fin 0) then SHORT else LONG in
    res <- send_market_order env direction trade_lots "Z-Entry" ;;
    retcode <- get_attr res ;;
    if (retcode =? TRADE_RETCODE_DONE)%Z then
      let st := mkState (Some direction) (Some price) (Some (now env)) trade_lots in
      log_trade env "ENTRY" (direction_str direction) price trade_lots (Fin 0)
                ("Z:" ++ format_2f z) ;;;
      ret st
    else ret st
  else ret st
else ret st.

Definition exit_reason (hit_target hit_stop time_exit : bool) : string :=
if hit_target then "Target"
else if hit_stop then "Z-Stop"
else if time_exit then "Time"
else "Weekend".

(** Lines 164-185. *)
Definition exit_branch (env : cycle_env) (st : state) (held : direction)
  (z price : float) : M state :=
entry_time <- operand (trade_entry_time st) ;;
let duration := (now env - entry_time) / 3600 in
let hit_target := leb (abs z) EXIT_Z in
let hit_stop := geb (abs z) STOP_Z in
let time_exit := Qltb MAX_TRADE_DURATION_HOURS duration in
let current_time := now env in
let is_weekend_close := ((weekday current_time =? 4) && (20 <=? hour current_time))%Z in
if hit_target || hit_stop || time_exit || is_weekend_close then
  let reason := exit_reason hit_target hit_stop time_exit in
  res <- close_position env held (trade_lots st) reason ;;
  retcode <- get_attr res ;;
  if (retcode =? TRADE_RETCODE_DONE)%Z then
    entry <- operand (entry_price st) ;;
    let pnl := mul (mul (if direction_eqb held SHORT then sub entry price
                         else sub price entry)
                        (trade_lots st)) (Fin 100000) in
    log_trade env "EXIT" (direction_str held) price (trade_lots st) pnl reason ;;;
    ret (set_active_position st None)
  else ret st
else ret st.

(** One pass of the [while True] body.  The two [continue] statements
    skip the final [time.sleep(60)]. *)
Definition cycle (env : cycle_env) (st : state) : M state :=
emit (Mt5 TerminalInfo) ;;;
connected <- get_attr (terminal_connected env) ;;
if negb connected then
  emit (Print MsgConnectionLost) ;;;
  emit (Mt5 Shutdown) ;;;
  emit (Sleep 5) ;;;
  emit (Mt5 Initialize) ;;;
  ret st
else
  data <- get_indicators env ;;
  match data with
  | None => ret st
  | Some (z, price, atr, is_trending) =>
      st <- match active_position st with
            | None => entry_branch env st z price atr is_trending
            | Some held => exit_branch env st held z price
            end ;;
      emit (Sleep 60) ;;;
      ret st
  end.

(** The loop over the passes that take place before the interrupt. *)
Fixpoint main_loop (envs : list cycle_env) (st : state) : M state :=
match envs with
| [] => ret st
| env :: envs => st <- cycle env st ;; main_loop envs st
end.

(** ** The script from line 20 on

    [quit()] raises [SystemExit(None)], so the interpreter ends with status
    0, as it does after the handled [KeyboardInterrupt]; an uncaught
    exception ends it with status 1.  [finally] runs [mt5.shutdown()] in
    both cases of the loop. *)

Record startup : Type := mkStartup {
  initialize_ok : bool;
  startup_positions : option (list position)
}.

Definition script (s : startup) (envs : list cycle_env) : list event * Z :=
if negb (initialize_ok s) then
  ([Mt5 Initialize; Print MsgInitFailed], 0%Z)
else
  match check_existing_position (startup_positions s) with
  | (t0, Raise _) => (Mt5 Initialize :: t0, 1%Z)
  | (t0, Ok st) =>
      match main_loop envs st with
      | (t, Ok _) =>
          (Mt5 Initialize :: t0 ++ Print MsgOnline :: t ++ [Print MsgStopping; Mt5 Shutdown], 0%Z)
      | (t, Raise _) =>
          (Mt5 Initialize :: t0 ++ Print MsgOnline :: t ++ [Mt5 Shutdown], 1%Z)
      end
  end.

(** ** The file as the interpreter runs it (lines 1-192)

    [from datetime import datetime, pytz] asks the module [datetime] for
    two names.  A name that the module does not define raises ImportError;
    nothing catches it, so the interpreter prints the traceback on the
    error stream and ends with status 1 before any other statement of the
    file.  The names that the module defines are a parameter of
    [program]. *)




End Engine.


(** * Vocabulary of the properties *)

(** ** Auxiliary functions *)

(** The value of [max(stop_pips, 10.0)] and of [min(lot, 10.0)] on finite
    arguments. *)
Definition floor_stop (s : Q) : Q := if Qltb s 10 then 10 else s.
Definition cap_lot (lot : Q) : Q := if Qltb 10 lot then 10 else lot.

(** The lot size as a function of the quotient [lot] of line 46. *)
Definition size_of_lot (lot : Q) : Q :=
if Qltb lot (1 # 100) then 0 else Qround_nd 2 (cap_lot lot).

(** The loop variables after the recovery of position [p] (line 36). *)
Definition adopt (p : position) : state :=
mkState (Some (if (type p =? POSITION_TYPE_BUY)%Z then LONG else SHORT))
        (Some (price_open p)) (Some (inject_Z (time p))) (volume p).

(** The branch a pass evaluates once it has its indicators. *)
Definition evaluate (env : cycle_env) (st : state)
  (data : float * float * float * bool) : M state :=
let '(z, price, atr, is_trending) := data in
match active_position st with
| None => entry_branch env st z price atr is_trending
| Some held => exit_branch env st held z price
end.

(** The position held is the same in two states of the loop variables. *)
Definition same_position (st st' : state) : Prop :=
active_position st' = active_position st /\
entry_price st' = entry_price st /\
trade_entry_time st' = trade_entry_time st.

(** The outcome of one order on the position and on the audit file, as the
    main loop handles it: [t] and [res] are trace and result of a pass
    started in state [st].  A fill changes the position and writes one
    record (unless the entry price is missing, which ends the script on a
    TypeError); anything else leaves the position and the audit file as
    they were. *)
Definition order_handled (env : cycle_env) (st : state) (t : list event)
  (res : result state) (req : request) : Prop :=
match order_send env req with
| None => res = Raise AttributeError /\ audit_of t = []
| Some retcode =>
    if (retcode =? TRADE_RETCODE_DONE)%Z then
      (exists r st', audit_of t = [r] /\ res = Ok st' /\
                     active_position st' <> active_position st) \/
      (res = Raise TypeError /\ audit_of t = [])
    else
      audit_of t = [] /\
      exists st', res = Ok st' /\ same_position st st' /\
                  (active_position st <> None -> st' = st)
end.

(** A trace in which the terminal is never asked for the open positions. *)
Definition no_recovery (t : list event) : bool :=
forallb (fun e => negb (is_call PositionsGet e)) t.

(** The events of a pass that finds the connection down. *)
Definition reconnect_events : list event :=
[Mt5 TerminalInfo; Print MsgConnectionLost; Mt5 Shutdown; Sleep 5; Mt5 Initialize].

(** ** Statements of the specification, for comparison with the code *)

(** Risk Sizer of the specification (section 4.2): the stop distance is
    floored at a minimum, the quotient is rounded down to the lot step and
    clamped to [[0, max_lot]]; a rounded size under the minimum lot
    gives 0. *)
Definition spec_risk_size (min_stop multiplier lot_step min_lot max_lot : Q)
  (tick_value risk_amount stop_distance : Q) : Q :=
let stop := Qmax stop_distance min_stop in
let size := risk_amount / (stop * tick_value * multiplier) in
let rounded := inject_Z (Qfloor (size / lot_step)) * lot_step in
if Qltb rounded min_lot then 0 else Qmin (Qmax rounded 0) max_lot.

(** The parameters of [spec_risk_size] that the source fixes. *)
Definition spec_risk_size_here : Q -> Q -> Q -> Q :=
spec_risk_size 10 100 (1 # 100) (1 # 100) 10.

(** Recovery of the specification (section 4.4): among the open positions
    carrying the tag, the earliest-opened one is adopted. *)
Fixpoint earliest_opened (l : list position) : option position :=
match l with
| [] => None
| p :: rest =>
    match earliest_opened rest with
    | Some q => if (time q <? time p)%Z then Some q else Some p
    | None => Some p
    end
end.

Definition spec_recover (tag : Z) (open_positions : list position) : state :=
match earliest_opened (filter (fun p => (magic p =? tag)%Z) open_positions) with
| Some p => adopt p
| None => no_position
end.

(** Scheduler of the specification (section 4.6): in a trace, every
    reconnect ([mt5.initialize]) is followed by a recovery
    ([mt5.positions_get]) before bars are fetched for the next evaluation.
    [pending] tells that a reconnect awaits its recovery. *)
Fixpoint recovers_before_evaluating (pending : bool) (t : list event) : bool :=
match t with
| [] => true
| Mt5 Initialize :: t => recovers_before_evaluating true t
| Mt5 PositionsGet :: t => recovers_before_evaluating false t
| Mt5 (CopyRatesFromPos _) :: t => negb pending && recovers_before_evaluating pending t
| _ :: t => recovers_before_evaluating pending t
end.

(** Mean and sample variance of the specification (section 4.1), on a
    window of closes. *)
Definition spec_mean (window : list Q) : Q :=
fold_right Qplus 0 window / inject_Z (Z.of_nat (List.length window)).

Definition spec_sample_variance (window : list Q) : Q :=
fold_right Qplus 0 (map (fun x => (x - spec_mean window) ^ 2) window)
/ (inject_Z (Z.of_nat (List.length window)) - 1).

(** ** Example inputs *)

(** A square root on the rationals: exact on squares of rationals,
    otherwise rounded down to a multiple of [1 / (den * 2^64)]. *)
Definition Qsqrt (q : Q) : Q :=
let d := Zpos (Qden q) in
inject_Z (Z.sqrt (Qnum q * d * 4 ^ 64)) / inject_Z (d * 2 ^ 64).

(** A terminal that answers every call: tick value [tv], equity [eq],
    bid and ask both at [quote], every order answered with [retcode]. *)
Definition answering (connected : bool) (history : option (list bar))
  (eq tv quote : Q) (retcode : Z) (clock : Q) : cycle_env :=
mkEnv (Some connected) history (Some (Fin eq)) (Some (Fin tv))
      (Some (mkTick (Fin quote) (Fin quote))) (fun _ => Some retcode) clock.

(** Closing prices around 160.00, in hundredths away from it: a flat run,
    then a window of one hundred closes whose mean is 160.00 and whose
    sample standard deviation is 0.02, ending 0.09 above the mean. *)
Definition example_deviations : list Z :=
(repeat 0 56 ++ List.concat (repeat [3; -3] 17) ++ repeat (-1) 9 ++ [9])%Z.

(** A bar closing [d] hundredths from 160.00, with high and low 0.05 away
    from the close. *)
Definition bar_of_deviation (d : Z) : bar :=
let c := (16000 + d) # 100 in
mkBar 0 c (c + (5 # 100)) (c - (5 # 100)) c.

(** 120 hourly bars: fewer than the 200 of the trend window. *)
Definition example_history : list bar :=
map bar_of_deviation (repeat 0%Z 20 ++ example_deviations).

(** 120 bars that all close at 160.00. *)
Definition flat_history : list bar :=
map bar_of_deviation (repeat 0%Z 120).

(** Tuesday 14 November 2023, 22:13:20 UTC. *)
Definition example_clock : Q := 1700000000.

(** A connected terminal with tick value 1 and no bars. *)
Definition sizing_env : cycle_env :=
answering true None 10000 1 160 TRADE_RETCODE_DONE 0.

(** A connected terminal showing [example_history], that fills orders. *)
Definition filling_env (equity : Q) : cycle_env :=
answering true (Some example_history) equity 1 (16009 # 100) TRADE_RETCODE_DONE
          example_clock.

(** The same terminal, rejecting every order (retcode 10006). *)
Definition rejecting_env : cycle_env :=
answering true (Some example_history) 10000 1 (16009 # 100) 10006 example_clock.

(** A connected terminal showing [flat_history]. *)
Definition flat_env : cycle_env :=
answering true (Some flat_history) 10000 1 160 TRADE_RETCODE_DONE example_clock.

(** The terminal while the connection is down. *)
Definition offline_env : cycle_env :=
answering false None 10000 1 (16009 # 100) TRADE_RETCODE_DONE example_clock.

(** A long position opened one hour before [example_clock]. *)
Definition holding_long : state :=
mkState (Some LONG) (Some (Fin (15990 # 100))) (Some (example_clock - 3600))
        (Fin (5 # 100)).

(** The request that closes [holding_long] at the quote of the example
    terminals when the z-score stop is hit. *)
Definition stop_request : request :=
mkRequest TRADE_ACTION_DEAL SYMBOL (Fin (5 # 100)) ORDER_TYPE_SELL (Fin (16009 # 100))
          None MAGIC_NUMBER "Z-Stop" ORDER_FILLING_IOC.

(** Two open positions of this strategy, the later-opened one reported
    first. *)
Definition two_positions : list position :=
[ mkPosition MAGIC_NUMBER 0 (Fin (16100 # 100)) 1700000200 (Fin (10 # 100));
  mkPosition MAGIC_NUMBER 1 (Fin (15900 # 100)) 1700000100 (Fin (20 # 100)) ].

(** ** Vocabulary of the further properties *)

(** The request of lines 77-87, for an entry in [direction] with the
    quote [tk]. *)
Definition entry_request (tk : tick) (direction : direction) (lots : float) : request :=
mkRequest TRADE_ACTION_DEAL SYMBOL lots
          (if direction_eqb direction LONG then ORDER_TYPE_BUY else ORDER_TYPE_SELL)
          (if direction_eqb direction LONG then ask tk else bid tk)
          (Some 20%Z) MAGIC_NUMBER "Z-Entry" ORDER_FILLING_IOC.

(** The request of lines 97-106, closing a position held in direction
    [held]. *)
Definition closing_request (tk : tick) (held : direction) (lots : float)
  (reason : string) : request :=
mkRequest TRADE_ACTION_DEAL SYMBOL lots
          (if direction_eqb held LONG then ORDER_TYPE_SELL else ORDER_TYPE_BUY)
          (if direction_eqb held LONG then bid tk else ask tk)
          None MAGIC_NUMBER reason ORDER_FILLING_IOC.

(** A request that carries the identity of this strategy. *)
Definition tagged (req : request) : Prop :=
req_magic req = MAGIC_NUMBER /\ req_symbol req = SYMBOL /\
req_action req = TRADE_ACTION_DEAL /\ req_type_filling req = ORDER_FILLING_IOC.

(** Loop variables in which a held position has its entry price and its
    entry time. *)
Definition well_formed (st : state) : Prop :=
active_position st <> None ->
entry_price st <> None /\ trade_entry_time st <> None.

(** A terminal that answers every call of a pass with a result, a tick
    value that is not zero and bars that are not an empty array. *)
Definition responsive (env : cycle_env) : Prop :=
terminal_connected env <> None /\
copy_rates_from_pos env 200 <> Some [] /\
account_equity env <> None /\
(exists tv, trade_tick_value env = Some tv /\ is_zero tv = false) /\
symbol_info_tick env <> None /\
(forall req, order_send env req <> None).

(** The unrealised profit of line 183, before rounding. *)
Definition profit (held : direction) (entry price lots : Q) : Q :=
(if direction_eqb held SHORT then entry - price else price - entry) * lots * 100000.

(** ** Further example inputs *)

(** The quote of the example terminals. *)
Definition example_tick : tick :=
mkTick (Fin (16009 # 100)) (Fin (16009 # 100)).

(** The entry of [filling_env 10000] from the flat state: a short of 0.05
    lots, and the loop variables after its fill. *)
Definition example_entry_request : request :=
entry_request example_tick SHORT (Fin (5 # 100)).

Definition entered_short : state :=
mkState (Some SHORT) (Some (Fin (16009 # 100))) (Some example_clock) (Fin (5 # 100)).

(** The order that closes [entered_short] on the z-score stop. *)
Definition example_cover_request : request :=
closing_request example_tick SHORT (Fin (5 # 100)) "Z-Stop".

(** The window of [example_deviations] in another order, ending 0.03
    above its mean: a z-score of 1.5. *)
Definition calm_deviations : list Z :=
([9] ++ repeat 0 56 ++ repeat (-1) 9 ++ List.concat (repeat [-3; 3] 17))%Z.

Definition calm_env : cycle_env :=
answering true (Some (map bar_of_deviation (repeat 0%Z 20 ++ calm_deviations)))
          10000 1 (16003 # 100) TRADE_RETCODE_DONE example_clock.

(** 200 bars, 199 closing at 160.00 and the last one at 170.00: a z-score
    of 9.9 and a last close 6 percent off the average of the 200. *)
Definition trending_env : cycle_env :=
answering true (Some (map bar_of_deviation (repeat 0%Z 199 ++ [1000%Z])))
          10000 1 170 TRADE_RETCODE_DONE example_clock.

(** 14 bars, the last one closing 0.09 above the others. *)
Definition few_bars : list bar :=
map bar_of_deviation (repeat 0%Z 13 ++ [9%Z]).

Definition few_bars_env : cycle_env :=
answering true (Some few_bars) 10000 1 (16009 # 100) TRADE_RETCODE_DONE
          example_clock.

(** A terminal that returns [None] to every call. *)
Definition silent_env : cycle_env :=
mkEnv None None None None None (fun _ => None) 0.

(** ** The risk calculation in binary64

    The definitions above compute on exact rationals.  The result of line
    53 depends on the binary64 value of the quotient of line 46, so the
    risk calculation is written out a second time with every operation
    rounded to binary64: 53 significant bits, round to nearest, ties to
    even.  The exponent range is not bounded (no overflow, no subnormal
    numbers). *)

Module Binary64.

(** The exponent of [q <> 0]: the integer [e] with
    [2 ^ e <= |q| < 2 ^ (e + 1)]. *)
Definition exponent (q : Q) : Z :=
let e := (Z.log2 (Z.abs (Qnum q)) - Z.log2 (Zpos (Qden q)))%Z in
if Qle_bool (2 ^ e) (Qabs q) then e else (e - 1)%Z.

(** The distance between the binary64 values around [q]. *)
Definition ulp (q : Q) : Q := 2 ^ (exponent q - 52).

(** The binary64 value nearest to [q]. *)
Definition nearest (q : Q) : Q :=
if Qeq_bool q 0 then 0 else inject_Z (round_half_even (q / ulp q)) * ulp q.

Definition fl (a : float) : float :=
match a with
| Fin q => Fin (nearest q)
| _ => a
end.

(** A decimal literal of the source. *)
Definition literal (q : Q) : float := Fin (nearest q).

Definition mul (a b : float) : float := fl (Float.mul a b).
Definition div (a b : float) : float := fl (Float.div a b).

Definition py_truediv (a b : float) : option float :=
match Float.py_truediv a b with
| Some c => Some (fl c)
| None => None
end.

(** Python's [round(x, ndigits)] on a Python float: the decimal nearest to
    the binary64 value [x], converted back to binary64. *)
Definition round (a : float) (n : nat) : float := fl (Float.round a n).

(** [numpy.rint]. *)
Definition rint (a : float) : float :=
match a with
| Fin q => Fin (inject_Z (round_half_even q))
| _ => a
end.

(** [round(x, ndigits)] on a [numpy.float64]: numpy multiplies by
    [10 ** ndigits], rounds to the nearest integer and divides again. *)
Definition np_round (a : float) (n : nat) : float :=
div (rint (mul a (Fin (inject_Z (pow10 n))))) (Fin (inject_Z (pow10 n))).

(** Lines 40-53, called as on line 153 with a Python float [risk_amount]
    and a [numpy.float64] [stop_pips].  [lot] is a Python float when the
    stop distance was floored, a [numpy.float64] otherwise; [min(lot,
    10.0)] is a [numpy.float64] only when it is [lot] itself, and it is
    then rounded by numpy. *)
Definition get_lot_size (env : cycle_env) (risk_amount stop_pips : float) : M float :=
emit (Mt5 SymbolInfo) ;;;
tick_value <- get_attr (trade_tick_value env) ;;
let floored := gtb (Fin 10) stop_pips in
let stop_pips := py_max stop_pips (Fin 10) in
let divisor := mul (mul stop_pips tick_value) (Fin 100) in
lot <- (if floored
        then match py_truediv risk_amount divisor with
             | Some lot => ret lot
             | None => raise ZeroDivisionError
             end
        else ret (div risk_amount divisor)) ;;
if ltb lot (literal (1 # 100)) then
  emit (Print (MsgRiskTooLow lot)) ;;;
  ret (Fin 0)
else
  let capped := py_min lot (Fin 10) in
  if floored || ltb (Fin 10) lot
  then ret (round capped 2)
  else ret (np_round capped 2).

(** The quotient of line 46 and the value returned for it, on finite
    arguments. *)
Definition quotient (r s tv : Q) : Q :=
nearest (r / nearest (nearest (floor_stop s * tv) * 100)).

Definition size_of_lot (floored : bool) (lot : Q) : Q :=
if Qltb lot (nearest (1 # 100)) then 0
else if floored || Qltb 10 lot then nearest (Qround_nd 2 (cap_lot lot))
else nearest (inject_Z (round_half_even (nearest (cap_lot lot * 100))) / 100).

End Binary64.

(** * Properties *)

(** ** Rounding *)

Lemma Qltb_lt (x y : Q) : Qltb x y = true <-> x < y.
Proof.
  unfold Qltb. rewrite negb_true_iff. split; intro H.
  - apply Qnot_le_lt. intro Hle. apply Qle_bool_iff in Hle. congruence.
  - destruct (Qle_bool y x) eqn:E; [|reflexivity].
    apply Qle_bool_iff in E. exfalso. apply (Qlt_not_le _ _ H E).
Qed.

Lemma Qltb_ge (x y : Q) : Qltb x y = false <-> y <= x.
Proof.
  unfold Qltb. rewrite negb_false_iff. apply Qle_bool_iff.
Qed.

(** The rounded value is the floor or the floor plus one, whichever is
    within one half. *)
Lemma round_half_even_cases (q : Q) :
  let f := Qfloor q in
  inject_Z f <= q < inject_Z f + 1 /\
  ((round_half_even q = f /\ q - inject_Z f <= 1 # 2) \/
   (round_half_even q = (f + 1)%Z /\ 1 # 2 <= q - inject_Z f)).
Proof.
  intro f. split.
  - split; [apply Qfloor_le|].
    pose proof (Qlt_floor q) as H. fold f in H.
    rewrite inject_Z_plus in H. exact H.
  - unfold round_half_even. fold f.
    destruct (Qcompare_spec (q - inject_Z f) (1 # 2)) as [E|L|G].
    + destruct (Z.even f); [left|right]; (split; [reflexivity|lra]).
    + left. split; [reflexivity|lra].
    + right. split; [reflexivity|lra].
Qed.

Lemma round_half_even_near (q : Q) :
  Qabs (inject_Z (round_half_even q) - q) <= 1 # 2.
Proof.
  pose proof (round_half_even_cases q) as H. cbv zeta in H.
  destruct H as [[Hlo Hhi] [[-> H]|[-> H]]];
    apply Qabs_Qle_condition; try rewrite inject_Z_plus;
    change (inject_Z 1) with 1; split; lra.
Qed.

Lemma round_half_even_mono (p q : Q) :
  p <= q -> (round_half_even p <= round_half_even q)%Z.
Proof.
  intro Hpq.
  pose proof (Qfloor_resp_le _ _ Hpq) as Hf.
  pose proof (round_half_even_cases p) as Hp. cbv zeta in Hp.
  pose proof (round_half_even_cases q) as Hq. cbv zeta in Hq.
  destruct Hp as [[Hp1 Hp2] Hp]. destruct Hq as [[Hq1 Hq2] Hq].
  destruct (Z.eq_dec (Qfloor p) (Qfloor q)) as [E|N].
  - unfold round_half_even. rewrite E.
    destruct (Qcompare_spec (p - inject_Z (Qfloor q)) (1 # 2)) as [E1|L1|G1];
      destruct (Qcompare_spec (q - inject_Z (Qfloor q)) (1 # 2)) as [E2|L2|G2];
      try destruct (Z.even (Qfloor q)); try lia; exfalso; lra.
  - assert (Qfloor p + 1 <= Qfloor q)%Z as Hlt by lia.
    destruct Hp as [[-> _]|[-> _]]; destruct Hq as [[-> _]|[-> _]]; lia.
Qed.


Lemma round_half_even_proper (p q : Q) :
  p == q -> round_half_even p = round_half_even q.
Proof.
  intro E. unfold round_half_even.
  assert (Qfloor p = Qfloor q) as -> by (now rewrite E).
  assert (Qcompare (p - inject_Z (Qfloor q)) (1 # 2)
          = Qcompare (q - inject_Z (Qfloor q)) (1 # 2)) as ->
    by (now rewrite E).
  reflexivity.
Qed.

Lemma Qround_nd_2 (q : Q) :
  Qround_nd 2 q = inject_Z (round_half_even (q * 100)) / 100.
Proof. reflexivity. Qed.

Lemma Qround_nd_2_proper (p q : Q) : p == q -> Qround_nd 2 p == Qround_nd 2 q.
Proof.
  intro E. rewrite !Qround_nd_2.
  rewrite (round_half_even_proper (p * 100) (q * 100)) by (now rewrite E).
  reflexivity.
Qed.

Lemma Qround_nd_2_mono (p q : Q) : p <= q -> Qround_nd 2 p <= Qround_nd 2 q.
Proof.
  intro H. rewrite !Qround_nd_2.
  assert (round_half_even (p * 100) <= round_half_even (q * 100))%Z as Hz
    by (apply round_half_even_mono; lra).
  rewrite Zle_Qle in Hz.
  apply Qmult_le_compat_r; [exact Hz|].
  apply Qinv_le_0_compat. lra.
Qed.

Lemma Qround_nd_2_near (q : Q) : Qabs (Qround_nd 2 q - q) <= 1 # 200.
Proof.
  rewrite Qround_nd_2.
  pose proof (round_half_even_near (q * 100)) as H.
  apply Qabs_Qle_condition in H. apply Qabs_Qle_condition.
  set (n := inject_Z (round_half_even (q * 100))) in *.
  assert (n / 100 == n * (1 # 100)) as -> by (field).
  split; lra.
Qed.


(** ** Risk sizing *)

Lemma floor_stop_max (s : Q) : floor_stop s == Qmax s 10.
Proof.
  unfold floor_stop. destruct (Qltb s 10) eqn:E.
  - apply Qltb_lt in E. rewrite Q.max_r; [reflexivity|lra].
  - apply Qltb_ge in E. rewrite Q.max_l; [reflexivity|lra].
Qed.

Lemma cap_lot_min (l : Q) : cap_lot l == Qmin l 10.
Proof.
  unfold cap_lot. destruct (Qltb 10 l) eqn:E.
  - apply Qltb_lt in E. rewrite Q.min_r; [reflexivity|lra].
  - apply Qltb_ge in E. rewrite Q.min_l; [reflexivity|lra].
Qed.

Lemma floor_stop_pos (s : Q) : 10 <= floor_stop s.
Proof.
  unfold floor_stop. destruct (Qltb s 10) eqn:E; [lra|].
  now apply Qltb_ge in E.
Qed.

Lemma divisor_pos (s tv : Q) : 0 < tv -> 0 < floor_stop s * tv * 100.
Proof.
  intro H. pose proof (floor_stop_pos s) as Hs.
  apply Qmult_lt_0_compat; [|lra].
  apply Qmult_lt_0_compat; lra.
Qed.

(** On finite arguments and a positive tick value the function returns
    [size_of_lot] of the quotient. *)
Lemma get_lot_size_finite (env : cycle_env) (tv r s : Q) :
  trade_tick_value env = Some (Fin tv) -> 0 < tv ->
  outcome (get_lot_size env (Fin r) (Fin s))
  = Ok (Fin (size_of_lot (r / (floor_stop s * tv * 100)))).
Proof.
  intros Htv Hpos.
  pose proof (divisor_pos s tv Hpos) as Hd.
  assert (Qeq_bool (floor_stop s * tv * 100) 0 = false) as Hnz.
  { destruct (Qeq_bool (floor_stop s * tv * 100) 0) eqn:E; [|reflexivity].
    apply Qeq_bool_iff in E. lra. }
  unfold get_lot_size, outcome. rewrite Htv. cbn [get_attr bind ret emit fst snd].
  unfold gtb, py_max, gtb, py_truediv, size_of_lot, cap_lot. cbn [ltb mul is_zero div].
  unfold floor_stop in *.
  destruct (Qltb s 10) eqn:Es; cbn [mul is_zero div]; rewrite Hnz; cbn;
    destruct (Qltb _ (1 # 100)); cbn; try reflexivity;
    unfold py_min; cbn [ltb]; destruct (Qltb 10 _); reflexivity.
Qed.

Lemma cap_lot_mono (a b : Q) : a <= b -> cap_lot a <= cap_lot b.
Proof.
  intro H. rewrite !cap_lot_min. apply Q.min_le_compat_r. exact H.
Qed.

Lemma cap_lot_range (l : Q) : 1 # 100 <= l -> 1 # 100 <= cap_lot l <= 10.
Proof.
  intro H. unfold cap_lot. destruct (Qltb 10 l) eqn:E.
  - lra.
  - apply Qltb_ge in E. lra.
Qed.

Lemma size_of_lot_range (l : Q) :
  1 # 100 <= l -> 1 # 100 <= size_of_lot l <= 10.
Proof.
  intro H. unfold size_of_lot.
  destruct (Qltb l (1 # 100)) eqn:E; [apply Qltb_lt in E; lra|].
  destruct (cap_lot_range l H) as [Hlo Hhi].
  apply Qround_nd_2_mono in Hlo. apply Qround_nd_2_mono in Hhi.
  assert (Qround_nd 2 (1 # 100) == 1 # 100) as E1 by reflexivity.
  assert (Qround_nd 2 10 == 10) as E2 by reflexivity.
  lra.
Qed.

Lemma size_of_lot_mono (a b : Q) : a <= b -> size_of_lot a <= size_of_lot b.
Proof.
  intro H. unfold size_of_lot at 1.
  destruct (Qltb a (1 # 100)) eqn:Ea.
  - destruct (Qlt_le_dec b (1 # 100)) as [Hb|Hb].
    + apply Qltb_lt in Hb. unfold size_of_lot. rewrite Hb. lra.
    + pose proof (size_of_lot_range b Hb). lra.
  - apply Qltb_ge in Ea. unfold size_of_lot.
    destruct (Qltb b (1 # 100)) eqn:Eb; [apply Qltb_lt in Eb; lra|].
    apply Qround_nd_2_mono, cap_lot_mono, H.
Qed.

Lemma lot_quotient_mono (d r1 r2 : Q) : 0 < d -> r1 <= r2 -> r1 / d <= r2 / d.
Proof.
  intros Hd H. apply Qmult_le_compat_r; [exact H|].
  apply Qinv_le_0_compat. lra.
Qed.


(** ** Binary64 rounding

    Facts on [Binary64.nearest]: its exponent, its relative error, its
    monotonicity. *)

Lemma pow2_pos (e : Z) : 0 < 2 ^ e.
Proof. apply Qpower_0_lt. reflexivity. Qed.

Lemma pow2_add (a b : Z) : 2 ^ (a + b) == 2 ^ a * 2 ^ b.
Proof. apply Qpower_plus. discriminate. Qed.

Lemma pow2_of_Z (a : Z) : (0 <= a)%Z -> inject_Z (2 ^ a) == 2 ^ a.
Proof. intro H. apply (Zpower_Qpower 2 a H). Qed.

Lemma log2_bounds (n : Z) :
  (0 < n)%Z -> 2 ^ Z.log2 n <= inject_Z n /\ inject_Z n < 2 ^ (Z.log2 n + 1).
Proof.
  intro Hn. destruct (Z.log2_spec n Hn) as [Hlo Hhi].
  pose proof (Z.log2_nonneg n) as H0.
  split.
  - rewrite <- pow2_of_Z by exact H0. rewrite <- Zle_Qle. exact Hlo.
  - rewrite <- pow2_of_Z by lia. rewrite <- Zlt_Qlt.
    replace (Z.log2 n + 1)%Z with (Z.succ (Z.log2 n)) by lia. exact Hhi.
Qed.

Lemma exponent_spec (q : Q) :
  ~ q == 0 ->
  2 ^ Binary64.exponent q <= Qabs q /\ Qabs q < 2 ^ (Binary64.exponent q + 1).
Proof.
  destruct q as [n d]. intro Hq.
  assert (n <> 0%Z) as Hn.
  { intro E. apply Hq. subst n. reflexivity. }
  unfold Binary64.exponent. cbn [Qnum Qden].
  destruct (log2_bounds (Z.abs n)) as [Hn1 Hn2]; [lia|].
  destruct (log2_bounds (Zpos d)) as [Hd1 Hd2]; [lia|].
  set (a := Z.log2 (Z.abs n)) in *. set (b := Z.log2 (Zpos d)) in *.
  assert (Qabs (n # d) == inject_Z (Z.abs n) / inject_Z (Zpos d)) as Ea.
  { change (Qabs (n # d)) with (Z.abs n # d). apply Qmake_Qdiv. }
  assert (0 < inject_Z (Zpos d)) as Hd0 by reflexivity.
  pose proof (pow2_pos (a - b)) as Hp. pose proof (pow2_pos (a - b - 1)) as Hp1.
  pose proof (pow2_pos b) as Hpb.
  destruct (Qle_bool (2 ^ (a - b)) (Qabs (n # d))) eqn:E.
  - apply Qle_bool_iff in E. split; [exact E|].
    rewrite Ea. apply Qlt_shift_div_r; [exact Hd0|].
    apply Qlt_le_trans with (2 ^ (a + 1)); [exact Hn2|].
    replace (a + 1)%Z with ((a - b + 1) + b)%Z by lia.
    rewrite pow2_add.
    apply Qmult_le_l; [apply pow2_pos | exact Hd1].
  - assert (Qabs (n # d) < 2 ^ (a - b)) as Hlt.
    { apply Qnot_le_lt. intro H. apply Qle_bool_iff in H. congruence. }
    split.
    + rewrite Ea. apply Qle_shift_div_l; [exact Hd0|].
      apply Qle_trans with (2 ^ a); [|exact Hn1].
      replace a with ((a - b - 1) + (b + 1))%Z at 2 by lia.
      rewrite pow2_add.
      apply Qmult_le_l; [apply pow2_pos | apply Qlt_le_weak, Hd2].
    + replace (a - b - 1 + 1)%Z with (a - b)%Z by lia. exact Hlt.
Qed.

Lemma ulp_pos (q : Q) : 0 < Binary64.ulp q.
Proof. apply pow2_pos. Qed.

Lemma nearest_zero (q : Q) : q == 0 -> Binary64.nearest q = 0.
Proof.
  intro E. unfold Binary64.nearest.
  apply Qeq_bool_iff in E. now rewrite E.
Qed.

Lemma nearest_nonzero (q : Q) :
  ~ q == 0 ->
  Binary64.nearest q
  = inject_Z (round_half_even (q / Binary64.ulp q)) * Binary64.ulp q.
Proof.
  intro H. unfold Binary64.nearest.
  destruct (Qeq_bool q 0) eqn:E; [|reflexivity].
  apply Qeq_bool_iff in E. contradiction.
Qed.

(** The relative error of one rounding is at most [2 ^ -53]. *)
Lemma nearest_error (q : Q) :
  Qabs (Binary64.nearest q - q) <= Qabs q * 2 ^ (-53).
Proof.
  destruct (Qeq_dec q 0) as [E|N].
  - rewrite (nearest_zero q E), E. apply Qle_bool_imp_le. reflexivity.
  - rewrite (nearest_nonzero q N).
    destruct (exponent_spec q N) as [Hlo _].
    pose proof (ulp_pos q) as Hu.
    set (u := Binary64.ulp q) in *.
    pose proof (round_half_even_near (q / u)) as Hr.
    set (m := inject_Z (round_half_even (q / u))) in *.
    assert (m * u - q == (m - q / u) * u) as -> by (field; lra).
    rewrite Qabs_Qmult, (Qabs_pos u) by lra.
    apply Qle_trans with ((1 # 2) * u).
    + apply Qmult_le_compat_r; [exact Hr | lra].
    + apply Qle_trans with (2 ^ Binary64.exponent q * 2 ^ (-53)).
      * unfold u, Binary64.ulp.
        replace (Binary64.exponent q - 52)%Z
          with (Binary64.exponent q + (-53) + 1)%Z by lia.
        rewrite !pow2_add.
        assert (2 ^ 1 == 2) as -> by reflexivity.
        pose proof (pow2_pos (Binary64.exponent q)).
        pose proof (pow2_pos (-53)).
        set (x := 2 ^ Binary64.exponent q) in *. set (y := 2 ^ (-53)) in *.
        assert ((1 # 2) * (x * y * 2) == x * y) as -> by ring.
        apply Qle_refl.
      * apply Qmult_le_compat_r; [exact Hlo|]. apply Qlt_le_weak, pow2_pos.
Qed.

Lemma nearest_pos (q : Q) : 0 < q -> 0 < Binary64.nearest q.
Proof.
  intro H. pose proof (nearest_error q) as He.
  rewrite (Qabs_pos q) in He by lra.
  apply Qabs_Qle_condition in He.
  assert (2 ^ (-53) == 1 # 9007199254740992) as E by reflexivity.
  rewrite E in He. destruct He as [He _].
  assert (q * (1 # 9007199254740992) < q).
  { rewrite <- (Qmult_1_r q) at 2. apply Qmult_lt_l; [exact H | reflexivity]. }
  lra.
Qed.

Lemma round_half_even_Z (z : Z) : round_half_even (inject_Z z) = z.
Proof.
  unfold round_half_even. rewrite Qfloor_Z.
  assert (inject_Z z - inject_Z z == 0) as E by ring.
  destruct (Qcompare_spec (inject_Z z - inject_Z z) (1 # 2)) as [H|H|H].
  - rewrite E in H. discriminate H.
  - reflexivity.
  - rewrite E in H. discriminate H.
Qed.

(** A positive value and its rounding lie between the same powers of
    two. *)
Lemma nearest_between (q : Q) :
  0 < q ->
  2 ^ Binary64.exponent q <= Binary64.nearest q <= 2 ^ (Binary64.exponent q + 1).
Proof.
  intro H.
  assert (~ q == 0) as N by lra.
  destruct (exponent_spec q N) as [Hlo Hhi].
  rewrite (Qabs_pos q) in Hlo, Hhi by lra.
  rewrite (nearest_nonzero q N).
  pose proof (ulp_pos q) as Hu.
  set (e := Binary64.exponent q) in *.
  assert (2 ^ e == inject_Z (2 ^ 52) * Binary64.ulp q) as E1.
  { unfold Binary64.ulp. fold e. rewrite pow2_of_Z by lia.
    rewrite <- pow2_add. replace (52 + (e - 52))%Z with e by lia. reflexivity. }
  assert (2 ^ (e + 1) == inject_Z (2 ^ 53) * Binary64.ulp q) as E2.
  { unfold Binary64.ulp. fold e. rewrite pow2_of_Z by lia.
    rewrite <- pow2_add. replace (53 + (e - 52))%Z with (e + 1)%Z by lia.
    reflexivity. }
  set (u := Binary64.ulp q) in *.
  split.
  - rewrite E1. apply Qmult_le_compat_r; [|lra].
    rewrite <- Zle_Qle. rewrite <- (round_half_even_Z (2 ^ 52)) at 1.
    apply round_half_even_mono.
    apply Qle_shift_div_l; [exact Hu|]. rewrite <- E1. exact Hlo.
  - rewrite E2. apply Qmult_le_compat_r; [|lra].
    rewrite <- Zle_Qle. rewrite <- (round_half_even_Z (2 ^ 53)) at 1.
    apply round_half_even_mono.
    apply Qle_shift_div_r; [exact Hu|]. rewrite <- E2. lra.
Qed.

(** Rounding to binary64 keeps the order of positive values. *)
Lemma nearest_mono_pos (p q : Q) :
  0 < p -> p <= q -> Binary64.nearest p <= Binary64.nearest q.
Proof.
  intros Hp Hpq.
  assert (0 < q) as Hq by lra.
  assert (~ p == 0) as Np by lra. assert (~ q == 0) as Nq by lra.
  destruct (exponent_spec p Np) as [Hp1 Hp2].
  destruct (exponent_spec q Nq) as [Hq1 Hq2].
  rewrite (Qabs_pos p) in Hp1, Hp2 by lra.
  rewrite (Qabs_pos q) in Hq1, Hq2 by lra.
  assert (Binary64.exponent p < Binary64.exponent q + 1)%Z as Hlt.
  { apply (Qpower_lt_compat_l_inv 2); [lra | reflexivity]. }
  destruct (Z.eq_dec (Binary64.exponent p) (Binary64.exponent q)) as [E|N].
  - rewrite (nearest_nonzero p Np), (nearest_nonzero q Nq).
    unfold Binary64.ulp. rewrite E.
    pose proof (pow2_pos (Binary64.exponent q - 52)) as Hu.
    set (u := 2 ^ (Binary64.exponent q - 52)) in *.
    apply Qmult_le_compat_r; [|lra].
    rewrite <- Zle_Qle. apply round_half_even_mono.
    apply Qmult_le_compat_r; [exact Hpq|].
    apply Qlt_le_weak, Qinv_lt_0_compat, Hu.
  - destruct (nearest_between p Hp) as [_ Hhi].
    destruct (nearest_between q Hq) as [Hlo _].
    apply Qle_trans with (2 ^ (Binary64.exponent p + 1)); [exact Hhi|].
    apply Qle_trans with (2 ^ Binary64.exponent q); [|exact Hlo].
    apply Qpower_le_compat_l; [lia | discriminate].
Qed.

Lemma nearest_mono (p q : Q) :
  0 <= p -> p <= q -> Binary64.nearest p <= Binary64.nearest q.
Proof.
  intros Hp Hpq.
  destruct (Qeq_dec p 0) as [E|N].
  - rewrite (nearest_zero p E).
    destruct (Qeq_dec q 0) as [E'|N'].
    + rewrite (nearest_zero q E'). apply Qle_refl.
    + apply Qlt_le_weak, nearest_pos. lra.
  - apply nearest_mono_pos; [lra | exact Hpq].
Qed.

Lemma binary64_divisor_pos (s tv : Q) :
  0 < tv -> 0 < Binary64.nearest (Binary64.nearest (floor_stop s * tv) * 100).
Proof.
  intro H. pose proof (floor_stop_pos s) as Hs.
  apply nearest_pos.
  apply Qmult_lt_0_compat; [|reflexivity].
  apply nearest_pos. apply Qmult_lt_0_compat; lra.
Qed.

Lemma binary64_get_lot_size_finite (env : cycle_env) (tv r s : Q) :
  trade_tick_value env = Some (Fin tv) -> 0 < tv ->
  outcome (Binary64.get_lot_size env (Fin r) (Fin s))
  = Ok (Fin (Binary64.size_of_lot (Qltb s 10) (Binary64.quotient r s tv))).
Proof.
  intros Htv Hpos.
  pose proof (binary64_divisor_pos s tv Hpos) as Hd.
  assert (Qeq_bool (Binary64.nearest (Binary64.nearest (floor_stop s * tv) * 100)) 0
          = false) as Hnz.
  { destruct (Qeq_bool _ 0) eqn:E; [|reflexivity].
    apply Qeq_bool_iff in E. lra. }
  unfold Binary64.get_lot_size, outcome. rewrite Htv.
  cbn [get_attr bind ret emit fst snd].
  unfold gtb, py_max, gtb, Binary64.py_truediv, py_truediv, Binary64.div,
    Binary64.mul, Binary64.size_of_lot, Binary64.quotient, Binary64.literal, cap_lot.
  cbn [ltb mul is_zero div Binary64.fl].
  unfold floor_stop in *.
  destruct (Qltb s 10) eqn:Es; cbn [mul is_zero div Binary64.fl orb];
    rewrite Hnz; cbn [bind ret emit fst snd Binary64.fl ltb];
    destruct (Qltb _ (Binary64.nearest (1 # 100))); cbn [bind ret emit fst snd];
    try reflexivity;
    unfold py_min; cbn [ltb]; destruct (Qltb 10 _); reflexivity.
Qed.

Lemma nearest_hundredth : 1 # 100 < Binary64.nearest (1 # 100).
Proof. vm_compute. reflexivity. Qed.

Lemma nearest_1 : Binary64.nearest 1 == 1.
Proof. vm_compute. reflexivity. Qed.

Lemma nearest_1000 : Binary64.nearest 1000 == 1000.
Proof. vm_compute. reflexivity. Qed.

Lemma cap_lot_bounds (lot : Q) :
  Binary64.nearest (1 # 100) <= lot -> 1 <= cap_lot lot * 100 <= 1000.
Proof.
  intro H. pose proof nearest_hundredth as Hh.
  unfold cap_lot. destruct (Qltb 10 lot) eqn:E.
  - split; [unfold Qle; simpl; lia | unfold Qle; simpl; lia].
  - apply Qltb_ge in E. split; lra.
Qed.

(** The value returned for a quotient of at least 0.01: a multiple of 0.01
    rounded to binary64. *)
Lemma binary64_size_of_lot_grid (floored : bool) (lot : Q) :
  Binary64.nearest (1 # 100) <= lot ->
  exists k : Z,
    (1 <= k <= 1000)%Z /\
    Binary64.size_of_lot floored lot = Binary64.nearest (inject_Z k / 100) /\
    Qabs (inject_Z k / 100 - cap_lot lot) <= (1 # 200) + 2 ^ (-49) /\
    (floored = true -> k = round_half_even (cap_lot lot * 100)) /\
    (floored = false ->
     k = round_half_even (Binary64.nearest (cap_lot lot * 100))).
Proof.
  intro Hge.
  destruct (cap_lot_bounds lot Hge) as [Hlo Hhi].
  assert (Qltb lot (Binary64.nearest (1 # 100)) = false) as Et
    by (now apply Qltb_ge).
  assert (2 ^ (-49) == 1 # 562949953421312) as E49 by reflexivity.
  assert (2 ^ (-53) == 1 # 9007199254740992) as E53 by reflexivity.
  assert (round_half_even 1 = 1%Z) as R1 by reflexivity.
  assert (round_half_even 1000 = 1000%Z) as R1000 by reflexivity.
  (* Python's round *)
  assert (exists k : Z,
            (1 <= k <= 1000)%Z /\
            Binary64.nearest (Qround_nd 2 (cap_lot lot))
            = Binary64.nearest (inject_Z k / 100) /\
            Qabs (inject_Z k / 100 - cap_lot lot) <= (1 # 200) + 2 ^ (-49) /\
            k = round_half_even (cap_lot lot * 100)) as Hpy.
  { exists (round_half_even (cap_lot lot * 100)).
    split; [|split; [reflexivity|split; [|reflexivity]]].
    - pose proof (round_half_even_mono _ _ Hlo) as A. rewrite R1 in A.
      pose proof (round_half_even_mono _ _ Hhi) as B. rewrite R1000 in B.
      split; assumption.
    - pose proof (Qround_nd_2_near (cap_lot lot)) as Hn.
      rewrite Qround_nd_2 in Hn. rewrite E49.
      apply Qle_trans with (1 # 200); [exact Hn | unfold Qle; simpl; lia]. }
  unfold Binary64.size_of_lot. rewrite Et.
  destruct floored; cbn [orb].
  - destruct Hpy as (k & Hk & Es & Hb & Ek).
    exists k. split; [exact Hk|]. split; [exact Es|]. split; [exact Hb|].
    split; [intros _; exact Ek | discriminate].
  - destruct (Qltb 10 lot) eqn:E10.
    + destruct Hpy as (k & Hk & Es & Hb & Ek).
      exists k. split; [exact Hk|]. split; [exact Es|]. split; [exact Hb|].
      split; [discriminate|].
      intros _. rewrite Ek. unfold cap_lot. rewrite E10.
      vm_compute. reflexivity.
    + set (y := Binary64.nearest (cap_lot lot * 100)).
      assert (1 <= y <= 1000) as Hy.
      { split.
        - rewrite <- nearest_1. apply nearest_mono; [lra | exact Hlo].
        - rewrite <- nearest_1000. apply nearest_mono; [lra | exact Hhi]. }
      exists (round_half_even y).
      split; [|split; [reflexivity|split; [|split; [discriminate|reflexivity]]]].
      * destruct Hy as [Hy1 Hy2].
        pose proof (round_half_even_mono _ _ Hy1) as A. rewrite R1 in A.
        pose proof (round_half_even_mono _ _ Hy2) as B. rewrite R1000 in B.
        split; assumption.
      * pose proof (round_half_even_near y) as Hn.
        pose proof (nearest_error (cap_lot lot * 100)) as He. fold y in He.
        rewrite (Qabs_pos (cap_lot lot * 100)) in He by lra.
        rewrite E53 in He. rewrite E49.
        apply Qabs_Qle_condition in Hn. apply Qabs_Qle_condition in He.
        apply Qabs_Qle_condition.
        set (k := inject_Z (round_half_even y)) in *.
        set (c := cap_lot lot) in *.
        assert (k / 100 == k * (1 # 100)) as -> by field.
        split; lra.
Qed.

(** C6 (as amended).  With a positive tick value, [get_lot_size] floors
    the stop distance at 10 and divides the risk amount by stop distance x
    tick value x 100, each operation rounded to binary64.  It returns 0
    exactly when this quotient, before the rounding of line 53, is under
    0.01.  Otherwise it caps the quotient at 10 and rounds it to two
    decimals, to the nearest multiple of 0.01 and not down: the result is
    the binary64 value of [k / 100] for an integer [k], within 0.005 (and
    the error of one binary64 multiplication) of the capped quotient, and
    lies between 0.01 and 10.  After a floored stop distance the rounding
    is Python's: [k] is the integer nearest to 100 times the binary64
    quotient.  Otherwise it is numpy's: [k] is the integer nearest to the
    binary64 product of the quotient and 100. *)
Theorem get_lot_size_rounds_to_nearest (env : cycle_env) (tv r s : Q) :
  trade_tick_value env = Some (Fin tv) -> 0 < tv ->
  let lot :=
    Binary64.nearest (r / Binary64.nearest (Binary64.nearest (floor_stop s * tv) * 100)) in
  exists size : Q,
    outcome (Binary64.get_lot_size env (Fin r) (Fin s)) = Ok (Fin size) /\
    (size == 0 <-> lot < Binary64.nearest (1 # 100)) /\
    (Binary64.nearest (1 # 100) <= lot ->
       Binary64.nearest (1 # 100) <= size <= 10 /\
       exists k : Z,
         size = Binary64.nearest (inject_Z k / 100) /\
         Qabs (inject_Z k / 100 - cap_lot lot) <= (1 # 200) + 2 ^ (-49) /\
         (s < 10 -> k = round_half_even (cap_lot lot * 100)) /\
         (10 <= s ->
          k = round_half_even (Binary64.nearest (cap_lot lot * 100)))).
Proof.
  intros Htv Hpos lot.
  exists (Binary64.size_of_lot (Qltb s 10) lot).
  split; [apply (binary64_get_lot_size_finite env tv r s Htv Hpos)|].
  assert (forall k : Z, (1 <= k <= 1000)%Z ->
            Binary64.nearest (1 # 100) <= Binary64.nearest (inject_Z k / 100) <= 10)
    as Hrange.
  { intros k [Hk1 Hk2].
    rewrite Zle_Qle in Hk1, Hk2.
    assert (1 # 100 <= inject_Z k / 100 <= 10) as [H1 H2].
    { assert (inject_Z k / 100 == inject_Z k * (1 # 100)) as -> by field.
      change (inject_Z 1) with 1 in Hk1. change (inject_Z 1000) with 1000 in Hk2.
      split; lra. }
    split.
    - apply nearest_mono; [unfold Qle; simpl; lia | exact H1].
    - apply Qle_trans with (Binary64.nearest 10).
      + apply nearest_mono; [lra | exact H2].
      + vm_compute. discriminate. }
  split.
  - split; intro H.
    + destruct (Qlt_le_dec lot (Binary64.nearest (1 # 100))) as [Hlt|Hge];
        [exact Hlt|].
      destruct (binary64_size_of_lot_grid (Qltb s 10) lot Hge)
        as (k & Hk & Es & _).
      pose proof (Hrange k Hk) as [Hlo _]. rewrite <- Es in Hlo.
      pose proof nearest_hundredth. lra.
    + apply Qltb_lt in H. unfold Binary64.size_of_lot. rewrite H. reflexivity.
  - intro Hge.
    destruct (binary64_size_of_lot_grid (Qltb s 10) lot Hge)
      as (k & Hk & Es & Hb & Hpy & Hnp).
    split; [rewrite Es; apply Hrange, Hk|].
    exists k. split; [exact Es|]. split; [exact Hb|]. split; intro Hs.
    + apply Hpy. now apply Qltb_lt.
    + apply Hnp. now apply Qltb_ge.
Qed.

(** C9.  With a positive tick value and a fixed stop distance, the lot
    size does not decrease when the risk amount grows, and it never
    exceeds the cap of 10 lots. *)
Theorem get_lot_size_monotone (env : cycle_env) (tv s r1 r2 : Q) :
  trade_tick_value env = Some (Fin tv) -> 0 < tv -> r1 <= r2 ->
  exists size1 size2 : Q,
    outcome (get_lot_size env (Fin r1) (Fin s)) = Ok (Fin size1) /\
    outcome (get_lot_size env (Fin r2) (Fin s)) = Ok (Fin size2) /\
    size1 <= size2 /\ size2 <= 10.
Proof.
  intros Htv Hpos Hr.
  exists (size_of_lot (r1 / (floor_stop s * tv * 100))),
         (size_of_lot (r2 / (floor_stop s * tv * 100))).
  split; [apply get_lot_size_finite; assumption|].
  split; [apply get_lot_size_finite; assumption|].
  split.
  - apply size_of_lot_mono, lot_quotient_mono; [apply divisor_pos|]; assumption.
  - set (l := r2 / (floor_stop s * tv * 100)).
    destruct (Qlt_le_dec l (1 # 100)) as [Hlt|Hge].
    + unfold size_of_lot. apply Qltb_lt in Hlt. rewrite Hlt. lra.
    + apply size_of_lot_range, Hge.
Qed.

Lemma get_lot_size_rounds_to_nearest_witness :
  let lot :=
    Binary64.nearest (25 / Binary64.nearest (Binary64.nearest (floor_stop 5 * 1) * 100)) in
  exists size : Q,
    outcome (Binary64.get_lot_size sizing_env (Fin 25) (Fin 5)) = Ok (Fin size) /\
    (size == 0 <-> lot < Binary64.nearest (1 # 100)) /\
    (Binary64.nearest (1 # 100) <= lot ->
       Binary64.nearest (1 # 100) <= size <= 10 /\
       exists k : Z,
         size = Binary64.nearest (inject_Z k / 100) /\
         Qabs (inject_Z k / 100 - cap_lot lot) <= (1 # 200) + 2 ^ (-49) /\
         (5 < 10 -> k = round_half_even (cap_lot lot * 100)) /\
         (10 <= 5 ->
          k = round_half_even (Binary64.nearest (cap_lot lot * 100)))).
Proof.
  apply (get_lot_size_rounds_to_nearest sizing_env 1 25 5); reflexivity.
Defined.

(** C6 (as stated) fails.  With tick value 1, risk amount 25 and stop
    distance 5 give the quotient 0.025, risk amount 18 and stop distance 10
    the quotient 0.018: rounding down to the lot step, as the
    specification words it, gives 0.02 and 0.01, and the code returns 0.03
    and 0.02. *)
Lemma get_lot_size_not_rounded_down :
  outcome (Binary64.get_lot_size sizing_env (Fin 25) (Fin 5))
  = Ok (Fin (Binary64.nearest (3 # 100))) /\
  spec_risk_size_here 1 25 5 == 2 # 100 /\
  outcome (Binary64.get_lot_size sizing_env (Fin 18) (Fin 10))
  = Ok (Fin (Binary64.nearest (2 # 100))) /\
  spec_risk_size_here 1 18 10 == 1 # 100 /\
  ~ Binary64.nearest (3 # 100) == spec_risk_size_here 1 25 5 /\
  ~ Binary64.nearest (2 # 100) == spec_risk_size_here 1 18 10.
Proof.
  split; [vm_compute; reflexivity|].
  split; [reflexivity|].
  split; [vm_compute; reflexivity|].
  split; [reflexivity|].
  split; intro H; vm_compute in H; discriminate H.
Qed.

Lemma get_lot_size_monotone_witness :
  exists size1 size2 : Q,
    outcome (get_lot_size sizing_env (Fin 18) (Fin 10)) = Ok (Fin size1) /\
    outcome (get_lot_size sizing_env (Fin 50) (Fin 10)) = Ok (Fin size2) /\
    size1 <= size2 /\ size2 <= 10.
Proof.
  apply (get_lot_size_monotone sizing_env 1 10 18 50);
    [reflexivity | reflexivity | unfold Qle; simpl; lia].
Defined.

(** ** State recovery *)

Lemma check_existing_position_outcome (positions : option (list position)) :
  outcome (check_existing_position positions)
  = Ok (match filter (fun p => (magic p =? MAGIC_NUMBER)%Z)
                     (match positions with Some l => l | None => [] end) with
        | [] => no_position
        | pos :: _ => adopt pos
        end).
Proof.
  destruct positions as [[|p l]|]; try reflexivity.
  unfold check_existing_position, outcome.
  destruct (filter _ (p :: l)) as [|pos rest]; reflexivity.
Qed.

(** C7 (as amended).  Recovery returns the flat state when no open position
    carries the magic number, and otherwise adopts direction, open price,
    open time and volume of the first such position in the order in which
    the terminal reports them; a second call on the same terminal state
    gives the same result, and whatever is adopted is a reported position
    carrying the magic number. *)
Theorem check_existing_position_first_match (positions : option (list position)) :
  let reported := match positions with Some l => l | None => [] end in
  let bot_positions := filter (fun p => (magic p =? MAGIC_NUMBER)%Z) reported in
  outcome (check_existing_position positions)
    = Ok (match bot_positions with [] => no_position | pos :: _ => adopt pos end) /\
  outcome (check_existing_position positions ;;; check_existing_position positions)
    = outcome (check_existing_position positions) /\
  (forall st d,
     outcome (check_existing_position positions) = Ok st ->
     active_position st = Some d ->
     exists pos, In pos reported /\ magic pos = MAGIC_NUMBER /\ st = adopt pos).
Proof.
  intros reported bot_positions. split; [apply check_existing_position_outcome|].
  split.
  - unfold bind, outcome.
    destruct (check_existing_position positions) as [t [st|e]] eqn:E;
      [|discriminate (eq_trans (eq_sym (f_equal snd E))
                               (check_existing_position_outcome positions))].
    reflexivity.
  - intros st d Hst Hd. rewrite check_existing_position_outcome in Hst.
    fold reported in Hst. fold bot_positions in Hst.
    destruct bot_positions as [|pos rest] eqn:Eb.
    + injection Hst as <-. discriminate Hd.
    + injection Hst as <-. exists pos.
      assert (In pos bot_positions) as Hin by (rewrite Eb; left; reflexivity).
      apply filter_In in Hin. destruct Hin as [Hin Hm].
      repeat split; [exact Hin | now apply Z.eqb_eq in Hm].
Qed.

(** C7 (as stated) fails.  When the terminal reports the later-opened of
    two matching positions first, the code adopts that one (opened at
    161.00), not the earliest-opened one (opened at 159.00). *)
Lemma recovery_not_earliest_opened :
  exists st,
    outcome (check_existing_position (Some two_positions)) = Ok st /\
    entry_price st = Some (Fin (16100 # 100)) /\
    entry_price (spec_recover MAGIC_NUMBER two_positions) = Some (Fin (15900 # 100)) /\
    st <> spec_recover MAGIC_NUMBER two_positions.
Proof.
  eexists. repeat split; try reflexivity. intro H. discriminate H.
Qed.

(** ** Start of the script *)



(** ** Traces *)

Lemma orders_of_app (t u : list event) :
  orders_of (t ++ u) = orders_of t ++ orders_of u.
Proof. apply flat_map_app. Qed.

Lemma audit_of_app (t u : list event) :
  audit_of (t ++ u) = audit_of t ++ audit_of u.
Proof. apply flat_map_app. Qed.

Lemma orders_of_cons (e : event) (t : list event) :
  orders_of (e :: t)
  = match e with Mt5 (OrderSend r) => r :: orders_of t | _ => orders_of t end.
Proof. destruct e as [[]| | |]; reflexivity. Qed.

Lemma audit_of_cons (e : event) (t : list event) :
  audit_of (e :: t)
  = match e with AppendCsv r => r :: audit_of t | _ => audit_of t end.
Proof. destruct e; reflexivity. Qed.

Lemma orders_of_nil : orders_of [] = [].
Proof. reflexivity. Qed.

Lemma audit_of_nil : audit_of [] = [].
Proof. reflexivity. Qed.

#[global] Arguments orders_of : simpl never.
#[global] Arguments audit_of : simpl never.

(** Computes the orders and the audit records of a trace built from
    known events and from sub-traces known to hold none. *)
Ltac trace_simpl :=
  cbn [bind ret emit raise get_attr operand fst snd app trace outcome];
  repeat first
    [ rewrite orders_of_app | rewrite audit_of_app
    | rewrite orders_of_cons | rewrite audit_of_cons
    | rewrite orders_of_nil | rewrite audit_of_nil
    | rewrite app_nil_r ];
  cbn [app].

Lemma trace_bind {A B} (m : M A) (f : A -> M B) :
  trace (bind m f)
  = match outcome m with
    | Ok a => trace m ++ trace (f a)
    | Raise _ => trace m
    end.
Proof.
  destruct m as [t [a|e]]; [|reflexivity].
  unfold bind, trace, outcome. cbn. destruct (f a). reflexivity.
Qed.


(** The events of the risk sizing: the terminal is asked for the symbol,
    and the warning is printed when the result is the skip value. *)
Lemma get_lot_size_trace (env : cycle_env) (r s : float) :
  trace (get_lot_size env r s) = [Mt5 SymbolInfo] \/
  exists lot, get_lot_size env r s
              = ([Mt5 SymbolInfo; Print (MsgRiskTooLow lot)], Ok (Fin 0)).
Proof.
  unfold get_lot_size.
  destruct (trade_tick_value env) as [tv|]; [|left; reflexivity].
  cbn [get_attr bind ret emit raise].
  destruct (gtb (Fin 10) s).
  - destruct (py_truediv r _) as [lot|]; [|left; reflexivity].
    cbn. destruct (ltb lot _); [right; eexists|left]; reflexivity.
  - cbn. destruct (ltb _ _); [right; eexists|left]; reflexivity.
Qed.

Lemma get_lot_size_quiet (env : cycle_env) (r s : float) :
  orders_of (trace (get_lot_size env r s)) = [] /\
  audit_of (trace (get_lot_size env r s)) = [] /\
  forallb (fun e => negb (is_call PositionsGet e)) (trace (get_lot_size env r s)) = true.
Proof.
  destruct (get_lot_size_trace env r s) as [E|[lot E]]; rewrite E;
    repeat split; reflexivity.
Qed.

(** ** The main loop *)

Section Loop.

Variable sqrt : Q -> Q.

Lemma get_indicators_cases (env : cycle_env) :
  (rates_history env = None /\
   get_indicators sqrt env = ([Mt5 (CopyRatesFromPos 200)], Ok None)) \/
  (copy_rates_from_pos env 200 = Some [] /\
   get_indicators sqrt env = ([Mt5 (CopyRatesFromPos 200)], Raise IndexError)) \/
  (exists df data,
     copy_rates_from_pos env 200 = Some df /\ df <> [] /\
     get_indicators sqrt env = ([Mt5 (CopyRatesFromPos 200)], Ok (Some data)) /\
     fst (fst (fst data)) = z_score_of sqrt (map close df)).
Proof.
  unfold get_indicators, copy_rates_from_pos.
  destruct (rates_history env) as [h|]; [|left; split; reflexivity].
  cbn [option_map]. destruct (tail 200 h) as [|b df] eqn:E.
  - right; left. split; reflexivity.
  - right; right. eexists (b :: df), _. repeat split; try reflexivity.
    discriminate.
Qed.



(** Closes the case of a pass that sent no order. *)
Ltac no_order_case tac :=
  left; split; [tac|]; split; [tac|];
  let st' := fresh "st'" in
  let H := fresh "H" in
  intros st' H; try discriminate H; injection H as <-; repeat split.

(** What a pass of the entry branch can do: nothing to the position and the
    audit file, or exactly one order, handled as [order_handled] says. *)
Lemma entry_branch_cases (env : cycle_env) (st : state)
  (z price atr : float) (is_trending : bool) :
  active_position st = None ->
  let t := trace (entry_branch env st z price atr is_trending) in
  let res := outcome (entry_branch env st z price atr is_trending) in
  (orders_of t = [] /\ audit_of t = [] /\
   forall st', res = Ok st' -> same_position st st') \/
  (exists req, orders_of t = [req] /\ order_handled env st t res req).
Proof.
  intros Hflat t res. subst t res. unfold entry_branch.
  destruct (gtb (abs z) ENTRY_Z && negb is_trending);
    [|no_order_case ltac:(reflexivity)].
  destruct (account_equity env) as [equity|]; [|no_order_case ltac:(reflexivity)].
  cbn [get_attr bind ret emit raise].
  set (risk := mul equity RISK_PER_TRADE). set (stop := mul atr (Fin 200)).
  pose proof (get_lot_size_quiet env risk stop) as [Ho [Ha _]].
  destruct (get_lot_size env risk stop) as [tl [lots|e]];
    unfold trace in Ho, Ha; cbn [fst] in Ho, Ha;
    [|no_order_case ltac:(trace_simpl; assumption)].
  cbn [bind].
  destruct (geb lots (Fin (1 # 100)));
    [|no_order_case ltac:(trace_simpl; rewrite ?Ho, ?Ha; reflexivity)].
  unfold send_market_order.
  destruct (symbol_info_tick env) as [tk|];
    [|no_order_case ltac:(trace_simpl; rewrite ?Ho, ?Ha; reflexivity)].
  cbn [get_attr bind ret emit raise].
  set (req := mkRequest _ _ _ _ _ _ _ _ _).
  right. exists req. unfold order_handled.
  destruct (order_send env req) as [retcode|].
  - cbn [get_attr bind ret emit raise]. destruct (retcode =? TRADE_RETCODE_DONE)%Z.
    + unfold log_trade. trace_simpl. rewrite ?Ho, ?Ha.
      split; [reflexivity|]. left. eexists _, _.
      split; [reflexivity|]. split; [reflexivity|].
      cbn. rewrite Hflat. discriminate.
    + trace_simpl. rewrite ?Ho, ?Ha.
      split; [reflexivity|]. split; [reflexivity|].
      eexists. split; [reflexivity|]. split; [repeat split|].
      intro H. now elim H.
  - trace_simpl. rewrite ?Ho, ?Ha. repeat split.
Qed.

Lemma exit_branch_cases (env : cycle_env) (st : state) (held : direction)
  (z price : float) :
  active_position st = Some held ->
  let t := trace (exit_branch env st held z price) in
  let res := outcome (exit_branch env st held z price) in
  (orders_of t = [] /\ audit_of t = [] /\
   forall st', res = Ok st' -> same_position st st') \/
  (exists req, orders_of t = [req] /\ order_handled env st t res req).
Proof.
  intros Hheld t res. subst t res. unfold exit_branch.
  destruct (trade_entry_time st) as [entry_time|];
    [|no_order_case ltac:(reflexivity)].
  cbn [operand bind ret].
  match goal with |- context [if ?c then _ else _] => destruct c end;
    [|no_order_case ltac:(reflexivity)].
  unfold close_position.
  destruct (symbol_info_tick env) as [tk|]; [|no_order_case ltac:(reflexivity)].
  cbn [get_attr bind ret emit raise].
  set (req := mkRequest _ _ _ _ _ _ _ _ _).
  right. exists req. unfold order_handled.
  destruct (order_send env req) as [retcode|].
  - cbn [get_attr bind ret emit raise]. destruct (retcode =? TRADE_RETCODE_DONE)%Z.
    + destruct (entry_price st) as [entry|].
      * unfold log_trade. trace_simpl. split; [reflexivity|].
        left. eexists _, _. split; [reflexivity|]. split; [reflexivity|].
        cbn. rewrite Hheld. discriminate.
      * trace_simpl. split; [reflexivity|]. right. split; reflexivity.
    + trace_simpl. split; [reflexivity|]. split; [reflexivity|].
      exists st. repeat split.
  - trace_simpl. repeat split.
Qed.

(** A pass on a connected terminal that delivers indicators: the
    evaluation, between the two data calls and the sleep. *)
Lemma cycle_evaluates (env : cycle_env) (st : state)
  (data : float * float * float * bool) :
  terminal_connected env = Some true ->
  outcome (get_indicators sqrt env) = Ok (Some data) ->
  cycle sqrt env st
  = (Mt5 TerminalInfo :: Mt5 (CopyRatesFromPos 200) :: trace (evaluate env st data)
       ++ match outcome (evaluate env st data) with
          | Ok _ => [Sleep 60]
          | Raise _ => []
          end,
     outcome (evaluate env st data)).
Proof.
  intros Hc Hd. unfold cycle. rewrite Hc.
  cbn [get_attr bind ret emit raise negb].
  destruct (get_indicators_cases env) as [[_ E]|[[_ E]|(df & data' & _ & _ & E & _)]];
    rewrite E in Hd |- *; try discriminate Hd.
  injection Hd as ->. destruct data as [[[z price] atr] is_trending].
  unfold evaluate. cbn [bind].
  destruct (active_position st) as [held|];
    match goal with |- context [bind ?b _] => destruct b as [tb [stb|e]] end;
    cbn; rewrite ?app_nil_r; reflexivity.
Qed.

(** A pass of the loop sends at most one order, and handles it as
    [order_handled] says. *)
Lemma cycle_cases (env : cycle_env) (st : state) :
  let t := trace (cycle sqrt env st) in
  let res := outcome (cycle sqrt env st) in
  (orders_of t = [] /\ audit_of t = [] /\
   forall st', res = Ok st' -> same_position st st') \/
  (exists req, orders_of t = [req] /\ order_handled env st t res req).
Proof.
  intros t res. subst t res.
  destruct (terminal_connected env) as [[|]|] eqn:Hc;
    [|unfold cycle; rewrite Hc; no_order_case ltac:(reflexivity)..].
  destruct (get_indicators_cases env) as [[_ E]|[[_ E]|(df & data & _ & _ & E & _)]];
    [unfold cycle; rewrite Hc, E; no_order_case ltac:(reflexivity)..|].
  rewrite (cycle_evaluates env st data Hc (f_equal snd E)).
  assert (let t := trace (evaluate env st data) in
          let res := outcome (evaluate env st data) in
          (orders_of t = [] /\ audit_of t = [] /\
           forall st', res = Ok st' -> same_position st st') \/
          (exists req, orders_of t = [req] /\ order_handled env st t res req)) as H.
  { destruct data as [[[z price] atr] is_trending]. unfold evaluate.
    destruct (active_position st) as [held|] eqn:Hact;
      [apply exit_branch_cases|apply entry_branch_cases]; exact Hact. }
  cbv zeta in H. unfold order_handled in *.
  destruct (outcome (evaluate env st data)); trace_simpl; exact H.
Qed.

Lemma audit_file_unchanged (file : option (list audit_record)) (t : list event) :
  audit_of t = [] -> audit_file_after file t = file.
Proof. intro H. unfold audit_file_after. rewrite H. reflexivity. Qed.

(** C2 (as amended).  When a pass of the loop submits an order (an entry
    from the flat state or a closing order) whose result is not a
    confirmed fill, the position is unchanged (a held position is left
    exactly as it was) and no record is written to the audit file; when
    the terminal returns no result object at all the pass ends on an
    uncaught exception. *)
Theorem rejected_order_leaves_no_record (env : cycle_env) (st : state)
  (req : request) :
  In req (orders_of (trace (cycle sqrt env st))) ->
  order_send env req <> Some TRADE_RETCODE_DONE ->
  orders_of (trace (cycle sqrt env st)) = [req] /\
  audit_of (trace (cycle sqrt env st)) = [] /\
  (forall file, audit_file_after file (trace (cycle sqrt env st)) = file) /\
  match outcome (cycle sqrt env st) with
  | Ok st' => same_position st st' /\ (active_position st <> None -> st' = st)
  | Raise _ => order_send env req = None
  end.
Proof.
  intros Hin Hrej.
  destruct (cycle_cases env st) as [(Ho & _)|(req' & Ho & Hh)];
    rewrite Ho in Hin; [destruct Hin|].
  destruct Hin as [<-|[]]. split; [exact Ho|].
  unfold order_handled in Hh.
  assert (audit_of (trace (cycle sqrt env st)) = [] /\
          match outcome (cycle sqrt env st) with
          | Ok st' => same_position st st' /\ (active_position st <> None -> st' = st)
          | Raise _ => order_send env req' = None
          end) as [Ha Hres].
  { destruct (order_send env req') as [retcode|].
    - destruct (retcode =? TRADE_RETCODE_DONE)%Z eqn:Ed.
      + apply Z.eqb_eq in Ed. subst retcode. now elim Hrej.
      + destruct Hh as (Ha & st' & -> & Hs & Heq). auto.
    - destruct Hh as [-> Ha]. auto. }
  split; [exact Ha|]. split; [|exact Hres].
  intro file. now apply audit_file_unchanged.
Qed.

(** C3 (as amended).  When the entry condition holds in the flat state and
    the risk sizing returns 0, the pass submits no order, writes nothing
    to the audit file and stays flat. *)
Theorem zero_size_skips_silently (env : cycle_env) (st : state)
  (z price atr : float) (is_trending : bool) (equity lots : float) :
  terminal_connected env = Some true ->
  outcome (get_indicators sqrt env) = Ok (Some (z, price, atr, is_trending)) ->
  active_position st = None ->
  gtb (abs z) ENTRY_Z && negb is_trending = true ->
  account_equity env = Some equity ->
  outcome (get_lot_size env (mul equity RISK_PER_TRADE) (mul atr (Fin 200))) = Ok lots ->
  is_zero lots = true ->
  orders_of (trace (cycle sqrt env st)) = [] /\
  audit_of (trace (cycle sqrt env st)) = [] /\
  (forall file, audit_file_after file (trace (cycle sqrt env st)) = file) /\
  exists st', outcome (cycle sqrt env st) = Ok st' /\ active_position st' = None.
Proof.
  intros Hc Hd Hflat Hentry Heq Hlots Hzero.
  enough (orders_of (trace (cycle sqrt env st)) = [] /\
          audit_of (trace (cycle sqrt env st)) = [] /\
          exists st', outcome (cycle sqrt env st) = Ok st' /\
                      active_position st' = None) as (Ho & Ha & Hst).
  { repeat split; try assumption. intro file. now apply audit_file_unchanged. }
  rewrite (cycle_evaluates env st _ Hc Hd).
  unfold evaluate, entry_branch. rewrite Hflat, Hentry, Heq.
  cbn [get_attr bind ret emit raise].
  pose proof (get_lot_size_quiet env (mul equity RISK_PER_TRADE) (mul atr (Fin 200)))
    as [Ho [Ha _]].
  destruct (get_lot_size env _ _) as [tl [lots'|e]]; [|discriminate Hlots].
  injection Hlots as ->. unfold trace in Ho, Ha. cbn [fst] in Ho, Ha.
  cbn [bind].
  assert (geb lots (Fin (1 # 100)) = false) as ->.
  { destruct lots as [q| | |]; try discriminate Hzero.
    cbn in Hzero |- *. apply Qeq_bool_iff in Hzero.
    destruct (Qle_bool (1 # 100) q) eqn:E; [|reflexivity].
    apply Qle_bool_iff in E. lra. }
  trace_simpl. rewrite Ho, Ha. repeat split.
  eexists. split; [reflexivity|]. exact Hflat.
Qed.

(** C4 (as amended).  On a pass that holds a position, with a terminal
    that fills the closing order: when one of the four exit conditions
    holds, exactly one order is sent and exactly one record is written,
    whose reason (also the comment of the order) is that of the first
    condition that holds in the order Target, Z-Stop, Time, Weekend; in
    particular a z-score of 4.5 gives the reason "Z-Stop" whatever the
    holding time and the day of the week. *)
Theorem exit_reason_by_priority (env : cycle_env) (st : state)
  (held : direction) (z price atr : float) (is_trending : bool)
  (entry_time : Q) (entry : float) (tk : tick) :
  terminal_connected env = Some true ->
  outcome (get_indicators sqrt env) = Ok (Some (z, price, atr, is_trending)) ->
  active_position st = Some held ->
  trade_entry_time st = Some entry_time ->
  entry_price st = Some entry ->
  symbol_info_tick env = Some tk ->
  (forall req, order_send env req = Some TRADE_RETCODE_DONE) ->
  let hit_target := leb (abs z) EXIT_Z in
  let hit_stop := geb (abs z) STOP_Z in
  let time_exit := Qltb MAX_TRADE_DURATION_HOURS ((now env - entry_time) / 3600) in
  let is_weekend_close := ((weekday (now env) =? 4) && (20 <=? hour (now env)))%Z in
  (hit_target || hit_stop || time_exit || is_weekend_close = true ->
   exists r req,
     audit_of (trace (cycle sqrt env st)) = [r] /\
     orders_of (trace (cycle sqrt env st)) = [req] /\
     Action r = "EXIT"%string /\
     Reason r = (if hit_target then "Target"
                 else if hit_stop then "Z-Stop"
                 else if time_exit then "Time" else "Weekend")%string /\
     req_comment req = Reason r) /\
  (forall q, z = Fin q -> q == 9 # 2 ->
   exists r, audit_of (trace (cycle sqrt env st)) = [r] /\
             Reason r = "Z-Stop"%string).
Proof.
  intros Hc Hd Hheld Htime Hentry Htick Hfill hit_target hit_stop time_exit
         is_weekend_close.
  assert (hit_target || hit_stop || time_exit || is_weekend_close = true ->
          exists r req,
            audit_of (trace (cycle sqrt env st)) = [r] /\
            orders_of (trace (cycle sqrt env st)) = [req] /\
            Action r = "EXIT"%string /\
            Reason r = exit_reason hit_target hit_stop time_exit /\
            req_comment req = Reason r) as Hgen.
  { intro Hany. rewrite (cycle_evaluates env st _ Hc Hd).
    unfold evaluate, exit_branch. rewrite Hheld, Htime.
    cbn [operand bind ret].
    fold hit_target hit_stop time_exit is_weekend_close. rewrite Hany.
    unfold close_position. rewrite Htick.
    cbn [get_attr bind ret emit raise]. rewrite Hfill.
    cbn [get_attr bind ret emit raise]. rewrite Z.eqb_refl, Hentry.
    unfold log_trade. trace_simpl.
    eexists _, _. repeat split. }
  split; [exact Hgen|].
  intros q -> Hq.
  assert (hit_target = false) as Ht.
  { subst hit_target. cbn. destruct (Qle_bool (Qabs q) (2 # 10)) eqn:E; [|reflexivity].
    apply Qle_bool_iff in E. rewrite Hq in E. cbn in E. lra. }
  assert (hit_stop = true) as Hs.
  { subst hit_stop. cbn. apply Qle_bool_iff. rewrite Hq. cbn. lra. }
  destruct Hgen as (r & req & Ha & _ & _ & Hr & _).
  { rewrite Ht, Hs. reflexivity. }
  exists r. split; [exact Ha|]. rewrite Hr, Ht, Hs. reflexivity.
Qed.

(** C5 (as amended).  On a connected terminal the pass is skipped, with no
    order, no record and no change of state, exactly when the terminal
    returns no bars at all ([None]); a sequence of bars that is not empty
    is accepted whatever its length, and the pass evaluates the indicators
    computed from it (an empty sequence ends the pass on an IndexError). *)
Theorem only_missing_rates_skip_the_pass (env : cycle_env) (st : state) :
  terminal_connected env = Some true ->
  match copy_rates_from_pos env 200 with
  | None =>
      cycle sqrt env st = ([Mt5 TerminalInfo; Mt5 (CopyRatesFromPos 200)], Ok st)
  | Some [] => outcome (cycle sqrt env st) = Raise IndexError
  | Some (_ :: _) =>
      exists data,
        outcome (get_indicators sqrt env) = Ok (Some data) /\
        outcome (cycle sqrt env st) = outcome (evaluate env st data)
  end.
Proof.
  intro Hc.
  destruct (get_indicators_cases env) as [[Hr E]|[[Hr E]|(df & data & Hr & Hne & E & _)]].
  - unfold copy_rates_from_pos. rewrite Hr. cbn [option_map].
    unfold cycle. rewrite Hc, E. reflexivity.
  - rewrite Hr. unfold cycle. rewrite Hc, E. reflexivity.
  - rewrite Hr. destruct df as [|b df]; [now elim Hne|].
    exists data. split; [rewrite E; reflexivity|].
    rewrite (cycle_evaluates env st data Hc (f_equal snd E)). reflexivity.
Qed.

Lemma no_recovery_app (t u : list event) :
  no_recovery (t ++ u) = no_recovery t && no_recovery u.
Proof. apply forallb_app. Qed.

Lemma no_recovery_bind {A B} (m : M A) (f : A -> M B) :
  no_recovery (trace m) = true ->
  (forall a, no_recovery (trace (f a)) = true) ->
  no_recovery (trace (bind m f)) = true.
Proof.
  intros Hm Hf. rewrite trace_bind.
  destruct (outcome m) as [a|e]; [|exact Hm].
  rewrite no_recovery_app, Hm, Hf. reflexivity.
Qed.

(** Walks through a computation, one bind and one branch at a time. *)
Ltac no_recovery_steps :=
  repeat match goal with
  | |- no_recovery (trace (bind _ _)) = true =>
      apply no_recovery_bind; [|intros ?]
  | |- no_recovery (trace (get_lot_size _ _ _)) = true =>
      apply get_lot_size_quiet
  | |- no_recovery (trace (get_attr ?o)) = true => destruct o; reflexivity
  | |- no_recovery (trace (operand ?o)) = true => destruct o; reflexivity
  | |- no_recovery (trace (if ?c then _ else _)) = true => destruct c
  | |- _ => reflexivity
  end.

Lemma evaluate_no_recovery (env : cycle_env) (st : state)
  (data : float * float * float * bool) :
  no_recovery (trace (evaluate env st data)) = true.
Proof.
  destruct data as [[[z price] atr] is_trending]. unfold evaluate.
  destruct (active_position st) as [held|].
  - unfold exit_branch, close_position, log_trade. cbv zeta. no_recovery_steps.
  - unfold entry_branch, send_market_order, log_trade. cbv zeta.
    no_recovery_steps.
Qed.

Lemma cycle_no_recovery (env : cycle_env) (st : state) :
  no_recovery (trace (cycle sqrt env st)) = true.
Proof.
  destruct (terminal_connected env) as [[|]|] eqn:Hc;
    [|unfold cycle; rewrite Hc; reflexivity..].
  destruct (get_indicators_cases env) as [[_ E]|[[_ E]|(df & data & _ & _ & E & _)]];
    [unfold cycle; rewrite Hc, E; reflexivity..|].
  rewrite (cycle_evaluates env st data Hc (f_equal snd E)).
  cbn [trace fst].
  change (no_recovery ([Mt5 TerminalInfo; Mt5 (CopyRatesFromPos 200)]
                         ++ trace (evaluate env st data)
                         ++ match outcome (evaluate env st data) with
                            | Ok _ => [Sleep 60]
                            | Raise _ => []
                            end) = true).
  rewrite !no_recovery_app, evaluate_no_recovery.
  destruct (outcome (evaluate env st data)); reflexivity.
Qed.

Lemma main_loop_no_recovery (envs : list cycle_env) (st : state) :
  no_recovery (trace (main_loop sqrt envs st)) = true.
Proof.
  revert st. induction envs as [|env envs IH]; intro st; [reflexivity|].
  cbn [main_loop]. rewrite trace_bind.
  pose proof (cycle_no_recovery env st) as Hc.
  destruct (outcome (cycle sqrt env st)) as [st'|e]; [|exact Hc].
  rewrite no_recovery_app, Hc, IH. reflexivity.
Qed.

Lemma no_recovery_filter (t : list event) :
  no_recovery t = true -> filter (is_call PositionsGet) t = [].
Proof.
  induction t as [|e t IH]; intro H; [reflexivity|].
  cbn in H |- *. apply andb_true_iff in H. destruct H as [He Ht].
  destruct (is_call PositionsGet e); [discriminate He|]. apply IH, Ht.
Qed.

Lemma check_existing_position_trace (positions : option (list position)) :
  filter (is_call PositionsGet) (trace (check_existing_position positions))
  = [Mt5 PositionsGet].
Proof.
  destruct positions as [[|p l]|]; try reflexivity.
  unfold check_existing_position.
  destruct (filter _ (p :: l)) as [|pos rest]; reflexivity.
Qed.

(** The script asks the terminal for the open positions once, before the
    loop, when the terminal starts. *)
Lemma script_recovers_once (s : startup) (envs : list cycle_env) :
  initialize_ok s = true ->
  filter (is_call PositionsGet) (fst (script sqrt s envs)) = [Mt5 PositionsGet].
Proof.
  intro Hi. unfold script. rewrite Hi. cbn [negb].
  pose proof (check_existing_position_trace (startup_positions s)) as H0.
  pose proof (check_existing_position_outcome (startup_positions s)) as Hst.
  destruct (check_existing_position (startup_positions s)) as [t0 [st|e]];
    unfold trace, outcome in *; cbn [fst snd] in *; [|discriminate Hst].
  pose proof (no_recovery_filter _ (main_loop_no_recovery envs st)) as Hl.
  destruct (main_loop sqrt envs st) as [t [st'|e]];
    unfold trace in Hl; cbn [fst] in *;
    cbn [filter is_call]; rewrite filter_app; cbn [filter is_call];
    rewrite filter_app, H0, Hl; reflexivity.
Qed.

(** C1 (as amended).  A pass that finds the connection down submits no
    order and leaves the loop variables as they were: it shuts the
    terminal down, sleeps five seconds, initializes it again, and the loop
    goes on from the same state.  The loop never asks the terminal for the
    open positions: recovery runs at the start of the script only, and the
    pass after a reconnect evaluates entry or exit on the state held
    before the outage. *)
Theorem reconnect_keeps_state (env : cycle_env) (envs : list cycle_env)
  (st : state) :
  terminal_connected env = Some false ->
  cycle sqrt env st = (reconnect_events, Ok st) /\
  orders_of (trace (cycle sqrt env st)) = [] /\
  main_loop sqrt (env :: envs) st
  = (reconnect_events ++ trace (main_loop sqrt envs st),
     outcome (main_loop sqrt envs st)) /\
  no_recovery (trace (main_loop sqrt (env :: envs) st)) = true /\
  (forall positions,
     filter (is_call PositionsGet)
            (fst (script sqrt (mkStartup true positions) (env :: envs)))
     = [Mt5 PositionsGet]).
Proof.
  intro Hc.
  assert (cycle sqrt env st = (reconnect_events, Ok st)) as E
    by (unfold cycle; rewrite Hc; reflexivity).
  split; [exact E|]. split; [rewrite E; reflexivity|].
  split; [|split; [apply main_loop_no_recovery|]].
  - cbn [main_loop]. rewrite E. cbn [bind].
    destruct (main_loop sqrt envs st). reflexivity.
  - intro positions. apply script_recovers_once. reflexivity.
Qed.

End Loop.

(** ** The properties on the example terminals *)

Lemma reconnect_keeps_state_witness :
  cycle Qsqrt offline_env no_position = (reconnect_events, Ok no_position) /\
  orders_of (trace (cycle Qsqrt offline_env no_position)) = [] /\
  main_loop Qsqrt [offline_env; filling_env 10000] no_position
  = (reconnect_events ++ trace (main_loop Qsqrt [filling_env 10000] no_position),
     outcome (main_loop Qsqrt [filling_env 10000] no_position)) /\
  no_recovery (trace (main_loop Qsqrt [offline_env; filling_env 10000] no_position))
  = true /\
  (forall positions,
     filter (is_call PositionsGet)
            (fst (script Qsqrt (mkStartup true positions)
                         [offline_env; filling_env 10000]))
     = [Mt5 PositionsGet]).
Proof.
  apply (reconnect_keeps_state Qsqrt offline_env [filling_env 10000] no_position).
  reflexivity.
Defined.

(** Without an outage the script fetches bars only after the recovery of
    its start. *)
Example script_recovers_at_start :
  recovers_before_evaluating false
    (fst (script Qsqrt (mkStartup true (Some [])) [filling_env 10000])) = true.
Proof. vm_compute. reflexivity. Qed.

(** C1 (as stated) fails.  The script starts flat, finds the connection
    down on the first pass and up again on the second: the second pass
    fetches bars and submits an entry order although no recovery followed
    the reconnect; the terminal was asked for the open positions once, at
    the start. *)
Lemma no_recovery_after_reconnect :
  recovers_before_evaluating false
    (fst (script Qsqrt (mkStartup true (Some [])) [offline_env; filling_env 10000]))
  = false /\
  List.length (orders_of
    (fst (script Qsqrt (mkStartup true (Some [])) [offline_env; filling_env 10000])))
  = 1%nat /\
  List.length (filter (is_call PositionsGet)
    (fst (script Qsqrt (mkStartup true (Some [])) [offline_env; filling_env 10000])))
  = 1%nat.
Proof. vm_compute. repeat split. Qed.

Lemma rejected_order_leaves_no_record_witness :
  orders_of (trace (cycle Qsqrt rejecting_env holding_long)) = [stop_request] /\
  audit_of (trace (cycle Qsqrt rejecting_env holding_long)) = [] /\
  (forall file,
     audit_file_after file (trace (cycle Qsqrt rejecting_env holding_long)) = file) /\
  match outcome (cycle Qsqrt rejecting_env holding_long) with
  | Ok st' =>
      same_position holding_long st' /\
      (active_position holding_long <> None -> st' = holding_long)
  | Raise _ => order_send rejecting_env stop_request = None
  end.
Proof.
  apply (rejected_order_leaves_no_record Qsqrt rejecting_env holding_long stop_request).
  - vm_compute. left. reflexivity.
  - vm_compute. discriminate.
Defined.

(** C2 (as stated) fails.  A closing order and an entry order are rejected
    (retcode 10006), and neither pass writes a record to the audit file. *)
Lemma rejected_order_not_audited :
  orders_of (trace (cycle Qsqrt rejecting_env holding_long)) = [stop_request] /\
  order_send rejecting_env stop_request = Some 10006%Z /\
  audit_of (trace (cycle Qsqrt rejecting_env holding_long)) = [] /\
  List.length (orders_of (trace (cycle Qsqrt rejecting_env no_position))) = 1%nat /\
  audit_of (trace (cycle Qsqrt rejecting_env no_position)) = [].
Proof. vm_compute. repeat split. Qed.

Lemma zero_size_skips_silently_witness :
  orders_of (trace (cycle Qsqrt (filling_env 100) no_position)) = [] /\
  audit_of (trace (cycle Qsqrt (filling_env 100) no_position)) = [] /\
  (forall file,
     audit_file_after file (trace (cycle Qsqrt (filling_env 100) no_position)) = file) /\
  exists st', outcome (cycle Qsqrt (filling_env 100) no_position) = Ok st' /\
              active_position st' = None.
Proof.
  eapply (zero_size_skips_silently Qsqrt (filling_env 100) no_position).
  - reflexivity.
  - vm_compute. reflexivity.
  - reflexivity.
  - vm_compute. reflexivity.
  - reflexivity.
  - vm_compute. reflexivity.
  - vm_compute. reflexivity.
Defined.

(** C3 (as stated) fails.  With an equity of 100 the entry condition holds
    (z-score 4.5, no trend) and the risk sizing returns 0: the pass prints
    its warning and writes no record to the audit file. *)
Lemma zero_size_not_audited :
  exists q price atr t st' lot,
    outcome (get_indicators Qsqrt (filling_env 100))
    = Ok (Some (Fin q, price, atr, false)) /\
    q == 9 # 2 /\
    cycle Qsqrt (filling_env 100) no_position = (t, Ok st') /\
    In (Print (MsgRiskTooLow lot)) t /\
    trade_lots st' = Fin 0 /\
    audit_of t = [].
Proof.
  eexists _, _, _, _, _, _.
  split; [vm_compute; reflexivity|].
  split; [vm_compute; reflexivity|].
  split; [vm_compute; reflexivity|].
  split; [do 4 right; left; reflexivity|].
  split; reflexivity.
Qed.

Lemma exit_reason_by_priority_witness :
  exists r, audit_of (trace (cycle Qsqrt (filling_env 10000) holding_long)) = [r] /\
            Reason r = "Z-Stop"%string.
Proof.
  edestruct (exit_reason_by_priority Qsqrt (filling_env 10000) holding_long LONG)
    as [_ H].
  - reflexivity.
  - vm_compute. reflexivity.
  - reflexivity.
  - reflexivity.
  - reflexivity.
  - reflexivity.
  - intro req. reflexivity.
  - eapply H; [reflexivity | vm_compute; reflexivity].
Defined.

(** C4 (as stated) fails.  While a long position is held and the z-score
    is 4.5, the reason written is "Z-Stop", not "Stop". *)
Lemma stop_reason_is_z_stop :
  exists q price atr is_trending r,
    outcome (get_indicators Qsqrt (filling_env 10000))
    = Ok (Some (Fin q, price, atr, is_trending)) /\
    q == 9 # 2 /\
    active_position holding_long = Some LONG /\
    audit_of (trace (cycle Qsqrt (filling_env 10000) holding_long)) = [r] /\
    Reason r = "Z-Stop"%string /\
    Reason r <> "Stop"%string.
Proof.
  eexists _, _, _, _, _.
  split; [vm_compute; reflexivity|].
  split; [vm_compute; reflexivity|].
  split; [reflexivity|].
  split; [vm_compute; reflexivity|].
  split; [reflexivity|discriminate].
Qed.

Lemma only_missing_rates_skip_the_pass_witness :
  cycle Qsqrt sizing_env no_position
  = ([Mt5 TerminalInfo; Mt5 (CopyRatesFromPos 200)], Ok no_position).
Proof.
  apply (only_missing_rates_skip_the_pass Qsqrt sizing_env no_position).
  reflexivity.
Defined.

(** C5 (as stated) fails.  The terminal delivers 120 bars, fewer than the
    200 of the trend window (and than lookback plus trend window, 300):
    the pass computes its indicators, the missing trend average counts as
    no trend, and an entry order is submitted and filled. *)
Lemma short_history_is_traded :
  copy_rates_from_pos (filling_env 10000) 200 = Some example_history /\
  (List.length example_history < 200)%nat /\
  exists t st',
    cycle Qsqrt (filling_env 10000) no_position = (t, Ok st') /\
    List.length (orders_of t) = 1%nat /\
    List.length (audit_of t) = 1%nat /\
    active_position st' = Some SHORT.
Proof.
  split; [reflexivity|]. split; [vm_compute; lia|].
  eexists _, _. split; [vm_compute; reflexivity|].
  repeat split.
Qed.

(** ** The z-score *)

Lemma Qsum_cons (x : Q) (l : list Q) : Qsum (x :: l) == x + Qsum l.
Proof. unfold Qsum. cbn [fold_right]. apply Qred_correct. Qed.

Lemma Qsum_plain (l : list Q) : Qsum l == fold_right Qplus 0 l.
Proof.
  induction l as [|x l IH]; [reflexivity|].
  rewrite Qsum_cons, IH. reflexivity.
Qed.

Lemma plain_sum_ext (f g : Q -> Q) (l : list Q) :
  (forall x, f x == g x) ->
  fold_right Qplus 0 (map f l) == fold_right Qplus 0 (map g l).
Proof.
  intro H. induction l as [|x l IH]; [reflexivity|].
  cbn [map fold_right]. rewrite IH, H. reflexivity.
Qed.

Lemma Qsum_squares_nonneg (m : Q) (l : list Q) :
  0 <= Qsum (map (fun x => (x - m) * (x - m)) l).
Proof.
  induction l as [|x l IH]; [discriminate|].
  cbn [map]. rewrite Qsum_cons.
  pose proof (Qsqr_nonneg (x - m)) as H.
  assert ((x - m) ^ 2 == (x - m) * (x - m)) as E by (simpl; ring).
  rewrite E in H. lra.
Qed.

(** A sum of squared deviations is zero only if every value is the
    centre. *)
Lemma Qsum_squares_zero (m : Q) (l : list Q) :
  Qsum (map (fun x => (x - m) * (x - m)) l) == 0 ->
  forall x, In x l -> x == m.
Proof.
  induction l as [|y l IH]; intros Hz x Hin; [destruct Hin|].
  cbn [map] in Hz. rewrite Qsum_cons in Hz.
  pose proof (Qsum_squares_nonneg m l) as Hl.
  pose proof (Qsqr_nonneg (y - m)) as Hy.
  assert ((y - m) ^ 2 == (y - m) * (y - m)) as E by (simpl; ring).
  rewrite E in Hy.
  destruct Hin as [<-|Hin].
  - assert ((y - m) * (y - m) == 0) as H0 by lra.
    apply Qmult_integral in H0. destruct H0; lra.
  - apply IH; [lra|exact Hin].
Qed.

Lemma last_skipn {A} (k : nat) (l : list A) (d : A) :
  (k < List.length l)%nat -> last (skipn k l) d = last l d.
Proof.
  revert k. induction l as [|x l IH]; intros k Hk; [inversion Hk|].
  destruct k as [|k]; [reflexivity|].
  cbn [skipn]. cbn [List.length] in Hk. rewrite IH by lia.
  destruct l; [inversion Hk; lia|reflexivity].
Qed.

Lemma tail_length {A} (n : nat) (l : list A) :
  List.length (tail n l) = Nat.min n (List.length l).
Proof. unfold tail. rewrite length_skipn. lia. Qed.

Lemma last_tail {A} (n : nat) (l : list A) (d : A) :
  (0 < n)%nat -> l <> [] -> last (tail n l) d = last l d.
Proof.
  intros Hn Hl. unfold tail. apply last_skipn.
  destruct l; [now elim Hl|]. cbn [List.length]. lia.
Qed.

Lemma last_In {A} (l : list A) (d : A) : l <> [] -> In (last l d) l.
Proof.
  induction l as [|x l IH]; intro H; [now elim H|].
  destruct l as [|y l]; [left; reflexivity|].
  right. apply IH. discriminate.
Qed.

Lemma mean_matches_spec (l : list Q) :
  Qsum l / inject_Z (Z.of_nat (List.length l)) == spec_mean l.
Proof. unfold spec_mean. rewrite Qsum_plain. reflexivity. Qed.

Lemma sample_variance_matches_spec (l : list Q) :
  (1 <= List.length l)%nat -> sample_variance l == spec_sample_variance l.
Proof.
  intro Hn. unfold sample_variance, spec_sample_variance.
  rewrite Qsum_plain.
  rewrite (plain_sum_ext _ (fun x => (x - spec_mean l) ^ 2)).
  - assert (inject_Z (Z.of_nat (List.length l - 1))
            == inject_Z (Z.of_nat (List.length l)) - 1) as ->.
    { rewrite Nat2Z.inj_sub by exact Hn. unfold Z.sub.
      rewrite inject_Z_plus, inject_Z_opp. reflexivity. }
    reflexivity.
  - intro x. rewrite mean_matches_spec. simpl. ring.
Qed.

Lemma sample_variance_zero (l : list Q) :
  (2 <= List.length l)%nat -> sample_variance l == 0 ->
  forall x, In x l -> x == Qsum l / inject_Z (Z.of_nat (List.length l)).
Proof.
  intros Hn Hv. apply Qsum_squares_zero.
  unfold sample_variance in Hv.
  set (s := Qsum _) in *. set (d := inject_Z _) in Hv.
  assert (0 < d) as Hd.
  { subst d. change 0 with (inject_Z 0). rewrite <- Zlt_Qlt. lia. }
  assert (s == s / d * d) as -> by (field; lra).
  rewrite Hv. ring.
Qed.

Section ZScore.

Variable sqrt : Q -> Q.

(** The z-score of a series of at least two closes. *)
Lemma z_score_of_cases (closes : list Q) :
  (2 <= List.length closes)%nat ->
  let window := tail LOOKBACK closes in
  let mean := Qsum window / inject_Z (Z.of_nat (List.length window)) in
  let variance := sample_variance window in
  z_score_of sqrt closes = div (Fin (last closes 0 - mean)) (Fin (sqrt variance)) /\
  (~ sqrt variance == 0 ->
   z_score_of sqrt closes = Fin ((last closes 0 - mean) / sqrt variance)) /\
  (sqrt variance == 0 -> variance == 0 -> z_score_of sqrt closes = NaN).
Proof.
  intros Hn window mean variance.
  assert (List.length window = Nat.min LOOKBACK (List.length closes)) as Hlen
    by apply tail_length.
  assert (2 <= List.length window)%nat as Hw by (rewrite Hlen; unfold LOOKBACK; lia).
  assert (z_score_of sqrt closes
          = div (Fin (last closes 0 - mean)) (Fin (sqrt variance))) as Hz.
  { unfold z_score_of. fold window. unfold series_mean, series_std, of_Z.
    destruct (List.length window <=? 1)%nat eqn:E;
      [apply Nat.leb_le in E; lia|].
    cbn [div].
    destruct (Qeq_bool (inject_Z (Z.of_nat (List.length window))) 0) eqn:E0.
    - apply Qeq_bool_iff in E0. unfold Qeq in E0. cbn in E0. lia.
    - reflexivity. }
  split; [exact Hz|]. split.
  - intro Hnz. rewrite Hz. cbn [div].
    destruct (Qeq_bool (sqrt variance) 0) eqn:E; [|reflexivity].
    apply Qeq_bool_iff in E. now elim Hnz.
  - intros Hs Hv. rewrite Hz. cbn [div].
    apply Qeq_bool_iff in Hs. rewrite Hs.
    assert (closes <> []) as Hne by (destruct closes; [cbn in Hn; lia|discriminate]).
    assert (window <> []) as Hwne by (destruct window; [cbn in Hw; lia|discriminate]).
    assert (last closes 0 == mean) as Hl.
    { apply sample_variance_zero; [exact Hw|exact Hv|].
      rewrite <- (last_tail LOOKBACK closes 0) by (unfold LOOKBACK; auto; lia).
      apply last_In, Hwne. }
    assert (Qcompare (last closes 0 - mean) 0 = Eq) as ->.
    { apply Qeq_alt. rewrite Hl. ring. }
    reflexivity.
Qed.

(** C8 (as amended).  On a sequence of at least two bars the computation
    of the indicators succeeds, whatever the standard deviation of the
    closes of the lookback window (the last 100, or all of them if fewer):
    a standard deviation of zero does not make it fail.  When the standard
    deviation (the square root of the sample variance, divisor n - 1) is
    not zero, the z-score is the last close minus the mean of those
    closes, divided by it. *)
Theorem z_score_formula (env : cycle_env) (df : list bar) :
  copy_rates_from_pos env 200 = Some df ->
  (2 <= List.length df)%nat ->
  let closes := map close df in
  let window := tail LOOKBACK closes in
  exists (mean variance : Q) (z price atr : float) (is_trending : bool),
    outcome (get_indicators sqrt env) = Ok (Some (z, price, atr, is_trending)) /\
    mean == spec_mean window /\
    variance == spec_sample_variance window /\
    (~ sqrt variance == 0 -> z = Fin ((last closes 0 - mean) / sqrt variance)).
Proof.
  intros Hr Hn closes window.
  assert (2 <= List.length closes)%nat as Hc
    by (subst closes; rewrite length_map; exact Hn).
  pose proof (z_score_of_cases closes Hc) as H. cbv zeta in H. fold window in H.
  assert (2 <= List.length window)%nat as Hw.
  { subst window. rewrite tail_length. unfold LOOKBACK. lia. }
  destruct (get_indicators_cases sqrt env)
    as [[Hnone _]|[[Hnil _]|(df' & data & Hr' & _ & E & Hz)]].
  - unfold copy_rates_from_pos in Hr. rewrite Hnone in Hr. discriminate Hr.
  - rewrite Hnil in Hr. injection Hr as <-. cbn in Hn. lia.
  - rewrite Hr' in Hr. injection Hr as ->.
    destruct data as [[[z price] atr] is_trending]. cbn [fst] in Hz. subst z.
    exists (Qsum window / inject_Z (Z.of_nat (List.length window))),
           (sample_variance window), (z_score_of sqrt closes), price, atr,
           is_trending.
    split; [rewrite E; reflexivity|].
    split; [apply mean_matches_spec|].
    split; [apply sample_variance_matches_spec; lia|].
    destruct H as (_ & H & _). exact H.
Qed.

End ZScore.

Lemma z_score_formula_witness :
  let closes := map close example_history in
  let window := tail LOOKBACK closes in
  exists (mean variance : Q) (z price atr : float) (is_trending : bool),
    outcome (get_indicators Qsqrt (filling_env 10000))
    = Ok (Some (z, price, atr, is_trending)) /\
    mean == spec_mean window /\
    variance == spec_sample_variance window /\
    (~ Qsqrt variance == 0 -> z = Fin ((last closes 0 - mean) / Qsqrt variance)).
Proof.
  apply (z_score_formula Qsqrt (filling_env 10000) example_history).
  - reflexivity.
  - vm_compute. lia.
Defined.

(** C8 (as stated) fails.  On 120 bars that all close at 160.00 (a value
    whose sums are exact in binary64) the standard deviation of the window
    is zero; the computation of the indicators does not fail, the z-score
    is NaN, and the pass runs to its end without entering. *)
Lemma zero_deviation_gives_nan :
  exists s price atr,
    series_std Qsqrt (tail LOOKBACK (map close flat_history)) = Fin s /\
    s == 0 /\
    get_indicators Qsqrt flat_env
    = ([Mt5 (CopyRatesFromPos 200)], Ok (Some (NaN, price, atr, false))) /\
    cycle Qsqrt flat_env no_position
    = ([Mt5 TerminalInfo; Mt5 (CopyRatesFromPos 200); Sleep 60], Ok no_position).
Proof.
  eexists _, _, _.
  split; [vm_compute; reflexivity|].
  split; [vm_compute; reflexivity|].
  split; [vm_compute; reflexivity|].
  vm_compute. reflexivity.
Qed.

(** * Further properties of the code *)

(** ** The risk sizing on arbitrary values *)

(** Lines 49-53 on the quotient [lot]: 0, NaN, or a size from 0.01 to
    10. *)
Lemma sized_lot_range (lot : float) :
  let size := if ltb lot (Fin (1 # 100)) then Fin 0
              else round (py_min lot (Fin 10)) 2 in
  size = Fin 0 \/ size = NaN \/
  exists q, size = Fin q /\ 1 # 100 <= q <= 10.
Proof.
  cbv zeta. destruct lot as [q| | |]; cbn [ltb].
  - destruct (Qltb q (1 # 100)) eqn:E; [left; reflexivity|].
    right; right. apply Qltb_ge in E.
    pose proof (size_of_lot_range q E) as H. unfold size_of_lot, cap_lot in H.
    apply Qltb_ge in E. rewrite E in H.
    unfold py_min. cbn [ltb].
    destruct (Qltb 10 q); cbn [round]; eexists; (split; [reflexivity|exact H]).
  - right; right. cbn. eexists. split; [reflexivity|]. split; discriminate.
  - left. reflexivity.
  - right; left. reflexivity.
Qed.

Lemma get_lot_size_values (env : cycle_env) (risk_amount stop_pips size : float) :
  outcome (get_lot_size env risk_amount stop_pips) = Ok size ->
  size = Fin 0 \/ size = NaN \/ exists q, size = Fin q /\ 1 # 100 <= q <= 10.
Proof.
  unfold get_lot_size.
  destruct (trade_tick_value env) as [tv|]; [|discriminate].
  cbn [get_attr bind ret emit raise].
  destruct (gtb (Fin 10) stop_pips).
  - destruct (py_truediv risk_amount _) as [lot|]; [|discriminate].
    cbn [bind ret]. pose proof (sized_lot_range lot) as H. cbv zeta in H.
    destruct (ltb lot (Fin (1 # 100)));
      cbn [bind ret emit outcome snd]; intro Hs; injection Hs as <-; exact H.
  - cbn [bind ret]. set (lot := div risk_amount _).
    pose proof (sized_lot_range lot) as H. cbv zeta in H.
    destruct (ltb lot (Fin (1 # 100)));
      cbn [bind ret emit outcome snd]; intro Hs; injection Hs as <-; exact H.
Qed.

(** X1.  Whatever the risk amount, the stop distance and the tick value
    (infinities and NaN included), a lot size that [get_lot_size] returns
    is 0, NaN, or a size from 0.01 to 10. *)
Theorem get_lot_size_range (env : cycle_env) (risk_amount stop_pips size : float) :
  outcome (get_lot_size env risk_amount stop_pips) = Ok size ->
  size = Fin 0 \/ size = NaN \/ exists q, size = Fin q /\ 1 # 100 <= q <= 10.
Proof. apply get_lot_size_values. Qed.

(** A NaN stop distance gives a NaN lot size. *)
Lemma get_lot_size_nan_stop (env : cycle_env) (risk_amount size : float) :
  outcome (get_lot_size env risk_amount NaN) = Ok size -> size = NaN.
Proof.
  unfold get_lot_size.
  destruct (trade_tick_value env) as [tv|]; [|discriminate].
  cbn [get_attr bind ret emit raise gtb ltb py_max].
  destruct tv, risk_amount; cbn; intros [= <-]; reflexivity.
Qed.

(** The value returned does not decrease with the quotient, on the numpy
    path. *)
Lemma binary64_size_of_lot_mono (a b : Q) :
  a <= b -> Binary64.size_of_lot false a <= Binary64.size_of_lot false b.
Proof.
  intro Hab.
  destruct (Qlt_le_dec a (Binary64.nearest (1 # 100))) as [Ha|Ha].
  - unfold Binary64.size_of_lot at 1. apply Qltb_lt in Ha. rewrite Ha.
    destruct (Qlt_le_dec b (Binary64.nearest (1 # 100))) as [Hb|Hb].
    + unfold Binary64.size_of_lot. apply Qltb_lt in Hb. rewrite Hb. apply Qle_refl.
    + destruct (binary64_size_of_lot_grid false b Hb) as (k & Hk & Es & _).
      rewrite Es. apply Qlt_le_weak, nearest_pos.
      destruct Hk as [Hk _]. rewrite Zle_Qle in Hk. change (inject_Z 1) with 1 in Hk.
      assert (inject_Z k / 100 == inject_Z k * (1 # 100)) as -> by field. lra.
  - assert (Binary64.nearest (1 # 100) <= b) as Hb by lra.
    destruct (binary64_size_of_lot_grid false a Ha) as (ka & Hka & Ea & _ & _ & Ka).
    destruct (binary64_size_of_lot_grid false b Hb) as (kb & Hkb & Eb & _ & _ & Kb).
    rewrite Ea, Eb.
    assert (ka <= kb)%Z as Hk.
    { rewrite (Ka eq_refl), (Kb eq_refl).
      destruct (cap_lot_bounds a Ha) as [Ha1 _].
      apply round_half_even_mono, nearest_mono; [lra|].
      apply Qmult_le_compat_r; [apply cap_lot_mono, Hab | discriminate]. }
    apply nearest_mono.
    + destruct Hka as [Hk1 _]. rewrite Zle_Qle in Hk1. change (inject_Z 1) with 1 in Hk1.
      assert (inject_Z ka / 100 == inject_Z ka * (1 # 100)) as -> by field. lra.
    + rewrite Zle_Qle in Hk.
      apply Qmult_le_compat_r; [exact Hk | discriminate].
Qed.

(** The quotient of line 46 does not grow with a stop distance of at least
    10. *)
Lemma binary64_quotient_antitone (tv r s1 s2 : Q) :
  0 < tv -> 0 <= r -> 10 <= s1 -> s1 <= s2 ->
  Binary64.quotient r s2 tv <= Binary64.quotient r s1 tv.
Proof.
  intros Htv Hr H1 H12.
  pose proof (binary64_divisor_pos s1 tv Htv) as Hd1.
  pose proof (binary64_divisor_pos s2 tv Htv) as Hd2.
  assert (floor_stop s1 = s1) as E1.
  { unfold floor_stop. destruct (Qltb s1 10) eqn:E; [|reflexivity].
    apply Qltb_lt in E. lra. }
  assert (floor_stop s2 = s2) as E2.
  { unfold floor_stop. destruct (Qltb s2 10) eqn:E; [|reflexivity].
    apply Qltb_lt in E. lra. }
  unfold Binary64.quotient. rewrite E1, E2 in *.
  assert (Binary64.nearest (Binary64.nearest (s1 * tv) * 100)
          <= Binary64.nearest (Binary64.nearest (s2 * tv) * 100)) as Hd.
  { assert (0 < s1 * tv) as Hp by (apply Qmult_lt_0_compat; lra).
    pose proof (nearest_pos _ Hp) as Hn.
    apply nearest_mono; [lra|].
    apply Qmult_le_compat_r; [|discriminate].
    apply nearest_mono; [lra|].
    apply Qmult_le_compat_r; lra. }
  set (d1 := Binary64.nearest (Binary64.nearest (s1 * tv) * 100)) in *.
  set (d2 := Binary64.nearest (Binary64.nearest (s2 * tv) * 100)) in *.
  assert (0 <= r / d2) as H0.
  { apply Qle_shift_div_l; [exact Hd2 | lra]. }
  apply nearest_mono; [exact H0|].
  apply Qle_shift_div_l; [exact Hd1|].
  assert (r / d2 * d1 == r * (d1 / d2)) as -> by (field; lra).
  assert (d1 / d2 <= 1) as Hq by (apply Qle_shift_div_r; lra).
  rewrite <- (Qmult_1_r r) at 2.
  destruct (Qeq_dec r 0) as [E|N]; [rewrite E; lra|].
  apply Qmult_le_l; [lra | exact Hq].
Qed.

(** X2.  With a positive tick value and a risk amount that is not
    negative, computed in binary64: among stop distances of at least 10 a
    larger one never gives a larger lot size, and all stop distances under
    10 give one and the same size.  (Between a floored stop distance and
    one of at least 10 the two roundings of line 53 differ, see
    [floored_stop_rounds_differently].) *)
Theorem get_lot_size_stop_distance (env : cycle_env) (tv r s1 s2 : Q) :
  trade_tick_value env = Some (Fin tv) -> 0 < tv -> 0 <= r -> s1 <= s2 ->
  exists size1 size2 : Q,
    outcome (Binary64.get_lot_size env (Fin r) (Fin s1)) = Ok (Fin size1) /\
    outcome (Binary64.get_lot_size env (Fin r) (Fin s2)) = Ok (Fin size2) /\
    (10 <= s1 -> size2 <= size1) /\
    (s2 < 10 -> size1 = size2).
Proof.
  intros Htv Hpos Hr H12.
  exists (Binary64.size_of_lot (Qltb s1 10) (Binary64.quotient r s1 tv)),
         (Binary64.size_of_lot (Qltb s2 10) (Binary64.quotient r s2 tv)).
  split; [apply binary64_get_lot_size_finite; assumption|].
  split; [apply binary64_get_lot_size_finite; assumption|].
  split.
  - intro H1.
    assert (Qltb s1 10 = false) as -> by (apply Qltb_ge; exact H1).
    assert (Qltb s2 10 = false) as -> by (apply Qltb_ge; lra).
    apply binary64_size_of_lot_mono, binary64_quotient_antitone; assumption.
  - intro H2.
    assert (Qltb s1 10 = true) as E1 by (apply Qltb_lt; lra).
    assert (Qltb s2 10 = true) as E2 by (apply Qltb_lt; lra).
    unfold Binary64.quotient, floor_stop. rewrite E1, E2. reflexivity.
Qed.

Lemma get_lot_size_stop_distance_witness :
  exists size1 size2 : Q,
    outcome (Binary64.get_lot_size sizing_env (Fin 100) (Fin 12)) = Ok (Fin size1) /\
    outcome (Binary64.get_lot_size sizing_env (Fin 100) (Fin 16)) = Ok (Fin size2) /\
    (10 <= 12 -> size2 <= size1) /\
    (16 < 10 -> size1 = size2).
Proof.
  apply (get_lot_size_stop_distance sizing_env 1 100 12 16);
    [reflexivity | reflexivity | unfold Qle; simpl; lia | unfold Qle; simpl; lia].
Defined.

(** A quotient of 0.015 is rounded to 0.01 after a floored stop distance
    (Python's [round] on the binary64 value, which is under 0.015) and to
    0.02 after a stop distance of 10 (numpy's, on the product 1.5). *)
Lemma floored_stop_rounds_differently :
  outcome (Binary64.get_lot_size sizing_env (Fin 15) (Fin 5))
  = Ok (Fin (Binary64.nearest (1 # 100))) /\
  outcome (Binary64.get_lot_size sizing_env (Fin 15) (Fin 10))
  = Ok (Fin (Binary64.nearest (2 # 100))).
Proof. split; vm_compute; reflexivity. Qed.

Lemma get_lot_size_range_witness :
  Fin (2 # 100) = Fin 0 \/ Fin (2 # 100) = NaN \/
  exists q, Fin (2 # 100) = Fin q /\ 1 # 100 <= q <= 10.
Proof.
  apply (get_lot_size_range sizing_env (Fin 18) (Fin 10) (Fin (2 # 100))).
  reflexivity.
Defined.

(** ** Orders of a pass *)

(** The one order the entry branch can send, and what follows it. *)
Lemma entry_branch_order (env : cycle_env) (st : state)
  (z price atr : float) (is_trending : bool) (req : request) :
  In req (orders_of (trace (entry_branch env st z price atr is_trending))) ->
  let direction := if gtb z (Fin 0) then SHORT else LONG in
  exists (equity lots : float) (tk : tick),
    gtb (abs z) ENTRY_Z && negb is_trending = true /\
    account_equity env = Some equity /\
    outcome (get_lot_size env (mul equity RISK_PER_TRADE) (mul atr (Fin 200)))
    = Ok lots /\
    geb lots (Fin (1 # 100)) = true /\
    symbol_info_tick env = Some tk /\
    req = entry_request tk direction lots /\
    orders_of (trace (entry_branch env st z price atr is_trending)) = [req] /\
    match order_send env req with
    | None => outcome (entry_branch env st z price atr is_trending)
              = Raise AttributeError
    | Some retcode =>
        if (retcode =? TRADE_RETCODE_DONE)%Z then
          outcome (entry_branch env st z price atr is_trending)
          = Ok (mkState (Some direction) (Some price) (Some (now env)) lots) /\
          audit_of (trace (entry_branch env st z price atr is_trending))
          = [mkAudit (now env) "ENTRY" (direction_str direction) (round price 3)
                     lots (round (Fin 0) 2) ("Z:" ++ format_2f z)]
        else
          outcome (entry_branch env st z price atr is_trending)
          = Ok (set_trade_lots st lots) /\
          audit_of (trace (entry_branch env st z price atr is_trending)) = []
    end.
Proof.
  intros Hin direction. revert Hin. unfold entry_branch.
  destruct (gtb (abs z) ENTRY_Z && negb is_trending); [|intros []].
  destruct (account_equity env) as [equity|]; [|intros []].
  cbn [get_attr bind ret emit raise].
  set (risk := mul equity RISK_PER_TRADE). set (stop := mul atr (Fin 200)).
  pose proof (get_lot_size_quiet env risk stop) as [Ho [Ha _]].
  destruct (get_lot_size env risk stop) as [tl [lots|e]] eqn:El;
    unfold trace in Ho, Ha; cbn [fst] in Ho, Ha;
    [|trace_simpl; rewrite Ho; intros []].
  cbn [bind].
  destruct (geb lots (Fin (1 # 100))) eqn:Eg;
    [|trace_simpl; rewrite ?Ho; intros []].
  unfold send_market_order.
  destruct (symbol_info_tick env) as [tk|];
    [|trace_simpl; rewrite ?Ho; intros []].
  cbn [get_attr bind ret emit raise]. fold direction.
  change (mkRequest TRADE_ACTION_DEAL SYMBOL lots
            (if direction_eqb direction LONG then ORDER_TYPE_BUY else ORDER_TYPE_SELL)
            (if direction_eqb direction LONG then ask tk else bid tk)
            (Some 20%Z) MAGIC_NUMBER "Z-Entry" ORDER_FILLING_IOC)
    with (entry_request tk direction lots).
  set (r := entry_request tk direction lots).
  subst risk stop. apply (f_equal snd) in El. cbn [snd] in El.
  destruct (order_send env r) as [retcode|] eqn:Es.
  - cbn [get_attr bind ret emit raise].
    destruct (retcode =? TRADE_RETCODE_DONE)%Z eqn:Ed; unfold log_trade;
      trace_simpl; rewrite ?Ho, ?Ha; cbn [app]; intros [<-|[]];
      exists equity, lots, tk; rewrite Es, Ed; repeat split;
      try reflexivity; assumption.
  - trace_simpl. rewrite ?Ho, ?Ha. cbn [app]. intros [<-|[]].
    exists equity, lots, tk. rewrite Es. repeat split; try reflexivity; assumption.
Qed.

(** The one order the exit branch can send, and what follows it. *)
Lemma exit_branch_order (env : cycle_env) (st : state) (held : direction)
  (z price : float) (req : request) :
  In req (orders_of (trace (exit_branch env st held z price))) ->
  exists (entry_time : Q) (tk : tick),
    trade_entry_time st = Some entry_time /\
    symbol_info_tick env = Some tk /\
    let hit_target := leb (abs z) EXIT_Z in
    let hit_stop := geb (abs z) STOP_Z in
    let time_exit := Qltb MAX_TRADE_DURATION_HOURS ((now env - entry_time) / 3600) in
    let is_weekend_close := ((weekday (now env) =? 4) && (20 <=? hour (now env)))%Z in
    let reason := exit_reason hit_target hit_stop time_exit in
    hit_target || hit_stop || time_exit || is_weekend_close = true /\
    req = closing_request tk held (trade_lots st) reason /\
    orders_of (trace (exit_branch env st held z price)) = [req] /\
    match order_send env req with
    | None => outcome (exit_branch env st held z price) = Raise AttributeError
    | Some retcode =>
        if (retcode =? TRADE_RETCODE_DONE)%Z then
          match entry_price st with
          | None => outcome (exit_branch env st held z price) = Raise TypeError
          | Some entry =>
              outcome (exit_branch env st held z price)
              = Ok (set_active_position st None) /\
              audit_of (trace (exit_branch env st held z price))
              = [mkAudit (now env) "EXIT" (direction_str held) (round price 3)
                   (trade_lots st)
                   (round (mul (mul (if direction_eqb held SHORT
                                     then sub entry price else sub price entry)
                                    (trade_lots st)) (Fin 100000)) 2)
                   reason]
          end
        else
          outcome (exit_branch env st held z price) = Ok st /\
          audit_of (trace (exit_branch env st held z price)) = []
    end.
Proof.
  unfold exit_branch.
  destruct (trade_entry_time st) as [entry_time|]; [|intros []].
  cbn [operand bind ret].
  set (hit_target := leb (abs z) EXIT_Z).
  set (hit_stop := geb (abs z) STOP_Z).
  set (time_exit := Qltb MAX_TRADE_DURATION_HOURS ((now env - entry_time) / 3600)).
  set (is_weekend_close := ((weekday (now env) =? 4) && (20 <=? hour (now env)))%Z).
  destruct (hit_target || hit_stop || time_exit || is_weekend_close) eqn:Eany;
    [|intros []].
  unfold close_position.
  destruct (symbol_info_tick env) as [tk|]; [|intros []].
  cbn [get_attr bind ret emit raise].
  change (mkRequest TRADE_ACTION_DEAL SYMBOL (trade_lots st)
            (if direction_eqb held LONG then ORDER_TYPE_SELL else ORDER_TYPE_BUY)
            (if direction_eqb held LONG then bid tk else ask tk)
            None MAGIC_NUMBER (exit_reason hit_target hit_stop time_exit)
            ORDER_FILLING_IOC)
    with (closing_request tk held (trade_lots st)
                          (exit_reason hit_target hit_stop time_exit)).
  set (r := closing_request tk held (trade_lots st) _).
  destruct (order_send env r) as [retcode|] eqn:Es.
  - cbn [get_attr bind ret emit raise].
    destruct (retcode =? TRADE_RETCODE_DONE)%Z eqn:Ed.
    + destruct (entry_price st) as [entry|] eqn:Ee; unfold log_trade;
        trace_simpl; intros [<-|[]]; exists entry_time, tk;
        cbv zeta; rewrite Es, Ed, ?Ee; repeat split; try reflexivity; exact Eany.
    + trace_simpl. intros [<-|[]]. exists entry_time, tk.
      cbv zeta. rewrite Es, Ed. repeat split; try reflexivity; exact Eany.
  - trace_simpl. intros [<-|[]]. exists entry_time, tk.
    cbv zeta. rewrite Es. repeat split; try reflexivity; exact Eany.
Qed.

Section Passes.

Variable sqrt : Q -> Q.

(** A pass either does not evaluate (and then sends nothing, writes
    nothing and keeps the loop variables), or does what [evaluate] does on
    the indicators. *)
Lemma cycle_reaches_evaluate (env : cycle_env) (st : state) :
  (orders_of (trace (cycle sqrt env st)) = [] /\
   audit_of (trace (cycle sqrt env st)) = [] /\
   forall st', outcome (cycle sqrt env st) = Ok st' -> st' = st) \/
  (exists data,
     terminal_connected env = Some true /\
     outcome (get_indicators sqrt env) = Ok (Some data) /\
     orders_of (trace (cycle sqrt env st)) = orders_of (trace (evaluate env st data)) /\
     audit_of (trace (cycle sqrt env st)) = audit_of (trace (evaluate env st data)) /\
     outcome (cycle sqrt env st) = outcome (evaluate env st data)).
Proof.
  destruct (terminal_connected env) as [[|]|] eqn:Hc;
    [|left; unfold cycle; rewrite Hc; repeat split; intros st' H;
      try discriminate H; injection H as <-; reflexivity..].
  destruct (get_indicators_cases sqrt env)
    as [[_ E]|[[_ E]|(df & data & _ & _ & E & _)]];
    [left; unfold cycle; rewrite Hc, E; repeat split; intros st' H;
     try discriminate H; injection H as <-; reflexivity..|].
  right. exists data. split; [reflexivity|]. split; [rewrite E; reflexivity|].
  rewrite (cycle_evaluates sqrt env st data Hc (f_equal snd E)).
  destruct (outcome (evaluate env st data)); trace_simpl; repeat split.
Qed.

(** Every order of a pass is the entry request of a flat pass or the
    closing request of a pass that holds a position. *)
Lemma cycle_order_shape (env : cycle_env) (st : state) (req : request) :
  In req (orders_of (trace (cycle sqrt env st))) ->
  orders_of (trace (cycle sqrt env st)) = [req] /\
  exists tk, symbol_info_tick env = Some tk /\
    match active_position st with
    | None => exists d lots, req = entry_request tk d lots
    | Some held => exists reason, req = closing_request tk held (trade_lots st) reason
    end.
Proof.
  intro Hin.
  destruct (cycle_reaches_evaluate env st) as [(Ho & _)|(data & _ & _ & Ho & _)];
    rewrite Ho in Hin |- *; [destruct Hin|].
  destruct data as [[[z price] atr] is_trending]. unfold evaluate in *.
  destruct (active_position st) as [held|].
  - destruct (exit_branch_order env st held z price req Hin)
      as (entry_time & tk & _ & Htk & H). cbv zeta in H.
    destruct H as (_ & Hreq & Hone & _).
    split; [exact Hone|]. exists tk. split; [exact Htk|]. eexists. exact Hreq.
  - destruct (entry_branch_order env st z price atr is_trending req Hin)
      as (equity & lots & tk & _ & _ & _ & _ & Htk & Hreq & Hone & _).
    split; [exact Hone|]. exists tk. split; [exact Htk|]. eexists _, _. exact Hreq.
Qed.

Lemma entry_request_tagged (tk : tick) (d : direction) (lots : float) :
  tagged (entry_request tk d lots).
Proof. repeat split. Qed.

Lemma closing_request_tagged (tk : tick) (held : direction) (lots : float)
  (reason : string) : tagged (closing_request tk held lots reason).
Proof. repeat split. Qed.

Lemma cycle_orders_tagged (env : cycle_env) (st : state) (req : request) :
  In req (orders_of (trace (cycle sqrt env st))) -> tagged req.
Proof.
  intro Hin. destruct (cycle_order_shape env st req Hin) as (_ & tk & _ & H).
  destruct (active_position st).
  - destruct H as [reason ->]. apply closing_request_tagged.
  - destruct H as (d & lots & ->). apply entry_request_tagged.
Qed.

(** X3.  Every order the loop sends, in any number of passes from any
    state, carries the magic number and the symbol of the strategy, as an
    immediate-or-cancel deal. *)
Theorem orders_are_tagged (envs : list cycle_env) (st : state) (req : request) :
  In req (orders_of (trace (main_loop sqrt envs st))) -> tagged req.
Proof.
  revert st. induction envs as [|env envs IH]; intros st Hin; [destruct Hin|].
  cbn [main_loop] in Hin. rewrite trace_bind in Hin.
  destruct (outcome (cycle sqrt env st)) as [st'|e].
  - rewrite orders_of_app in Hin. apply in_app_or in Hin.
    destruct Hin as [Hin|Hin]; [exact (cycle_orders_tagged env st req Hin)|].
    exact (IH st' Hin).
  - exact (cycle_orders_tagged env st req Hin).
Qed.

(** X4.  In any run of the loop there are at most as many orders as
    passes, and at most as many audit records as orders. *)
Theorem one_order_per_pass (envs : list cycle_env) (st : state) :
  (List.length (audit_of (trace (main_loop sqrt envs st)))
   <= List.length (orders_of (trace (main_loop sqrt envs st))))%nat /\
  (List.length (orders_of (trace (main_loop sqrt envs st)))
   <= List.length envs)%nat.
Proof.
  revert st. induction envs as [|env envs IH]; intro st; [split; apply le_n|].
  cbn [main_loop]. rewrite trace_bind.
  assert ((List.length (audit_of (trace (cycle sqrt env st)))
           <= List.length (orders_of (trace (cycle sqrt env st))))%nat /\
          (List.length (orders_of (trace (cycle sqrt env st))) <= 1)%nat) as [Ha Ho].
  { destruct (cycle_cases sqrt env st) as [(Ho & Ha & _)|(req & Ho & Hh)];
      rewrite Ho; [rewrite Ha; split; cbn; lia|].
    unfold order_handled in Hh. cbn [List.length].
    destruct (order_send env req) as [retcode|].
    - destruct (retcode =? TRADE_RETCODE_DONE)%Z.
      + destruct Hh as [(r & st' & -> & _)|[_ ->]]; cbn; lia.
      + destruct Hh as [-> _]. cbn; lia.
    - destruct Hh as [_ ->]. cbn; lia. }
  destruct (outcome (cycle sqrt env st)) as [st'|e].
  - rewrite audit_of_app, orders_of_app, !length_app. cbn [List.length].
    destruct (IH st') as [IHa IHo]. lia.
  - cbn [List.length]. lia.
Qed.

Lemma evaluate_flat (env : cycle_env) (st : state)
  (z price atr : float) (is_trending : bool) :
  active_position st = None ->
  evaluate env st (z, price, atr, is_trending)
  = entry_branch env st z price atr is_trending.
Proof. intro H. unfold evaluate. rewrite H. reflexivity. Qed.

Lemma evaluate_held (env : cycle_env) (st : state) (held : direction)
  (z price atr : float) (is_trending : bool) :
  active_position st = Some held ->
  evaluate env st (z, price, atr, is_trending) = exit_branch env st held z price.
Proof. intro H. unfold evaluate. rewrite H. reflexivity. Qed.

Lemma tradable_lots (lots : float) :
  (lots = Fin 0 \/ lots = NaN \/ exists q, lots = Fin q /\ 1 # 100 <= q <= 10) ->
  geb lots (Fin (1 # 100)) = true ->
  exists q, lots = Fin q /\ 1 # 100 <= q <= 10.
Proof.
  intros [->|[->|H]] Hg; [discriminate Hg..|exact H].
Qed.

Lemma exit_reason_values (a b c : bool) :
  In (exit_reason a b c) ["Target"; "Z-Stop"; "Time"; "Weekend"]%string.
Proof. destruct a, b, c; cbn; auto 6. Qed.

(** X5.  An order sent by a pass that starts flat is an entry: it is sent
    only when the z-score is beyond 2.2 in absolute value and the trend
    flag is off; it sells at the bid when the z-score is positive and buys
    at the ask otherwise, for a volume from 0.01 to 10 lots, with a
    deviation of 20 and the comment "Z-Entry". *)
Theorem entry_order_of_a_pass (env : cycle_env) (st : state) (req : request) :
  active_position st = None ->
  In req (orders_of (trace (cycle sqrt env st))) ->
  exists (z price atr : float) (tk : tick) (q : Q),
    outcome (get_indicators sqrt env) = Ok (Some (z, price, atr, false)) /\
    gtb (abs z) ENTRY_Z = true /\
    symbol_info_tick env = Some tk /\
    1 # 100 <= q <= 10 /\
    req = entry_request tk (if gtb z (Fin 0) then SHORT else LONG) (Fin q).
Proof.
  intros Hflat Hin.
  destruct (cycle_reaches_evaluate env st) as [(Ho & _)|(data & _ & Hd & Ho & _)];
    rewrite Ho in Hin; [destruct Hin|].
  destruct data as [[[z price] atr] is_trending].
  rewrite (evaluate_flat env st z price atr is_trending Hflat) in Hin.
  destruct (entry_branch_order env st z price atr is_trending req Hin)
    as (equity & lots & tk & Hcond & _ & Hl & Hg & Htk & Hreq & _).
  apply andb_true_iff in Hcond. destruct Hcond as [Hz Ht].
  apply negb_true_iff in Ht. subst is_trending.
  destruct (tradable_lots lots (get_lot_size_values _ _ _ _ Hl) Hg) as (q & -> & Hq).
  exists z, price, atr, tk, q. repeat split; try assumption; apply Hq.
Qed.

(** X6.  An order sent by a pass that holds a position closes that
    position: it is on the opposite side (a long is sold at the bid, a
    short is bought back at the ask), for the lots held, without
    deviation, and its comment is one of the four exit reasons. *)
Theorem closing_order_of_a_pass (env : cycle_env) (st : state)
  (held : direction) (req : request) :
  active_position st = Some held ->
  In req (orders_of (trace (cycle sqrt env st))) ->
  exists (tk : tick) (reason : string),
    symbol_info_tick env = Some tk /\
    In reason ["Target"; "Z-Stop"; "Time"; "Weekend"]%string /\
    req = closing_request tk held (trade_lots st) reason.
Proof.
  intros Hheld Hin.
  destruct (cycle_reaches_evaluate env st) as [(Ho & _)|(data & _ & Hd & Ho & _)];
    rewrite Ho in Hin; [destruct Hin|].
  destruct data as [[[z price] atr] is_trending].
  rewrite (evaluate_held env st held z price atr is_trending Hheld) in Hin.
  destruct (exit_branch_order env st held z price req Hin)
    as (entry_time & tk & _ & Htk & H). cbv zeta in H.
  destruct H as (_ & Hreq & _).
  exists tk. eexists. split; [exact Htk|]. split; [|exact Hreq].
  apply exit_reason_values.
Qed.

(** X7.  A pass leaves the flat state only through a filled entry order:
    the position takes the direction of the order, its entry price is the
    last close of the bars (not the quote of the order), its entry time is
    the clock reading, its lots are the volume of the order, and one
    record "ENTRY" is written. *)
Theorem entry_fill_sets_the_position (env : cycle_env) (st st' : state) :
  active_position st = None ->
  outcome (cycle sqrt env st) = Ok st' ->
  active_position st' <> None ->
  exists (z price atr : float) (req : request),
    let direction := if gtb z (Fin 0) then SHORT else LONG in
    outcome (get_indicators sqrt env) = Ok (Some (z, price, atr, false)) /\
    orders_of (trace (cycle sqrt env st)) = [req] /\
    order_send env req = Some TRADE_RETCODE_DONE /\
    st' = mkState (Some direction) (Some price) (Some (now env)) (req_volume req) /\
    audit_of (trace (cycle sqrt env st))
    = [mkAudit (now env) "ENTRY" (direction_str direction) (round price 3)
               (req_volume req) (round (Fin 0) 2) ("Z:" ++ format_2f z)].
Proof.
  intros Hflat Hst Hpos.
  destruct (cycle_reaches_evaluate env st)
    as [(_ & _ & Hsame)|(data & _ & Hd & Ho & Ha & Hout)].
  { rewrite (Hsame st' Hst) in Hpos. now elim Hpos. }
  destruct data as [[[z price] atr] is_trending].
  rewrite Ho, Ha. rewrite Hout in Hst.
  rewrite (evaluate_flat env st z price atr is_trending Hflat) in *.
  destruct (entry_branch_cases env st z price atr is_trending Hflat)
    as [(_ & _ & Hsame)|(req & Hone & _)].
  { destruct (Hsame st' Hst) as [Hact _]. rewrite Hact, Hflat in Hpos.
    now elim Hpos. }
  assert (In req (orders_of (trace (entry_branch env st z price atr is_trending))))
    as Hin by (rewrite Hone; left; reflexivity).
  destruct (entry_branch_order env st z price atr is_trending req Hin)
    as (equity & lots & tk & Hcond & _ & _ & _ & _ & Hreq & _ & Hres).
  apply andb_true_iff in Hcond. destruct Hcond as [_ Ht].
  apply negb_true_iff in Ht. subst is_trending.
  exists z, price, atr, req. cbv zeta.
  assert (req_volume req = lots) as Hv by (rewrite Hreq; reflexivity).
  destruct (order_send env req) as [retcode|]; [|rewrite Hres in Hst; discriminate Hst].
  destruct (retcode =? TRADE_RETCODE_DONE)%Z eqn:Ed; destruct Hres as [Hres Haud].
  - apply Z.eqb_eq in Ed. subst retcode. rewrite Hres in Hst.
    injection Hst as <-. rewrite Hv. repeat split; assumption.
  - rewrite Hres in Hst. injection Hst as <-. cbn in Hpos.
    rewrite Hflat in Hpos. now elim Hpos.
Qed.

(** X8.  A pass leaves a held position only through a filled closing
    order: the position becomes flat, entry price, entry time and lots stay
    in the loop variables, and one record "EXIT" is written with the reason
    of the order and the profit of line 183 rounded to two decimals. *)
Theorem exit_fill_clears_the_position (env : cycle_env) (st st' : state)
  (held : direction) :
  active_position st = Some held ->
  outcome (cycle sqrt env st) = Ok st' ->
  active_position st' = None ->
  exists (z price atr : float) (is_trending : bool) (req : request) (entry : float),
    outcome (get_indicators sqrt env) = Ok (Some (z, price, atr, is_trending)) /\
    orders_of (trace (cycle sqrt env st)) = [req] /\
    order_send env req = Some TRADE_RETCODE_DONE /\
    entry_price st = Some entry /\
    st' = set_active_position st None /\
    audit_of (trace (cycle sqrt env st))
    = [mkAudit (now env) "EXIT" (direction_str held) (round price 3) (trade_lots st)
         (round (mul (mul (if direction_eqb held SHORT then sub entry price
                           else sub price entry)
                          (trade_lots st)) (Fin 100000)) 2)
         (req_comment req)].
Proof.
  intros Hheld Hst Hflat.
  destruct (cycle_reaches_evaluate env st)
    as [(_ & _ & Hsame)|(data & _ & Hd & Ho & Ha & Hout)].
  { rewrite (Hsame st' Hst), Hheld in Hflat. discriminate Hflat. }
  destruct data as [[[z price] atr] is_trending].
  rewrite Ho, Ha. rewrite Hout in Hst.
  rewrite (evaluate_held env st held z price atr is_trending Hheld) in *.
  destruct (exit_branch_cases env st held z price Hheld)
    as [(_ & _ & Hsame)|(req & Hone & _)].
  { destruct (Hsame st' Hst) as [Hact _]. rewrite Hact, Hheld in Hflat.
    discriminate Hflat. }
  assert (In req (orders_of (trace (exit_branch env st held z price))))
    as Hin by (rewrite Hone; left; reflexivity).
  destruct (exit_branch_order env st held z price req Hin)
    as (entry_time & tk & _ & _ & H). cbv zeta in H.
  destruct H as (_ & Hreq & _ & Hres).
  assert (req_comment req
          = exit_reason (leb (abs z) EXIT_Z) (geb (abs z) STOP_Z)
              (Qltb MAX_TRADE_DURATION_HOURS ((now env - entry_time) / 3600)))
    as Hc by (rewrite Hreq; reflexivity).
  destruct (order_send env req) as [retcode|] eqn:Es;
    [|rewrite Hres in Hst; discriminate Hst].
  destruct (retcode =? TRADE_RETCODE_DONE)%Z eqn:Ed.
  - apply Z.eqb_eq in Ed. subst retcode.
    destruct (entry_price st) as [entry|] eqn:Ee;
      [|rewrite Hres in Hst; discriminate Hst].
    destruct Hres as [Hres Haud]. rewrite Hres in Hst. injection Hst as <-.
    exists z, price, atr, is_trending, req, entry. rewrite Hc.
    repeat split; try assumption; reflexivity.
  - destruct Hres as [Hres _]. rewrite Hres in Hst. injection Hst as <-.
    rewrite Hheld in Hflat. discriminate Hflat.
Qed.

Lemma Qround_nd_2_sign (x : Q) :
  (0 <= x -> 0 <= Qround_nd 2 x) /\ (x <= 0 -> Qround_nd 2 x <= 0).
Proof.
  assert (Qround_nd 2 0 == 0) as E by reflexivity.
  split; intro H; apply Qround_nd_2_mono in H; lra.
Qed.

(** X9.  The profit written in an "EXIT" record, on finite values, is
    (price - entry) x lots x 100000 for a long and (entry - price) x lots
    x 100000 for a short, rounded to two decimals, where price is the last
    close of the bars: it is never negative when that product is not, and
    never positive when that product is not. *)
Theorem recorded_profit (env : cycle_env) (st : state) (held : direction)
  (z atr : float) (is_trending : bool) (entry price lots : Q) (r : audit_record) :
  active_position st = Some held ->
  entry_price st = Some (Fin entry) ->
  trade_lots st = Fin lots ->
  outcome (get_indicators sqrt env) = Ok (Some (z, Fin price, atr, is_trending)) ->
  In r (audit_of (trace (cycle sqrt env st))) ->
  exists x : Q,
    PnL_JPY r = Fin x /\
    x == Qround_nd 2 (profit held entry price lots) /\
    (0 <= profit held entry price lots -> 0 <= x) /\
    (profit held entry price lots <= 0 -> x <= 0).
Proof.
  intros Hheld Hentry Hlots Hd Hin.
  destruct (cycle_reaches_evaluate env st)
    as [(_ & Ha & _)|(data & _ & Hd' & _ & Ha & _)];
    rewrite Ha in Hin; [destruct Hin|].
  rewrite Hd in Hd'. injection Hd' as <-.
  rewrite (evaluate_held env st held z (Fin price) atr is_trending Hheld) in Hin.
  destruct (exit_branch_cases env st held z (Fin price) Hheld)
    as [(_ & Hnone & _)|(req & Hone & _)]; [rewrite Hnone in Hin; destruct Hin|].
  assert (In req (orders_of (trace (exit_branch env st held z (Fin price)))))
    as Hreq by (rewrite Hone; left; reflexivity).
  destruct (exit_branch_order env st held z (Fin price) req Hreq)
    as (entry_time & tk & _ & _ & H). cbv zeta in H.
  destruct H as (_ & _ & _ & Hres).
  rewrite Hentry, Hlots in Hres.
  destruct (order_send env req) as [retcode|];
    [destruct (retcode =? TRADE_RETCODE_DONE)%Z|].
  - destruct Hres as [_ Haud]. rewrite Haud in Hin. destruct Hin as [<-|[]].
    cbn [PnL_JPY].
    assert (forall y, y == profit held entry price lots ->
            exists x, Fin (Qround_nd 2 y) = Fin x /\
                      x == Qround_nd 2 (profit held entry price lots) /\
                      (0 <= profit held entry price lots -> 0 <= x) /\
                      (profit held entry price lots <= 0 -> x <= 0)) as Hgen.
    { intros y Hy. exists (Qround_nd 2 y). split; [reflexivity|].
      pose proof (Qround_nd_2_proper _ _ Hy) as Hp.
      pose proof (Qround_nd_2_sign (profit held entry price lots)) as [Hs1 Hs2].
      split; [exact Hp|]. split; intro H; [apply Hs1 in H|apply Hs2 in H]; lra. }
    destruct held; cbn [direction_eqb sub mul round]; apply Hgen;
      unfold profit; cbn [direction_eqb]; reflexivity.
  - destruct Hres as [_ Haud]. rewrite Haud in Hin. destruct Hin.
  - assert (audit_of (trace (exit_branch env st held z (Fin price))) = []) as Haud.
    { destruct (exit_branch_cases env st held z (Fin price) Hheld)
        as [(_ & Hn & _)|(req' & Hone' & Hh)]; [exact Hn|].
      rewrite Hone in Hone'. injection Hone' as <-.
      unfold order_handled in Hh.
      destruct (order_send env req) as [retcode|] eqn:Es.
      - rewrite Hres in Hh.
        destruct (retcode =? TRADE_RETCODE_DONE)%Z.
        + destruct Hh as [(r' & st' & _ & Hh & _)|[Hh _]]; discriminate Hh.
        + destruct Hh as [Hh _]. exact Hh.
      - destruct Hh as [_ Hh]. exact Hh. }
    rewrite Haud in Hin. destruct Hin.
Qed.

(** X10.  Entry and exit fit together: when a pass has entered a position
    with one order, an order sent by a later pass from the state it left
    is on the other side (a buy is answered by a sell, a sell by a buy)
    and for the same volume. *)
Theorem closing_order_mirrors_entry (env1 env2 : cycle_env) (st st1 : state)
  (req1 req2 : request) :
  active_position st = None ->
  outcome (cycle sqrt env1 st) = Ok st1 ->
  active_position st1 <> None ->
  In req1 (orders_of (trace (cycle sqrt env1 st))) ->
  In req2 (orders_of (trace (cycle sqrt env2 st1))) ->
  req_volume req2 = req_volume req1 /\
  req_deviation req1 = Some 20%Z /\ req_deviation req2 = None /\
  ((req_type req1 = ORDER_TYPE_BUY /\ req_type req2 = ORDER_TYPE_SELL) \/
   (req_type req1 = ORDER_TYPE_SELL /\ req_type req2 = ORDER_TYPE_BUY)).
Proof.
  intros Hflat Hst Hpos Hin1 Hin2.
  (* the entry *)
  destruct (cycle_reaches_evaluate env1 st)
    as [(Ho & _)|(data & _ & _ & Ho & _ & Hout)];
    rewrite Ho in Hin1; [destruct Hin1|].
  destruct data as [[[z price] atr] is_trending].
  rewrite Hout in Hst.
  rewrite (evaluate_flat env1 st z price atr is_trending Hflat) in *.
  destruct (entry_branch_order env1 st z price atr is_trending req1 Hin1)
    as (equity & lots & tk & _ & _ & _ & _ & _ & Hreq1 & _ & Hres).
  assert (st1 = mkState (Some (if gtb z (Fin 0) then SHORT else LONG)) (Some price)
                        (Some (now env1)) lots) as Hst1.
  { destruct (order_send env1 req1) as [retcode|];
      [|rewrite Hres in Hst; discriminate Hst].
    destruct (retcode =? TRADE_RETCODE_DONE)%Z; destruct Hres as [Hres _];
      rewrite Hres in Hst; injection Hst as <-; [reflexivity|].
    cbn in Hpos. rewrite Hflat in Hpos. now elim Hpos. }
  (* the exit *)
  set (held := if gtb z (Fin 0) then SHORT else LONG) in *.
  assert (active_position st1 = Some held) as Hheld by (rewrite Hst1; reflexivity).
  destruct (cycle_reaches_evaluate env2 st1)
    as [(Ho2 & _)|(data2 & _ & _ & Ho2 & _)];
    rewrite Ho2 in Hin2; [destruct Hin2|].
  destruct data2 as [[[z2 price2] atr2] is_trending2].
  rewrite (evaluate_held env2 st1 held z2 price2 atr2 is_trending2 Hheld) in Hin2.
  destruct (exit_branch_order env2 st1 held z2 price2 req2 Hin2)
    as (entry_time & tk2 & _ & _ & H). cbv zeta in H.
  destruct H as (_ & Hreq2 & _).
  rewrite Hreq1, Hreq2, Hst1. cbn [req_volume req_deviation req_type entry_request
                                   closing_request trade_lots].
  repeat split. destruct held; [left|right]; split; reflexivity.
Qed.

(** X11.  A held position is kept when no exit condition holds: with a
    z-score strictly between 0.2 and 4 in absolute value, at most eight
    hours after the entry and outside Friday from 20:00 UTC, the pass
    sends no order, writes nothing, keeps the loop variables and sleeps
    60 seconds. *)
Theorem position_is_held (env : cycle_env) (st : state) (held : direction)
  (q : Q) (price atr : float) (is_trending : bool) (entry_time : Q) :
  terminal_connected env = Some true ->
  outcome (get_indicators sqrt env) = Ok (Some (Fin q, price, atr, is_trending)) ->
  active_position st = Some held ->
  trade_entry_time st = Some entry_time ->
  2 # 10 < Qabs q < 4 ->
  now env - entry_time <= 8 * 3600 ->
  (weekday (now env) <> 4 \/ hour (now env) < 20)%Z ->
  cycle sqrt env st
  = ([Mt5 TerminalInfo; Mt5 (CopyRatesFromPos 200); Sleep 60], Ok st).
Proof.
  intros Hc Hd Hheld Htime [Hlo Hhi] Hdur Hweek.
  rewrite (cycle_evaluates sqrt env st _ Hc Hd).
  rewrite (evaluate_held env st held (Fin q) price atr is_trending Hheld).
  unfold exit_branch. rewrite Htime. cbn [operand bind ret abs leb geb EXIT_Z STOP_Z].
  assert (Qle_bool (Qabs q) (2 # 10) = false) as ->.
  { destruct (Qle_bool (Qabs q) (2 # 10)) eqn:E; [|reflexivity].
    apply Qle_bool_iff in E. lra. }
  assert (Qle_bool 4 (Qabs q) = false) as ->.
  { destruct (Qle_bool 4 (Qabs q)) eqn:E; [|reflexivity].
    apply Qle_bool_iff in E. lra. }
  assert (Qltb MAX_TRADE_DURATION_HOURS ((now env - entry_time) / 3600) = false) as ->.
  { apply Qltb_ge. unfold MAX_TRADE_DURATION_HOURS.
    apply Qle_shift_div_r; [reflexivity|]. lra. }
  assert (((weekday (now env) =? 4) && (20 <=? hour (now env)))%Z = false) as ->.
  { apply andb_false_iff. destruct Hweek as [H|H];
      [left; apply Z.eqb_neq; exact H|right; apply Z.leb_gt; exact H]. }
  reflexivity.
Qed.

(** X12.  A NaN z-score never opens a position and never triggers the
    Target or Z-Stop exit: a flat pass goes straight to its sleep, and an
    order of a pass that holds a position can only carry the reason "Time"
    or "Weekend". *)
Theorem nan_z_score_is_inert (env : cycle_env) (st : state)
  (price atr : float) (is_trending : bool) :
  terminal_connected env = Some true ->
  outcome (get_indicators sqrt env) = Ok (Some (NaN, price, atr, is_trending)) ->
  (active_position st = None ->
   cycle sqrt env st
   = ([Mt5 TerminalInfo; Mt5 (CopyRatesFromPos 200); Sleep 60], Ok st)) /\
  (forall req, active_position st <> None ->
     In req (orders_of (trace (cycle sqrt env st))) ->
     req_comment req = "Time"%string \/ req_comment req = "Weekend"%string).
Proof.
  intros Hc Hd. rewrite (cycle_evaluates sqrt env st _ Hc Hd). split.
  - intro Hflat. rewrite (evaluate_flat env st NaN price atr is_trending Hflat).
    reflexivity.
  - intros req Hpos Hin.
    destruct (active_position st) as [held|] eqn:Hheld; [|now elim Hpos].
    rewrite (evaluate_held env st held NaN price atr is_trending Hheld) in Hin.
    cbn [trace fst] in Hin. rewrite !orders_of_cons in Hin.
    rewrite orders_of_app in Hin. apply in_app_or in Hin.
    destruct Hin as [Hin|Hin];
      [|destruct (outcome (exit_branch env st held NaN price)); destruct Hin].
    destruct (exit_branch_order env st held NaN price req Hin)
      as (entry_time & tk & _ & _ & H). cbv zeta in H.
    destruct H as (_ & -> & _). cbn.
    destruct (Qltb _ _); [left|right]; reflexivity.
Qed.

(** X13.  The trend flag blocks every entry: a flat pass whose indicators
    report a trend sends no order whatever the z-score, and goes straight
    to its sleep. *)
Theorem trend_blocks_entry (env : cycle_env) (st : state) (z price atr : float) :
  terminal_connected env = Some true ->
  outcome (get_indicators sqrt env) = Ok (Some (z, price, atr, true)) ->
  active_position st = None ->
  cycle sqrt env st
  = ([Mt5 TerminalInfo; Mt5 (CopyRatesFromPos 200); Sleep 60], Ok st).
Proof.
  intros Hc Hd Hflat. rewrite (cycle_evaluates sqrt env st _ Hc Hd).
  rewrite (evaluate_flat env st z price atr true Hflat).
  unfold entry_branch. rewrite andb_false_r. reflexivity.
Qed.

(** ** Indicators on short histories *)

Lemma get_indicators_value (env : cycle_env) (df : list bar) :
  copy_rates_from_pos env 200 = Some df -> df <> [] ->
  let closes := map close df in
  let ma200 := rolling_mean_last 200 (map Fin closes) in
  outcome (get_indicators sqrt env)
  = Ok (Some (z_score_of sqrt closes, Fin (last closes 0),
              rolling_mean_last 14 (true_range NaN df),
              gtb (div (abs (sub (Fin (last closes 0)) ma200)) ma200)
                  (Fin (3 # 100)))).
Proof.
  intros Hr Hne. unfold get_indicators. rewrite Hr.
  destruct df as [|b df]; [now elim Hne|]. reflexivity.
Qed.

Lemma rolling_mean_last_short (w : nat) (l : list float) :
  (List.length l < w)%nat -> rolling_mean_last w l = NaN.
Proof.
  intro H. unfold rolling_mean_last.
  assert ((List.length (tail w l) <? w)%nat = true) as ->.
  { apply Nat.ltb_lt. rewrite tail_length. lia. }
  reflexivity.
Qed.

Lemma true_range_length (prev : float) (df : list bar) :
  List.length (true_range prev df) = List.length df.
Proof.
  revert prev. induction df as [|b df IH]; intro prev; [reflexivity|].
  cbn [true_range List.length]. now rewrite IH.
Qed.

(** The average true range needs fifteen bars: the first true range is
    NaN. *)
Lemma atr_of_few_bars (df : list bar) :
  (List.length df < 15)%nat -> rolling_mean_last 14 (true_range NaN df) = NaN.
Proof.
  intro H.
  destruct (Nat.eq_dec (List.length df) 14) as [E|N].
  - unfold rolling_mean_last, tail.
    rewrite true_range_length, E, Nat.sub_diag. cbn [skipn].
    destruct df as [|b df]; [discriminate E|].
    cbn [true_range existsb]. rewrite orb_true_r. reflexivity.
  - apply rolling_mean_last_short. rewrite true_range_length. lia.
Qed.

(** X14.  With fewer than 200 bars the trend average is NaN and the trend
    flag is off, whatever the prices: the computation of the indicators
    succeeds and reports no trend. *)
Theorem short_history_reports_no_trend (env : cycle_env) (df : list bar) :
  copy_rates_from_pos env 200 = Some df -> df <> [] ->
  (List.length df < 200)%nat ->
  exists z price atr : float,
    outcome (get_indicators sqrt env) = Ok (Some (z, price, atr, false)).
Proof.
  intros Hr Hne Hlen.
  rewrite (get_indicators_value env df Hr Hne). cbv zeta.
  rewrite (rolling_mean_last_short 200) by (rewrite !length_map; exact Hlen).
  eexists _, _, _. reflexivity.
Qed.

(** X15.  With fewer than 15 bars the average true range is NaN, so is the
    lot size, and a flat pass never sends an order nor writes a record: it
    stays flat. *)
Theorem few_bars_never_enter (env : cycle_env) (st : state) (df : list bar) :
  copy_rates_from_pos env 200 = Some df -> df <> [] ->
  (List.length df < 15)%nat ->
  active_position st = None ->
  (exists z price is_trending,
     outcome (get_indicators sqrt env) = Ok (Some (z, price, NaN, is_trending))) /\
  orders_of (trace (cycle sqrt env st)) = [] /\
  audit_of (trace (cycle sqrt env st)) = [] /\
  (forall st', outcome (cycle sqrt env st) = Ok st' -> active_position st' = None).
Proof.
  intros Hr Hne Hlen Hflat.
  pose proof (get_indicators_value env df Hr Hne) as Hd. cbv zeta in Hd.
  rewrite (atr_of_few_bars df Hlen) in Hd.
  split; [eexists _, _, _; exact Hd|].
  assert (orders_of (trace (cycle sqrt env st)) = []) as Hnone.
  { destruct (orders_of (trace (cycle sqrt env st))) as [|req rest] eqn:Eo;
      [reflexivity|exfalso].
    assert (In req (orders_of (trace (cycle sqrt env st)))) as Hin
      by (rewrite Eo; left; reflexivity).
    destruct (cycle_reaches_evaluate env st) as [(Ho & _)|(data & _ & Hd' & Ho & _)];
      rewrite Ho in Hin; [destruct Hin|].
    rewrite Hd in Hd'. injection Hd' as <-.
    rewrite evaluate_flat in Hin by exact Hflat.
    destruct (entry_branch_order env st _ _ _ _ req Hin)
      as (equity & lots & tk & _ & _ & Hl & Hg & _).
    cbn [mul] in Hl. apply get_lot_size_nan_stop in Hl. subst lots.
    discriminate Hg. }
  split; [exact Hnone|].
  destruct (cycle_cases sqrt env st) as [(_ & Ha & Hsame)|(req & Ho & _)].
  - split; [exact Ha|]. intros st' Hst.
    destruct (Hsame st' Hst) as [-> _]. exact Hflat.
  - rewrite Hnone in Ho. discriminate Ho.
Qed.

Lemma quotient_sign (x s : Q) :
  0 < s -> (0 < x / s <-> 0 < x) /\ (x / s < 0 <-> x < 0).
Proof.
  intro Hs. pose proof (Qinv_lt_0_compat s Hs) as Hi.
  pose proof (Qmult_lt_r 0 x (/ s) Hi) as Hp.
  pose proof (Qmult_lt_r x 0 (/ s) Hi) as Hn.
  assert (0 * / s == 0) as E by ring.
  rewrite E in Hp, Hn. unfold Qdiv. split; assumption.
Qed.

(** X16.  On at least two bars with a positive standard deviation the
    z-score is finite and has the sign of the last close minus the mean of
    the lookback window: it is positive (an entry would be short) exactly
    when the last close is above that mean, negative exactly when it is
    below. *)
Theorem z_score_sign (env : cycle_env) (df : list bar) :
  copy_rates_from_pos env 200 = Some df ->
  (2 <= List.length df)%nat ->
  let closes := map close df in
  let window := tail LOOKBACK closes in
  0 < sqrt (sample_variance window) ->
  exists (z : Q) (price atr : float) (is_trending : bool),
    outcome (get_indicators sqrt env)
    = Ok (Some (Fin z, price, atr, is_trending)) /\
    (gtb (Fin z) (Fin 0) = true <-> spec_mean window < last closes 0) /\
    (ltb (Fin z) (Fin 0) = true <-> last closes 0 < spec_mean window).
Proof.
  intros Hr Hn closes window Hs.
  assert (df <> []) as Hne by (destruct df; [cbn in Hn; lia|discriminate]).
  pose proof (get_indicators_value env df Hr Hne) as Hd. cbv zeta in Hd.
  fold closes in Hd.
  assert (2 <= List.length closes)%nat as Hc
    by (subst closes; rewrite length_map; exact Hn).
  destruct (z_score_of_cases sqrt closes Hc) as (_ & Hz & _).
  fold window in Hz. rewrite Hz in Hd by lra.
  eexists _, _, _, _. split; [exact Hd|].
  set (mean := Qsum window / inject_Z (Z.of_nat (List.length window))).
  pose proof (mean_matches_spec window) as Hm. fold mean in Hm.
  destruct (quotient_sign (last closes 0 - mean) _ Hs) as [Hpos Hneg].
  unfold gtb. cbn [ltb]. rewrite !Qltb_lt, Hpos, Hneg, <- Hm. split; split; lra.
Qed.

(** ** Outages of any length *)

(** X17.  Any number of consecutive passes that find the connection down
    send no order and leave the loop variables alone: each one shuts the
    terminal down, sleeps five seconds and initializes it again, and the
    loop then goes on from the state it had before the outage. *)
Theorem outage_of_any_length (down envs : list cycle_env) (st : state) :
  Forall (fun env => terminal_connected env = Some false) down ->
  main_loop sqrt (down ++ envs) st
  = (List.concat (map (fun _ => reconnect_events) down)
       ++ trace (main_loop sqrt envs st),
     outcome (main_loop sqrt envs st)) /\
  orders_of (List.concat (map (fun _ => reconnect_events) down)) = [] /\
  audit_of (List.concat (map (fun _ => reconnect_events) down)) = [].
Proof.
  induction 1 as [|env down Hc _ IH].
  - cbn. destruct (main_loop sqrt envs st). repeat split.
  - destruct IH as (IH & IHo & IHa).
    assert (cycle sqrt env st = (reconnect_events, Ok st)) as E
      by (unfold cycle; rewrite Hc; reflexivity).
    split.
    + cbn [app main_loop map List.concat]. rewrite E. cbn [bind]. rewrite IH.
      rewrite <- app_assoc. reflexivity.
    + cbn [map List.concat]. rewrite orders_of_app, audit_of_app, IHo, IHa.
      split; reflexivity.
Qed.

(** ** Exceptions *)

Lemma outcome_of_bind {A B} (m : M A) (f : A -> M B) :
  outcome (bind m f)
  = match outcome m with
    | Ok a => outcome (f a)
    | Raise e => Raise e
    end.
Proof.
  destruct m as [t [a|e]]; [|reflexivity].
  unfold bind, outcome. cbn. destruct (f a). reflexivity.
Qed.

Lemma zero_divisor (tv : float) :
  is_zero (mul (mul (Fin 10) tv) (Fin 100)) = true -> is_zero tv = true.
Proof.
  destruct tv as [q| | |]; cbn; try discriminate.
  rewrite !Qeq_bool_iff. intro H.
  destruct (Qeq_dec q 0) as [E|N]; [exact E|].
  exfalso. apply N.
  assert (q == 10 * q * 100 / 1000) as -> by (field).
  rewrite H. reflexivity.
Qed.

(** The risk sizing raises only for a missing symbol or a zero tick
    value. *)
Lemma get_lot_size_exception (env : cycle_env) (r s : float) (e : exn) :
  outcome (get_lot_size env r s) = Raise e ->
  (e = AttributeError /\ trade_tick_value env = None) \/
  (e = ZeroDivisionError /\
   exists tv, trade_tick_value env = Some tv /\ is_zero tv = true).
Proof.
  unfold get_lot_size.
  destruct (trade_tick_value env) as [tv|];
    [|intros [= <-]; left; split; reflexivity].
  cbn [get_attr bind ret emit raise].
  destruct (gtb (Fin 10) s) eqn:Ef.
  - unfold py_max. rewrite Ef. unfold py_truediv.
    destruct (is_zero (mul (mul (Fin 10) tv) (Fin 100))) eqn:Ez.
    + intros [= <-]. right. split; [reflexivity|].
      exists tv. split; [reflexivity|]. apply zero_divisor, Ez.
    + cbn [bind ret]. destruct (ltb _ _); discriminate.
  - cbn [bind ret]. destruct (ltb _ _); discriminate.
Qed.

Lemma outcome_emit (e : event) : outcome (emit e) = Ok tt.
Proof. reflexivity. Qed.

Lemma outcome_ret {A} (a : A) : outcome (ret a) = Ok a.
Proof. reflexivity. Qed.

Lemma outcome_raise {A} (e : exn) : outcome (raise e : M A) = Raise e.
Proof. reflexivity. Qed.

(** Follows the value of a computation through its binds. *)
Ltac outcome_norm :=
  repeat first
    [ rewrite outcome_of_bind | rewrite outcome_emit | rewrite outcome_ret
    | rewrite outcome_raise | progress cbv beta iota
    | progress cbn [get_attr operand] ].

Lemma entry_branch_exception (env : cycle_env) (st : state)
  (z price atr : float) (is_trending : bool) (e : exn) :
  outcome (entry_branch env st z price atr is_trending) = Raise e ->
  (e = AttributeError /\
   (account_equity env = None \/ trade_tick_value env = None \/
    symbol_info_tick env = None \/ exists req, order_send env req = None)) \/
  (e = ZeroDivisionError /\
   exists tv, trade_tick_value env = Some tv /\ is_zero tv = true).
Proof.
  unfold entry_branch.
  destruct (gtb (abs z) ENTRY_Z && negb is_trending); [|discriminate].
  destruct (account_equity env) as [equity|]; outcome_norm;
    [|intros [= <-]; left; split; [reflexivity|left; reflexivity]].
  destruct (outcome (get_lot_size env _ _)) as [lots|e'] eqn:El; outcome_norm.
  - destruct (geb lots (Fin (1 # 100))); [|discriminate].
    unfold send_market_order.
    destruct (symbol_info_tick env) as [tk|]; outcome_norm;
      [|intros [= <-]; left; split; [reflexivity|do 2 right; left; reflexivity]].
    match goal with |- context [order_send env ?r] =>
      destruct (order_send env r) as [retcode|] eqn:Es end; outcome_norm.
    + destruct (retcode =? TRADE_RETCODE_DONE)%Z; [|discriminate].
      unfold log_trade. outcome_norm. discriminate.
    + intros [= <-]. left. split; [reflexivity|]. do 3 right. eexists. exact Es.
  - intros [= ->]. destruct (get_lot_size_exception env _ _ e El) as [[-> H]|[-> H]].
    + left. split; [reflexivity|right; left; exact H].
    + right. split; [reflexivity|exact H].
Qed.

Lemma exit_branch_exception (env : cycle_env) (st : state) (held : direction)
  (z price : float) (e : exn) :
  outcome (exit_branch env st held z price) = Raise e ->
  (e = TypeError /\ (trade_entry_time st = None \/ entry_price st = None)) \/
  (e = AttributeError /\
   (symbol_info_tick env = None \/ exists req, order_send env req = None)).
Proof.
  unfold exit_branch.
  destruct (trade_entry_time st) as [entry_time|]; outcome_norm;
    [|intros [= <-]; left; split; [reflexivity|left; reflexivity]].
  match goal with |- context [if ?c then _ else _] => destruct c end;
    [|discriminate].
  unfold close_position.
  destruct (symbol_info_tick env) as [tk|]; outcome_norm;
    [|intros [= <-]; right; split; [reflexivity|left; reflexivity]].
  match goal with |- context [order_send env ?r] =>
    destruct (order_send env r) as [retcode|] eqn:Es end; outcome_norm.
  - destruct (retcode =? TRADE_RETCODE_DONE)%Z; [|discriminate].
    destruct (entry_price st) as [entry|]; outcome_norm;
      [|intros [= <-]; left; split; [reflexivity|right; reflexivity]].
    unfold log_trade. outcome_norm. discriminate.
  - intros [= <-]. right. split; [reflexivity|]. right. eexists. exact Es.
Qed.

Lemma cycle_exception_causes (env : cycle_env) (st : state) (e : exn) :
  outcome (cycle sqrt env st) = Raise e ->
  (e = AttributeError /\
   (terminal_connected env = None \/ account_equity env = None \/
    trade_tick_value env = None \/ symbol_info_tick env = None \/
    exists req, order_send env req = None)) \/
  (e = IndexError /\ copy_rates_from_pos env 200 = Some []) \/
  (e = ZeroDivisionError /\
   exists tv, trade_tick_value env = Some tv /\ is_zero tv = true) \/
  (e = TypeError /\ active_position st <> None /\
   (trade_entry_time st = None \/ entry_price st = None)).
Proof.
  destruct (terminal_connected env) as [[|]|] eqn:Hc.
  - destruct (get_indicators_cases sqrt env)
      as [[_ E]|[[Hr E]|(df & data & _ & _ & E & _)]].
    + unfold cycle. rewrite Hc, E. discriminate.
    + unfold cycle. rewrite Hc, E. intros [= <-].
      right; left. split; [reflexivity|exact Hr].
    + rewrite (cycle_evaluates sqrt env st data Hc (f_equal snd E)).
      unfold outcome at 1. cbn [snd].
      destruct data as [[[z price] atr] is_trending].
      destruct (active_position st) as [held|] eqn:Hact.
      * rewrite (evaluate_held env st held z price atr is_trending Hact).
        intro H. destruct (exit_branch_exception env st held z price e H)
          as [[-> Hs]|[-> [Hs|Hs]]].
        -- do 3 right. split; [reflexivity|]. split; [discriminate|exact Hs].
        -- left. split; [reflexivity|]. do 3 right. left. exact Hs.
        -- left. split; [reflexivity|]. do 4 right. exact Hs.
      * rewrite (evaluate_flat env st z price atr is_trending Hact).
        intro H.
        destruct (entry_branch_exception env st z price atr is_trending e H)
          as [[-> Hs]|[-> Hs]].
        -- left. split; [reflexivity|]. right. exact Hs.
        -- do 2 right. left. split; [reflexivity|exact Hs].
  - unfold cycle. rewrite Hc. discriminate.
  - unfold cycle. rewrite Hc. intros [= <-].
    left. split; [reflexivity|left; reflexivity].
Qed.

(** X18.  What lies behind each exception of a pass.  An AttributeError:
    the terminal has returned [None] for the connection, the account, the
    symbol, the quote or an order.  An IndexError: the bars were an empty
    array.  A ZeroDivisionError: the tick value was zero.  A TypeError: a
    position was held without entry time or entry price. *)
Theorem pass_exceptions (env : cycle_env) (st : state) :
  (outcome (cycle sqrt env st) = Raise AttributeError ->
   terminal_connected env = None \/ account_equity env = None \/
   trade_tick_value env = None \/ symbol_info_tick env = None \/
   exists req, order_send env req = None) /\
  (outcome (cycle sqrt env st) = Raise IndexError ->
   copy_rates_from_pos env 200 = Some []) /\
  (outcome (cycle sqrt env st) = Raise ZeroDivisionError ->
   exists tv, trade_tick_value env = Some tv /\ is_zero tv = true) /\
  (outcome (cycle sqrt env st) = Raise TypeError ->
   active_position st <> None /\
   (trade_entry_time st = None \/ entry_price st = None)).
Proof.
  split; [|split; [|split]]; intro H;
    destruct (cycle_exception_causes env st _ H)
      as [[E ?]|[[E ?]|[[E ?]|[E ?]]]];
    try discriminate E; assumption.
Qed.

(** ** Well-formed loop variables *)

Lemma entry_branch_state (env : cycle_env) (st st' : state)
  (z price atr : float) (is_trending : bool) :
  outcome (entry_branch env st z price atr is_trending) = Ok st' ->
  st' = st \/ (exists lots, st' = set_trade_lots st lots) \/
  exists d lots, st' = mkState (Some d) (Some price) (Some (now env)) lots.
Proof.
  unfold entry_branch.
  destruct (gtb (abs z) ENTRY_Z && negb is_trending);
    [|intros [= <-]; left; reflexivity].
  destruct (account_equity env) as [equity|]; outcome_norm; [|discriminate].
  destruct (outcome (get_lot_size env _ _)) as [lots|e'];
    outcome_norm; [|discriminate].
  destruct (geb lots (Fin (1 # 100)));
    [|intros [= <-]; right; left; eexists; reflexivity].
  unfold send_market_order.
  destruct (symbol_info_tick env) as [tk|]; outcome_norm; [|discriminate].
  match goal with |- context [order_send env ?r] =>
    destruct (order_send env r) as [retcode|] end; outcome_norm; [|discriminate].
  destruct (retcode =? TRADE_RETCODE_DONE)%Z.
  - unfold log_trade. outcome_norm. intros [= <-].
    do 2 right. eexists _, _. reflexivity.
  - intros [= <-]. right; left. eexists. reflexivity.
Qed.

Lemma exit_branch_state (env : cycle_env) (st st' : state) (held : direction)
  (z price : float) :
  outcome (exit_branch env st held z price) = Ok st' ->
  st' = st \/ st' = set_active_position st None.
Proof.
  unfold exit_branch.
  destruct (trade_entry_time st) as [entry_time|]; outcome_norm; [|discriminate].
  match goal with |- context [if ?c then _ else _] => destruct c end;
    [|intros [= <-]; left; reflexivity].
  unfold close_position.
  destruct (symbol_info_tick env) as [tk|]; outcome_norm; [|discriminate].
  match goal with |- context [order_send env ?r] =>
    destruct (order_send env r) as [retcode|] end; outcome_norm; [|discriminate].
  destruct (retcode =? TRADE_RETCODE_DONE)%Z; [|intros [= <-]; left; reflexivity].
  destruct (entry_price st) as [entry|]; outcome_norm; [|discriminate].
  unfold log_trade. outcome_norm. intros [= <-]. right. reflexivity.
Qed.

Lemma cycle_keeps_well_formed (env : cycle_env) (st st' : state) :
  well_formed st -> outcome (cycle sqrt env st) = Ok st' -> well_formed st'.
Proof.
  intros Hw Hst.
  destruct (cycle_reaches_evaluate env st)
    as [(_ & _ & Hsame)|(data & _ & _ & _ & _ & Hout)].
  { rewrite (Hsame st' Hst). exact Hw. }
  rewrite Hout in Hst. destruct data as [[[z price] atr] is_trending].
  unfold evaluate in Hst. destruct (active_position st) as [held|] eqn:Hact.
  - destruct (exit_branch_state env st st' held z price Hst) as [->| ->];
      [exact Hw|].
    intro H. now elim H.
  - destruct (entry_branch_state env st st' z price atr is_trending Hst)
      as [->|[[lots ->]|(d & lots & ->)]]; [exact Hw| |].
    + intro H. cbn in H. rewrite Hact in H. now elim H.
    + intros _. split; discriminate.
Qed.

Lemma recovery_is_well_formed (positions : option (list position)) (st : state) :
  outcome (check_existing_position positions) = Ok st -> well_formed st.
Proof.
  rewrite check_existing_position_outcome.
  destruct (filter _ _) as [|pos rest]; intros [= <-].
  - intro H. now elim H.
  - intros _. split; discriminate.
Qed.

Lemma main_loop_keeps_well_formed (envs : list cycle_env) (st : state) :
  well_formed st ->
  outcome (main_loop sqrt envs st) <> Raise TypeError /\
  (forall st', outcome (main_loop sqrt envs st) = Ok st' -> well_formed st').
Proof.
  revert st. induction envs as [|env envs IH]; intros st Hw.
  - split; [discriminate|]. intros st' [= <-]. exact Hw.
  - cbn [main_loop]. rewrite outcome_of_bind.
    destruct (outcome (cycle sqrt env st)) as [st1|e] eqn:E.
    + apply IH. exact (cycle_keeps_well_formed env st st1 Hw E).
    + split; [|discriminate]. intros [= ->].
      destruct (cycle_exception_causes env st TypeError E)
        as [[H _]|[[H _]|[[H _]|(_ & Hact & Hnone)]]]; try discriminate H.
      destruct (Hw Hact) as [Hp Ht]. destruct Hnone; contradiction.
Qed.

(** X19.  The loop variables stay well formed: recovery returns a state in
    which a held position has its entry price and entry time, every pass
    keeps that, and so the loop that starts from a recovered state never
    ends on a TypeError, however many passes it runs and whatever the
    terminal answers. *)
Theorem recovered_loop_has_no_type_error (positions : option (list position))
  (envs : list cycle_env) (st : state) :
  outcome (check_existing_position positions) = Ok st ->
  well_formed st /\
  outcome (main_loop sqrt envs st) <> Raise TypeError /\
  (forall st', outcome (main_loop sqrt envs st) = Ok st' -> well_formed st').
Proof.
  intro H. pose proof (recovery_is_well_formed positions st H) as Hw.
  split; [exact Hw|]. apply main_loop_keeps_well_formed, Hw.
Qed.

(** ** A terminal that answers *)

Lemma cycle_on_responsive (env : cycle_env) (st : state) :
  responsive env -> well_formed st ->
  exists st', outcome (cycle sqrt env st) = Ok st'.
Proof.
  intros (Hc & Hr & Ha & (tv & Htv & Hz) & Htk & Hos) Hw.
  destruct (outcome (cycle sqrt env st)) as [st'|e] eqn:E; [eexists; reflexivity|].
  exfalso.
  destruct (cycle_exception_causes env st e E)
    as [[_ [H|[H|[H|[H|[req H]]]]]]|[[_ H]|[(_ & tv' & H & Hz')|(_ & Hact & H)]]].
  - contradiction.
  - contradiction.
  - rewrite Htv in H. discriminate H.
  - contradiction.
  - exact (Hos req H).
  - contradiction.
  - rewrite Htv in H. injection H as <-. rewrite Hz in Hz'. discriminate Hz'.
  - destruct (Hw Hact) as [Hp Ht]. destruct H; contradiction.
Qed.

Lemma main_loop_on_responsive (envs : list cycle_env) (st : state) :
  Forall responsive envs -> well_formed st ->
  exists st', outcome (main_loop sqrt envs st) = Ok st'.
Proof.
  intro H. revert st. induction H as [|env envs Hr _ IH]; intros st Hw.
  - eexists. reflexivity.
  - cbn [main_loop]. rewrite outcome_of_bind.
    destruct (cycle_on_responsive env st Hr Hw) as [st1 E]. rewrite E.
    apply IH. exact (cycle_keeps_well_formed env st st1 Hw E).
Qed.

(** X20.  While the terminal answers every call (a connection state, an
    account, a tick value that is not zero, a quote, a result for every
    order, and no empty array of bars) and the loop variables are well
    formed at the start, no pass of the loop, however many there are, ends
    on an AttributeError, an IndexError, a ZeroDivisionError or a
    TypeError. *)
Theorem responsive_terminal_raises_none (envs : list cycle_env) (st : state)
  (e : exn) :
  Forall responsive envs -> well_formed st ->
  In e [AttributeError; IndexError; ZeroDivisionError; TypeError] ->
  outcome (main_loop sqrt envs st) <> Raise e.
Proof.
  intros Hr Hw _ H.
  destruct (main_loop_on_responsive envs st Hr Hw) as [st' E].
  rewrite E in H. discriminate H.
Qed.

End Passes.

(** ** Recovery and foreign positions *)

Lemma filter_filter {A} (f : A -> bool) (l : list A) :
  filter f (filter f l) = filter f l.
Proof.
  induction l as [|x l IH]; [reflexivity|].
  cbn [filter]. destruct (f x) eqn:E; [|exact IH].
  cbn [filter]. rewrite E, IH. reflexivity.
Qed.

(** X21.  Recovery sees only the positions of this strategy: positions
    with another magic number, wherever they stand in the report of the
    terminal, do not change the recovered state. *)
Theorem recovery_ignores_foreign_positions (reported : list position) :
  outcome (check_existing_position (Some reported))
  = outcome (check_existing_position
               (Some (filter (fun p => (magic p =? MAGIC_NUMBER)%Z) reported))).
Proof.
  rewrite !check_existing_position_outcome, filter_filter. reflexivity.
Qed.

(** ** The properties of the passes on the example terminals *)

Lemma orders_are_tagged_witness : tagged stop_request.
Proof.
  apply (orders_are_tagged Qsqrt [rejecting_env] holding_long stop_request).
  vm_compute. left. reflexivity.
Defined.

Lemma entry_order_of_a_pass_witness :
  exists (z price atr : float) (tk : tick) (q : Q),
    outcome (get_indicators Qsqrt (filling_env 10000))
    = Ok (Some (z, price, atr, false)) /\
    gtb (abs z) ENTRY_Z = true /\
    symbol_info_tick (filling_env 10000) = Some tk /\
    1 # 100 <= q <= 10 /\
    example_entry_request
    = entry_request tk (if gtb z (Fin 0) then SHORT else LONG) (Fin q).
Proof.
  apply (entry_order_of_a_pass Qsqrt (filling_env 10000) no_position
           example_entry_request).
  - reflexivity.
  - vm_compute. left. reflexivity.
Defined.

Lemma closing_order_of_a_pass_witness :
  exists (tk : tick) (reason : string),
    symbol_info_tick rejecting_env = Some tk /\
    In reason ["Target"; "Z-Stop"; "Time"; "Weekend"]%string /\
    stop_request = closing_request tk LONG (trade_lots holding_long) reason.
Proof.
  apply (closing_order_of_a_pass Qsqrt rejecting_env holding_long LONG stop_request).
  - reflexivity.
  - vm_compute. left. reflexivity.
Defined.

Lemma entry_fill_sets_the_position_witness :
  exists (z price atr : float) (req : request),
    let direction := if gtb z (Fin 0) then SHORT else LONG in
    outcome (get_indicators Qsqrt (filling_env 10000))
    = Ok (Some (z, price, atr, false)) /\
    orders_of (trace (cycle Qsqrt (filling_env 10000) no_position)) = [req] /\
    order_send (filling_env 10000) req = Some TRADE_RETCODE_DONE /\
    entered_short
    = mkState (Some direction) (Some price) (Some (now (filling_env 10000)))
              (req_volume req) /\
    audit_of (trace (cycle Qsqrt (filling_env 10000) no_position))
    = [mkAudit (now (filling_env 10000)) "ENTRY" (direction_str direction)
               (round price 3) (req_volume req) (round (Fin 0) 2)
               ("Z:" ++ format_2f z)].
Proof.
  apply (entry_fill_sets_the_position Qsqrt (filling_env 10000) no_position
           entered_short).
  - reflexivity.
  - vm_compute. reflexivity.
  - discriminate.
Defined.

Lemma exit_fill_clears_the_position_witness :
  exists (z price atr : float) (is_trending : bool) (req : request) (entry : float),
    outcome (get_indicators Qsqrt (filling_env 10000))
    = Ok (Some (z, price, atr, is_trending)) /\
    orders_of (trace (cycle Qsqrt (filling_env 10000) holding_long)) = [req] /\
    order_send (filling_env 10000) req = Some TRADE_RETCODE_DONE /\
    entry_price holding_long = Some entry /\
    set_active_position holding_long None = set_active_position holding_long None /\
    audit_of (trace (cycle Qsqrt (filling_env 10000) holding_long))
    = [mkAudit (now (filling_env 10000)) "EXIT" (direction_str LONG) (round price 3)
         (trade_lots holding_long)
         (round (mul (mul (if direction_eqb LONG SHORT then sub entry price
                           else sub price entry)
                          (trade_lots holding_long)) (Fin 100000)) 2)
         (req_comment req)].
Proof.
  apply (exit_fill_clears_the_position Qsqrt (filling_env 10000) holding_long
           (set_active_position holding_long None) LONG).
  - reflexivity.
  - vm_compute. reflexivity.
  - reflexivity.
Defined.

Lemma recorded_profit_witness :
  exists (r : audit_record) (x : Q),
    In r (audit_of (trace (cycle Qsqrt (filling_env 10000) holding_long))) /\
    PnL_JPY r = Fin x /\
    x == Qround_nd 2 (profit LONG (15990 # 100) (16009 # 100) (5 # 100)) /\
    (0 <= profit LONG (15990 # 100) (16009 # 100) (5 # 100) -> 0 <= x) /\
    (profit LONG (15990 # 100) (16009 # 100) (5 # 100) <= 0 -> x <= 0).
Proof.
  assert (exists r, In r (audit_of (trace (cycle Qsqrt (filling_env 10000)
                                             holding_long)))) as [r Hr].
  { vm_compute. eexists. left. reflexivity. }
  exists r.
  assert (exists x : Q,
            PnL_JPY r = Fin x /\
            x == Qround_nd 2 (profit LONG (15990 # 100) (16009 # 100) (5 # 100)) /\
            (0 <= profit LONG (15990 # 100) (16009 # 100) (5 # 100) -> 0 <= x) /\
            (profit LONG (15990 # 100) (16009 # 100) (5 # 100) <= 0 -> x <= 0))
    as (x & H).
  { eapply (recorded_profit Qsqrt (filling_env 10000) holding_long LONG);
      [reflexivity | reflexivity | reflexivity | vm_compute; reflexivity | exact Hr]. }
  exists x. split; [exact Hr | exact H].
Defined.

Lemma closing_order_mirrors_entry_witness :
  req_volume example_cover_request = req_volume example_entry_request /\
  req_deviation example_entry_request = Some 20%Z /\
  req_deviation example_cover_request = None /\
  ((req_type example_entry_request = ORDER_TYPE_BUY /\
    req_type example_cover_request = ORDER_TYPE_SELL) \/
   (req_type example_entry_request = ORDER_TYPE_SELL /\
    req_type example_cover_request = ORDER_TYPE_BUY)).
Proof.
  apply (closing_order_mirrors_entry Qsqrt (filling_env 10000) (filling_env 10000)
           no_position entered_short).
  - reflexivity.
  - vm_compute. reflexivity.
  - discriminate.
  - vm_compute. left. reflexivity.
  - vm_compute. left. reflexivity.
Defined.

Lemma position_is_held_witness :
  cycle Qsqrt calm_env holding_long
  = ([Mt5 TerminalInfo; Mt5 (CopyRatesFromPos 200); Sleep 60], Ok holding_long).
Proof.
  eapply (position_is_held Qsqrt calm_env holding_long LONG).
  - reflexivity.
  - vm_compute. reflexivity.
  - reflexivity.
  - reflexivity.
  - vm_compute. split; reflexivity.
  - vm_compute. discriminate.
  - left. vm_compute. discriminate.
Defined.

Lemma nan_z_score_is_inert_witness :
  (active_position no_position = None ->
   cycle Qsqrt flat_env no_position
   = ([Mt5 TerminalInfo; Mt5 (CopyRatesFromPos 200); Sleep 60], Ok no_position)) /\
  (forall req, active_position no_position <> None ->
     In req (orders_of (trace (cycle Qsqrt flat_env no_position))) ->
     req_comment req = "Time"%string \/ req_comment req = "Weekend"%string).
Proof.
  eapply (nan_z_score_is_inert Qsqrt flat_env no_position).
  - reflexivity.
  - vm_compute. reflexivity.
Defined.

Lemma trend_blocks_entry_witness :
  cycle Qsqrt trending_env no_position
  = ([Mt5 TerminalInfo; Mt5 (CopyRatesFromPos 200); Sleep 60], Ok no_position).
Proof.
  eapply (trend_blocks_entry Qsqrt trending_env no_position).
  - reflexivity.
  - vm_compute. reflexivity.
  - reflexivity.
Defined.

Lemma short_history_reports_no_trend_witness :
  exists z price atr : float,
    outcome (get_indicators Qsqrt (filling_env 10000))
    = Ok (Some (z, price, atr, false)).
Proof.
  apply (short_history_reports_no_trend Qsqrt (filling_env 10000) example_history).
  - reflexivity.
  - discriminate.
  - vm_compute. lia.
Defined.

Lemma few_bars_never_enter_witness :
  (exists z price is_trending,
     outcome (get_indicators Qsqrt few_bars_env)
     = Ok (Some (z, price, NaN, is_trending))) /\
  orders_of (trace (cycle Qsqrt few_bars_env no_position)) = [] /\
  audit_of (trace (cycle Qsqrt few_bars_env no_position)) = [] /\
  (forall st', outcome (cycle Qsqrt few_bars_env no_position) = Ok st' ->
               active_position st' = None).
Proof.
  apply (few_bars_never_enter Qsqrt few_bars_env no_position few_bars).
  - reflexivity.
  - discriminate.
  - vm_compute. lia.
  - reflexivity.
Defined.

Lemma z_score_sign_witness :
  exists (z : Q) (price atr : float) (is_trending : bool),
    outcome (get_indicators Qsqrt (filling_env 10000))
    = Ok (Some (Fin z, price, atr, is_trending)) /\
    (gtb (Fin z) (Fin 0) = true
     <-> spec_mean (tail LOOKBACK (map close example_history))
         < last (map close example_history) 0) /\
    (ltb (Fin z) (Fin 0) = true
     <-> last (map close example_history) 0
         < spec_mean (tail LOOKBACK (map close example_history))).
Proof.
  apply (z_score_sign Qsqrt (filling_env 10000) example_history).
  - reflexivity.
  - vm_compute. lia.
  - vm_compute. reflexivity.
Defined.

Lemma outage_of_any_length_witness :
  main_loop Qsqrt ([offline_env; offline_env; offline_env] ++ [filling_env 10000])
            holding_long
  = (List.concat (map (fun _ => reconnect_events)
                      [offline_env; offline_env; offline_env])
       ++ trace (main_loop Qsqrt [filling_env 10000] holding_long),
     outcome (main_loop Qsqrt [filling_env 10000] holding_long)) /\
  orders_of (List.concat (map (fun _ => reconnect_events)
                              [offline_env; offline_env; offline_env])) = [] /\
  audit_of (List.concat (map (fun _ => reconnect_events)
                             [offline_env; offline_env; offline_env])) = [].
Proof.
  apply (outage_of_any_length Qsqrt [offline_env; offline_env; offline_env]
           [filling_env 10000] holding_long).
  repeat constructor.
Defined.

Lemma pass_exceptions_witness :
  terminal_connected silent_env = None \/ account_equity silent_env = None \/
  trade_tick_value silent_env = None \/ symbol_info_tick silent_env = None \/
  exists req, order_send silent_env req = None.
Proof.
  apply (proj1 (pass_exceptions Qsqrt silent_env no_position)).
  reflexivity.
Defined.

Lemma recovered_loop_has_no_type_error_witness :
  well_formed (adopt (mkPosition MAGIC_NUMBER 0 (Fin (16100 # 100)) 1700000200
                                 (Fin (10 # 100)))) /\
  outcome (main_loop Qsqrt [rejecting_env; filling_env 10000]
             (adopt (mkPosition MAGIC_NUMBER 0 (Fin (16100 # 100)) 1700000200
                                (Fin (10 # 100)))))
  <> Raise TypeError /\
  (forall st',
     outcome (main_loop Qsqrt [rejecting_env; filling_env 10000]
                (adopt (mkPosition MAGIC_NUMBER 0 (Fin (16100 # 100)) 1700000200
                                   (Fin (10 # 100))))) = Ok st' ->
     well_formed st').
Proof.
  apply (recovered_loop_has_no_type_error Qsqrt (Some two_positions)).
  reflexivity.
Defined.

Lemma responsive_terminal_raises_none_witness :
  outcome (main_loop Qsqrt [filling_env 10000; offline_env; rejecting_env]
             no_position)
  <> Raise AttributeError.
Proof.
  apply (responsive_terminal_raises_none Qsqrt
           [filling_env 10000; offline_env; rejecting_env] no_position
           AttributeError).
  - repeat constructor; try discriminate;
      try (exists (Fin 1); split; reflexivity); intro req; discriminate.
  - intro H. exfalso. apply H. reflexivity.
  - left. reflexivity.
Defined.
